(** * Order service: a shallow embedding of [services.py] and [models.py]

    The development follows the two source files:

    - [models.py]: the pydantic models [OrderItem], [OrderRequest],
      [OrderResponse], [MenuItem], [MenuResponse] and the validation that
      building an [OrderItem] or an [OrderRequest] performs;
    - [services.py]: [OrderService] (menu, pricing, time estimate, order
      store) and [PaymentService].

    Modelling choices.

    - A Python [float] is an IEEE 754 binary64 number: it is Rocq's primitive
      [float], whose operations are the same correctly rounded binary64
      operations.  General facts about them go through the specification
      [Prim2SF] of the standard library.
    - A Python [int] is unbounded: it is [Z].
    - A Python [str] is a sequence of Unicode characters: it is held as the
      [string] of its UTF-8 encoding, and [code_points] gives its characters.
      Lengths and the classes of the regular expression are taken on the
      characters ([len], [is_unicode_digit], [is_unicode_space], with the
      tables of Unicode 14.0, those of CPython 3.11).  Two such strings are
      equal exactly when their encodings are.
    - [self.orders] is a [dict]: it keeps its keys in order of first
      insertion, and [get_order_history] iterates over it, so it is an
      association list with that discipline ([dict_set]).
    - Methods take [self] as their first argument and return the new [self]
      with their result.  An exception is a value of type [exception].
    - The clock and the random source ([datetime.now], [datetime.utcnow],
      [uuid.uuid4]) are inputs of the operations that read them.
    - Calls to [self.logger] write to the logging system only; they are left
      out. *)

From Stdlib Require Import ZArith List String Ascii Bool Lia Floats Uint63.
Import ListNotations.

#[local] Set Warnings "-inexact-float,-register-all".
#[local] Open Scope string_scope.
#[local] Open Scope Z_scope.

(** ** Python values *)

(** *** Strings *)

(** The characters of a string, decoded from its UTF-8 encoding: a byte
    below 128 is a character; a byte from 192 opens a character of 2, 3 or 4
    bytes, whose following bytes bring 6 bits each.  [need] is the number of
    bytes still expected and [acc] the bits read so far. *)
Fixpoint decode_utf8 (s : string) (need : nat) (acc : Z) : list Z :=
  match s with
  | EmptyString => []
  | String c s' =>
      let b := Z.of_nat (nat_of_ascii c) in
      match need with
      | O =>
          if b <? 128 then b :: decode_utf8 s' 0 0
          else if b <? 224 then decode_utf8 s' 1 (b - 192)
          else if b <? 240 then decode_utf8 s' 2 (b - 224)
          else decode_utf8 s' 3 (b - 240)
      | S O => (acc * 64 + (b - 128)) :: decode_utf8 s' 0 0
      | S n => decode_utf8 s' n (acc * 64 + (b - 128))
      end
  end.

Definition code_points (s : string) : list Z := decode_utf8 s 0 0.

(** [len(s)]: the number of characters. *)
Definition len (s : string) : Z := Z.of_nat (List.length (code_points s)).

(** [not s] for a string: the empty string is falsy. *)
Definition str_falsy (s : string) : bool :=
  match s with
  | EmptyString => true
  | String _ _ => false
  end.

(** [not v] for [v : Optional[str]]: [None] and the empty string are falsy. *)
Definition opt_str_falsy (v : option string) : bool :=
  match v with
  | None => true
  | Some s => str_falsy s
  end.

Definition in_range (lo hi : nat) (c : ascii) : bool :=
  (Nat.leb lo (nat_of_ascii c) && Nat.leb (nat_of_ascii c) hi)%bool.

Definition is_lower (c : ascii) : bool := in_range 97 122 c.
Definition is_upper (c : ascii) : bool := in_range 65 90 c.
Definition is_digit (c : ascii) : bool := in_range 48 57 c.

Definition in_ranges (ranges : list (Z * Z)) (cp : Z) : bool :=
  existsb (fun r => ((fst r <=? cp) && (cp <=? snd r))%bool) ranges.

(** [\d] of the [re] module on a [str]: the decimal digits of Unicode, ten
    from each first code point below (fifty from 120782). *)
Definition unicode_digit_ranges : list (Z * Z) :=
  [(48, 57); (1632, 1641); (1776, 1785); (1984, 1993); (2406, 2415);
   (2534, 2543); (2662, 2671); (2790, 2799); (2918, 2927); (3046, 3055);
   (3174, 3183); (3302, 3311); (3430, 3439); (3558, 3567); (3664, 3673);
   (3792, 3801); (3872, 3881); (4160, 4169); (4240, 4249); (6112, 6121);
   (6160, 6169); (6470, 6479); (6608, 6617); (6784, 6793); (6800, 6809);
   (6992, 7001); (7088, 7097); (7232, 7241); (7248, 7257); (42528, 42537);
   (43216, 43225); (43264, 43273); (43472, 43481); (43504, 43513);
   (43600, 43609); (44016, 44025); (65296, 65305); (66720, 66729);
   (68912, 68921); (69734, 69743); (69872, 69881); (69942, 69951);
   (70096, 70105); (70384, 70393); (70736, 70745); (70864, 70873);
   (71248, 71257); (71360, 71369); (71472, 71481); (71904, 71913);
   (72016, 72025); (72784, 72793); (73040, 73049); (73120, 73129);
   (92768, 92777); (92864, 92873); (93008, 93017); (120782, 120831);
   (123200, 123209); (123632, 123641); (125264, 125273); (130032, 130041)].

Definition is_unicode_digit (cp : Z) : bool :=
  in_ranges unicode_digit_ranges cp.

(** [\s] of the [re] module on a [str]: the white space of Unicode. *)
Definition unicode_space_ranges : list (Z * Z) :=
  [(9, 13); (28, 32); (133, 133); (160, 160); (5760, 5760); (8192, 8202);
   (8232, 8233); (8239, 8239); (8287, 8287); (12288, 12288)].

Definition is_unicode_space (cp : Z) : bool :=
  in_ranges unicode_space_ranges cp.

Definition upper_char (c : ascii) : ascii :=
  if is_lower c then ascii_of_nat (nat_of_ascii c - 32) else c.

(** [s.upper()], for a string of ASCII characters, as [str(uuid.uuid4())]
    is. *)
Fixpoint upper (s : string) : string :=
  match s with
  | EmptyString => EmptyString
  | String c s' => String (upper_char c) (upper s')
  end.

(** [s[:n]], for a string whose first [n] characters are ASCII. *)
Definition slice_to (n : nat) (s : string) : string := substring 0 n s.

Fixpoint all_chars (p : ascii -> bool) (s : string) : bool :=
  match s with
  | EmptyString => true
  | String c s' => (p c && all_chars p s')%bool
  end.

(** *** Floats *)

(** [float(z)] for an [int] that fits in 63 bits, which is the case of every
    [int] the service multiplies a price by (a quantity, at most 20 once
    validated).  The conversion is exact below 2^53. *)
Definition float_of_int (z : Z) : float :=
  if z <? 0 then (- of_uint63 (Uint63.of_Z (- z)))%float
  else of_uint63 (Uint63.of_Z z).

(** The integer nearest to [num / den], ties going to the even one
    ([den] positive). *)
Definition round_half_even (num den : Z) : Z :=
  let q := num / den in
  let r := num mod den in
  match 2 * r ?= den with
  | Lt => q
  | Gt => q + 1
  | Eq => if Z.even q then q else q + 1
  end.

(** [round(x, 2)] on a float, as CPython computes it: the exact binary value
    of [x] is rounded to the nearest multiple of 1/100, ties to even, and
    that decimal is converted back to the nearest float.  Zeros, infinities
    and NaN are returned unchanged.

    A finite [x] is [m * 2^e].  With [e >= 0] it is an integer and is its own
    rounding.  Otherwise [n] is the number of hundredths; [n / 100] is the
    correctly rounded quotient of two floats as long as [n] is below 2^53.
    Above that, [x] is at least 2^46, where consecutive floats are more than
    1/100 apart and the float nearest to the rounded decimal is [x]. *)
Definition py_round2 (x : float) : float :=
  match Prim2SF x with
  | S754_finite s m e =>
      if 0 <=? e then x
      else
        let n := round_half_even (Zpos m * 100) (2 ^ (- e)) in
        if n <? 2 ^ 53 then
          let r := (of_uint63 (Uint63.of_Z n) / 100)%float in
          if s then (- r)%float else r
        else x
  | _ => x
  end.

(** [sum(l)] of floats: the items are added from left to right, starting
    from the integer 0.  This is [sum] up to CPython 3.11.  From 3.12 on the
    same loop carries a compensation term for the rounding errors of the
    additions; the result is the same whenever every partial sum is exact,
    which is the case of a single item and of the sample orders below. *)
Definition py_sum (l : list float) : float :=
  fold_left (fun acc x => (acc + x)%float) l 0%float.

(** *** Dictionaries

    A [dict] with string keys.  Assigning to a key that is present replaces
    the value where it stands; a new key goes to the end.  Iteration follows
    the list. *)

Definition dict (V : Type) : Type := list (string * V).

Fixpoint dict_get {V} (k : string) (d : dict V) : option V :=
  match d with
  | [] => None
  | (k', v) :: d' => if String.eqb k' k then Some v else dict_get k d'
  end.

Fixpoint dict_set {V} (k : string) (v : V) (d : dict V) : dict V :=
  match d with
  | [] => [(k, v)]
  | (k', v') :: d' =>
      if String.eqb k' k then (k, v) :: d' else (k', v') :: dict_set k v d'
  end.

Definition dict_keys {V} (d : dict V) : list string := map fst d.
Definition dict_values {V} (d : dict V) : list V := map snd d.

(** *** Exceptions and results *)

(** The messages of the [ValueError]s the two files raise, and of the errors
    pydantic reports for a declared [Field] constraint. *)
Inductive message : Type :=
| MenuItemMissing (menu_item_id : Z)
    (* Позиция с ID {menu_item_id} отсутствует в меню *)
| BadPhoneFormat
    (* Некорректный формат телефона *)
| DeliveryAddressRequired
    (* Адрес доставки обязателен при выборе доставки *)
| EmptyOrder
    (* Заказ должен содержать хотя бы одну позицию *)
| ConstraintViolated (constraint : string).

(** Where an error of validation lies: the names of the fields and the
    indexes of the list elements that lead to it. *)
Inductive loc_part : Type :=
| Field (name : string)
| Index (i : nat).

Definition loc : Type := list loc_part.

(** [ValidationError] is pydantic's: it carries every error found, each with
    its place. *)
Inductive exception : Type :=
| ValueError (msg : message)
| ValidationError (errors : list (loc * message)).

Inductive result (A : Type) : Type :=
| Ok (a : A)
| Raise (e : exception).
Arguments Ok {A} a.
Arguments Raise {A} e.

Definition is_ok {A} (r : result A) : bool :=
  match r with
  | Ok _ => true
  | Raise _ => false
  end.

(** An instant, as [datetime] holds it. *)
Definition datetime : Type := Z.

(** ** [models.py] *)

(** A declared constraint of a [Field]: the value passes or the field is
    rejected with the constraint's name. *)
Definition check {A} (constraint : string) (ok : bool) (v : A) : result A :=
  if ok then Ok v else Raise (ValueError (ConstraintViolated constraint)).

Definition and_then {A B} (r : result A) (k : A -> result B) : result B :=
  match r with
  | Ok a => k a
  | Raise e => Raise e
  end.

(** The errors that an exception raised during validation stands for: its
    own message, or the errors of a nested [ValidationError]. *)
Definition errors_of (e : exception) : list (loc * message) :=
  match e with
  | ValueError msg => [([], msg)]
  | ValidationError errors => errors
  end.

Definition under (p : loc_part) (errors : list (loc * message))
  : list (loc * message) :=
  map (fun e => (p :: fst e, snd e)) errors.

(** What pydantic does with one field of a model ([validate_model]): a
    validated value is stored in [values]; errors are appended to the
    errors, under the name of the field, and leave [values] as it is. *)
Definition field {V A} (name : string) (validate : V -> result A)
    (store : A -> V -> V) (acc : V * list (loc * message))
  : V * list (loc * message) :=
  let '(values, errors) := acc in
  match validate values with
  | Ok v => (store v values, errors)
  | Raise e => (values, (errors ++ under (Field name) (errors_of e))%list)
  end.

Module OrderItem.

Record t : Type := Build {
  menu_item_id : Z;
  name : string;
  quantity : Z;
  price : float;
  modifiers : list string
}.

(** The arguments of [OrderItem(...)]. [modifiers] has a default and may be
    left out. *)
Record data : Type := Data {
  d_menu_item_id : Z;
  d_name : string;
  d_quantity : Z;
  d_price : float;
  d_modifiers : option (list string)
}.

Record values : Type := Values {
  v_menu_item_id : option Z;
  v_name : option string;
  v_quantity : option Z;
  v_price : option float;
  v_modifiers : option (list string)
}.

Definition no_values : values := Values None None None None None.

(** Fields are validated in the order of their declaration. *)
Definition validate_model (d : data) : values * list (loc * message) :=
  let acc := (no_values, []) in
  let acc :=
    field "menu_item_id"
      (fun _ => check "gt=0" (0 <? d_menu_item_id d) (d_menu_item_id d))
      (fun v vs => Values (Some v) (v_name vs) (v_quantity vs) (v_price vs)
                     (v_modifiers vs)) acc in
  let acc :=
    field "name"
      (fun _ =>
         and_then (check "min_length=2" (2 <=? len (d_name d)) (d_name d))
           (check "max_length=100" (len (d_name d) <=? 100)))
      (fun v vs => Values (v_menu_item_id vs) (Some v) (v_quantity vs)
                     (v_price vs) (v_modifiers vs)) acc in
  let acc :=
    field "quantity"
      (fun _ =>
         and_then (check "gt=0" (0 <? d_quantity d) (d_quantity d))
           (check "le=20" (d_quantity d <=? 20)))
      (fun v vs => Values (v_menu_item_id vs) (v_name vs) (Some v)
                     (v_price vs) (v_modifiers vs)) acc in
  let acc :=
    field "price"
      (fun _ => check "gt=0" (0 <? d_price d)%float (d_price d))
      (fun v vs => Values (v_menu_item_id vs) (v_name vs) (v_quantity vs)
                     (Some v) (v_modifiers vs)) acc in
  field "modifiers"
    (fun _ => Ok match d_modifiers d with Some l => l | None => [] end)
    (fun v vs => Values (v_menu_item_id vs) (v_name vs) (v_quantity vs)
                   (v_price vs) (Some v)) acc.

(** [OrderItem(...)]: the object, or pydantic's [ValidationError]. *)
Definition __init__ (d : data) : result t :=
  match validate_model d with
  | (Values (Some i) (Some n) (Some q) (Some p) (Some ms), []) =>
      Ok (Build i n q p ms)
  | (_, errors) => Raise (ValidationError errors)
  end.

End OrderItem.

Module OrderRequest.

Record t : Type := Build {
  customer_name : string;
  customer_phone : string;
  items : list OrderItem.t;
  delivery_address : option string;
  is_delivery : bool;
  special_instructions : option string
}.

(** The arguments of [OrderRequest(...)].  The three fields with a default
    may be left out ([None] at the outer level); an [Optional] field that
    is given may be given as [None] ([Some None]). *)
Record data : Type := Data {
  d_customer_name : string;
  d_customer_phone : string;
  d_items : list OrderItem.data;
  d_delivery_address : option (option string);
  d_is_delivery : option bool;
  d_special_instructions : option (option string)
}.

(** The dictionary [values] a validator receives: the fields validated so
    far.  A field that is not there yet reads as [None]. *)
Record values : Type := Values {
  v_customer_name : option string;
  v_customer_phone : option string;
  v_items : option (list OrderItem.t);
  v_delivery_address : option (option string);
  v_is_delivery : option bool;
  v_special_instructions : option (option string)
}.

Definition no_values : values := Values None None None None None None.

(** A character of the class [[\d\s\-\+\(\)]]. *)
Definition phone_char (cp : Z) : bool :=
  (is_unicode_digit cp || is_unicode_space cp
   || (cp =? 45) || (cp =? 43) || (cp =? 40) || (cp =? 41))%bool.

(** Five to twenty characters of the class. *)
Definition phone_body (cps : list Z) : bool :=
  (forallb phone_char cps
   && (5 <=? Z.of_nat (List.length cps))
   && (Z.of_nat (List.length cps) <=? 20))%bool.

Definition ends_with_newline (cps : list Z) : bool :=
  match rev cps with
  | last :: _ => last =? 10
  | [] => false
  end.

(** [re.match(r'^[\d\s\-\+\(\)]{5,20}$', v)]: five to twenty characters
    of the class up to the end of the string, or up to a line feed that
    ends it. *)
Definition re_match_phone (v : string) : bool :=
  let cps := code_points v in
  (phone_body cps
   || (ends_with_newline cps && phone_body (removelast cps)))%bool.

Definition validate_phone (v : string) : result string :=
  if negb (re_match_phone v) then Raise (ValueError BadPhoneFormat)
  else Ok v.

(** [values.get('is_delivery')] read as a condition. *)
Definition get_is_delivery (vs : values) : bool :=
  match v_is_delivery vs with
  | Some b => b
  | None => false
  end.

Definition validate_delivery_address (v : option string) (vs : values)
  : result (option string) :=
  if (get_is_delivery vs && opt_str_falsy v)%bool
  then Raise (ValueError DeliveryAddressRequired)
  else Ok v.

Definition validate_items (v : list OrderItem.t) : result (list OrderItem.t) :=
  match v with
  | [] => Raise (ValueError EmptyOrder)
  | _ :: _ => Ok v
  end.

(** Each element of [items] is built as an [OrderItem].  Every element is
    tried: the errors of a rejected element are kept under its index, and
    the list is rejected when there is any. *)
Fixpoint validate_sequence (i : nat) (l : list OrderItem.data)
  : list OrderItem.t * list (loc * message) :=
  match l with
  | [] => ([], [])
  | d :: l' =>
      let '(result, errors) := validate_sequence (S i) l' in
      match OrderItem.__init__ d with
      | Ok v => (v :: result, errors)
      | Raise e => (result, (under (Index i) (errors_of e) ++ errors)%list)
      end
  end.

Definition build_items (l : list OrderItem.data) : result (list OrderItem.t) :=
  match validate_sequence 0 l with
  | (result, []) => Ok result
  | (_, errors) => Raise (ValidationError errors)
  end.

(** Fields are validated in the order of their declaration:
    [customer_name], [customer_phone], [items], [delivery_address],
    [is_delivery], [special_instructions].  A field with a default that is
    left out takes the default without being validated; the validators of
    a field run after its declared constraints. *)
Definition validate_model (d : data) : values * list (loc * message) :=
  let acc := (no_values, []) in
  let acc :=
    field "customer_name"
      (fun _ =>
         and_then
           (check "min_length=2" (2 <=? len (d_customer_name d))
              (d_customer_name d))
           (check "max_length=100" (len (d_customer_name d) <=? 100)))
      (fun v vs => Values (Some v) (v_customer_phone vs) (v_items vs)
                     (v_delivery_address vs) (v_is_delivery vs)
                     (v_special_instructions vs)) acc in
  let acc :=
    field "customer_phone"
      (fun _ =>
         and_then
           (and_then
              (check "min_length=5" (5 <=? len (d_customer_phone d))
                 (d_customer_phone d))
              (check "max_length=20" (len (d_customer_phone d) <=? 20)))
           validate_phone)
      (fun v vs => Values (v_customer_name vs) (Some v) (v_items vs)
                     (v_delivery_address vs) (v_is_delivery vs)
                     (v_special_instructions vs)) acc in
  let acc :=
    field "items"
      (fun _ => and_then (build_items (d_items d)) validate_items)
      (fun v vs => Values (v_customer_name vs) (v_customer_phone vs) (Some v)
                     (v_delivery_address vs) (v_is_delivery vs)
                     (v_special_instructions vs)) acc in
  let acc :=
    field "delivery_address"
      (fun vs =>
         match d_delivery_address d with
         | None => Ok None
         | Some v => validate_delivery_address v vs
         end)
      (fun v vs => Values (v_customer_name vs) (v_customer_phone vs)
                     (v_items vs) (Some v) (v_is_delivery vs)
                     (v_special_instructions vs)) acc in
  let acc :=
    field "is_delivery"
      (fun _ => Ok match d_is_delivery d with Some b => b | None => false end)
      (fun v vs => Values (v_customer_name vs) (v_customer_phone vs)
                     (v_items vs) (v_delivery_address vs) (Some v)
                     (v_special_instructions vs)) acc in
  field "special_instructions"
    (fun _ =>
       Ok match d_special_instructions d with Some v => v | None => None end)
    (fun v vs => Values (v_customer_name vs) (v_customer_phone vs)
                   (v_items vs) (v_delivery_address vs) (v_is_delivery vs)
                   (Some v)) acc.

(** [OrderRequest(...)]: the object, or pydantic's [ValidationError]. *)
Definition __init__ (d : data) : result t :=
  match validate_model d with
  | (Values (Some n) (Some p) (Some its) (Some a) (Some dl) (Some si), []) =>
      Ok (Build n p its a dl si)
  | (_, errors) => Raise (ValidationError errors)
  end.

End OrderRequest.

Module OrderResponse.

Record t : Type := Build {
  order_id : string;
  status : string;
  total_amount : float;
  discount_amount : float;
  final_amount : float;
  estimated_minutes : Z;
  created_at : datetime;
  customer_name : string;
  customer_phone : string;
  items : list OrderItem.t;
  is_delivery : bool;
  delivery_address : option string;
  special_instructions : option string
}.

(** [order.status = s]. *)
Definition set_status (s : string) (o : t) : t :=
  Build (order_id o) s (total_amount o) (discount_amount o) (final_amount o)
    (estimated_minutes o) (created_at o) (customer_name o)
    (customer_phone o) (items o) (is_delivery o) (delivery_address o)
    (special_instructions o).

End OrderResponse.

Module MenuItem.

Record t : Type := Build {
  id : Z;
  name : string;
  category : string;
  description : option string;
  price : float;
  available : bool;
  preparation_minutes : Z
}.

End MenuItem.

Module MenuResponse.

Record t : Type := Build {
  categories : list string;
  items : list MenuItem.t
}.

End MenuResponse.

(** ** [services.py] *)

(** What one call of [create_order] reads from outside the service. *)
Record Env : Type := {
  now_strftime : string;  (* datetime.now().strftime("%Y%m%d") *)
  uuid4_str : string;     (* str(uuid.uuid4()) *)
  utcnow : datetime       (* datetime.utcnow() *)
}.

Module OrderService.

Record t : Type := Build {
  orders : dict OrderResponse.t;
  delivery_fee : float;
  discount_threshold : float;
  discount_percent : float;
  menu_items : list MenuItem.t
}.

Definition set_orders (d : dict OrderResponse.t) (self : t) : t :=
  Build d (delivery_fee self) (discount_threshold self)
    (discount_percent self) (menu_items self).

Definition __init__ : t :=
  {| orders := [];
     delivery_fee := 200.00;
     discount_threshold := 1000.00;
     discount_percent := 10;
     menu_items :=
       [ MenuItem.Build 101 "Пицца Маргарита" "pizza"
           (Some "Томаты, моцарелла, базилик") 650.00 true 25;
         MenuItem.Build 102 "Пицца Пепперони" "pizza"
           (Some "Пепперони, моцарелла, томатный соус") 750.00 true 25;
         MenuItem.Build 201 "Салат Цезарь" "salad"
           (Some "Курица, салат, гренки, соус Цезарь") 350.00 true 15;
         MenuItem.Build 301 "Кола" "drink"
           (Some "0.5л") 150.00 true 5;
         MenuItem.Build 302 "Кофе Латте" "drink"
           (Some "350мл") 250.00 true 10;
         MenuItem.Build 401 "Тирамису" "dessert"
           (Some "Классический итальянский десерт") 300.00 true 5 ] |}.

(** The set [{item.id for item in self.menu_items}], read only through
    [in]. *)
Definition menu_item_ids (self : t) : list Z :=
  map MenuItem.id (menu_items self).

Definition mem (z : Z) (l : list Z) : bool := existsb (Z.eqb z) l.

(** The loop stops at the first item whose identifier is not in the menu. *)
Fixpoint _validate_menu_items_loop (ids : list Z) (items : list OrderItem.t)
  : result unit :=
  match items with
  | [] => Ok tt
  | order_item :: rest =>
      if negb (mem (OrderItem.menu_item_id order_item) ids)
      then Raise (ValueError
                    (MenuItemMissing (OrderItem.menu_item_id order_item)))
      else _validate_menu_items_loop ids rest
  end.

Definition _validate_menu_items (self : t) (items : list OrderItem.t)
  : result unit :=
  _validate_menu_items_loop (menu_item_ids self) items.

Definition _calculate_items_total (self : t) (items : list OrderItem.t)
  : float :=
  py_sum
    (map (fun item =>
            (OrderItem.price item * float_of_int (OrderItem.quantity item))
            %float)
       items).

Definition _calculate_discount (self : t) (subtotal : float) : float :=
  if (discount_threshold self <=? subtotal)%float
  then (subtotal * (discount_percent self / 100))%float
  else 0%float.

(** [next((m for m in self.menu_items if m.id == i), None)]. *)
Definition find_menu_item (self : t) (i : Z) : option MenuItem.t :=
  find (fun m => MenuItem.id m =? i) (menu_items self).

(** The loop over [request.items] that maintains [items_time]. *)
Definition items_time_loop (self : t) (items : list OrderItem.t) : Z :=
  fold_left
    (fun items_time order_item =>
       match find_menu_item self (OrderItem.menu_item_id order_item) with
       | Some menu_item =>
           Z.max items_time (MenuItem.preparation_minutes menu_item)
       | None => items_time
       end)
    items 0.

Definition _calculate_estimated_time (self : t) (request : OrderRequest.t)
  : Z :=
  let base_time := 15 in
  let items_time := items_time_loop self (OrderRequest.items request) in
  let extra_items_time :=
    Z.max 0 (Z.of_nat (List.length (OrderRequest.items request)) - 1) * 5 in
  let delivery_time := if OrderRequest.is_delivery request then 25 else 0 in
  base_time + items_time + extra_items_time + delivery_time.

Definition _generate_order_id (env : Env) : string :=
  let date_str := now_strftime env in
  let unique_str := upper (slice_to 8 (uuid4_str env)) in
  ("ORD-" ++ date_str ++ "-" ++ unique_str)%string.

(** A placeholder in the source: it does nothing. *)
Definition _schedule_status_updates (self : t) (order_id : string)
    (total_minutes : Z) : t := self.

Definition create_order (self : t) (env : Env) (request : OrderRequest.t)
  : result OrderResponse.t * t :=
  match _validate_menu_items self (OrderRequest.items request) with
  | Raise e => (Raise e, self)
  | Ok _ =>
      let items_total :=
        _calculate_items_total self (OrderRequest.items request) in
      let delivery_fee :=
        if OrderRequest.is_delivery request then delivery_fee self
        else 0%float in
      let subtotal := (items_total + delivery_fee)%float in
      let discount := _calculate_discount self subtotal in
      let final_amount := (subtotal - discount)%float in
      let estimated_minutes := _calculate_estimated_time self request in
      let order_id := _generate_order_id env in
      let response :=
        {| OrderResponse.order_id := order_id;
           OrderResponse.status := "created";
           OrderResponse.total_amount := py_round2 subtotal;
           OrderResponse.discount_amount := py_round2 discount;
           OrderResponse.final_amount := py_round2 final_amount;
           OrderResponse.estimated_minutes := estimated_minutes;
           OrderResponse.created_at := utcnow env;
           OrderResponse.customer_name := OrderRequest.customer_name request;
           OrderResponse.customer_phone :=
             OrderRequest.customer_phone request;
           OrderResponse.items := OrderRequest.items request;
           OrderResponse.is_delivery := OrderRequest.is_delivery request;
           OrderResponse.delivery_address :=
             OrderRequest.delivery_address request;
           OrderResponse.special_instructions :=
             OrderRequest.special_instructions request |} in
      let self := set_orders (dict_set order_id response (orders self)) self in
      let self := _schedule_status_updates self order_id estimated_minutes in
      (Ok response, self)
  end.

Definition get_order_status (self : t) (order_id : string)
  : option OrderResponse.t * t :=
  (dict_get order_id (orders self), self).

(** [order.status in ["created", "processing"]]. *)
Definition cancellable (status : string) : bool :=
  (String.eqb status "created" || String.eqb status "processing")%bool.

(** The order found in the dictionary is the stored object: assigning its
    [status] changes the entry of the dictionary. *)
Definition cancel_order (self : t) (order_id : string)
    (reason : option string) : bool * t :=
  match dict_get order_id (orders self) with
  | Some order =>
      if cancellable (OrderResponse.status order)
      then (true,
            set_orders
              (dict_set order_id
                 (OrderResponse.set_status "cancelled" order) (orders self))
              self)
      else (false, self)
  | None => (false, self)
  end.

(** [list(set(...))]: each category once.  Python leaves the order of the
    result open; here it is the order of first occurrence. *)
Definition unique (l : list string) : list string :=
  fold_left
    (fun acc c => if existsb (String.eqb c) acc then acc else (acc ++ [c])%list)
    l [].

Definition get_menu (self : t) (category : option string)
  : MenuResponse.t * t :=
  let items := menu_items self in
  let items :=
    if negb (opt_str_falsy category)
    then filter
           (fun item =>
              match category with
              | Some c => String.eqb (MenuItem.category item) c
              | None => false
              end) items
    else items in
  let available_items := filter MenuItem.available items in
  let categories := unique (map MenuItem.category available_items) in
  (MenuResponse.Build categories available_items, self).

Definition get_order_history (self : t) (customer_phone : string)
  : list OrderResponse.t * t :=
  (filter
     (fun order => String.eqb (OrderResponse.customer_phone order)
                     customer_phone)
     (dict_values (orders self)),
   self).

End OrderService.

(** A value of the dictionary [process_payment] returns. *)
Inductive value : Type :=
| VStr (s : string)
| VFloat (f : float).

(** What one call of [process_payment] reads from outside the service. *)
Record PayEnv : Type := {
  uuid4_hex : string;          (* uuid.uuid4().hex *)
  utcnow_isoformat : string    (* datetime.utcnow().isoformat() *)
}.

Module PaymentService.

(** The service holds its logger and nothing else. *)
Record t : Type := Build { }.

Definition __init__ : t := Build.

Definition process_payment (self : t) (env : PayEnv) (order_id : string)
    (amount : float) (payment_method : string)
  : result (dict value) * t :=
  let payment_id := ("PAY-" ++ upper (slice_to 8 (uuid4_hex env)))%string in
  let is_success := (0 <? amount)%float in
  if is_success then
    (Ok [ ("payment_id", VStr payment_id);
          ("status", VStr "success");
          ("amount", VFloat amount);
          ("payment_method", VStr payment_method);
          ("transaction_time", VStr (utcnow_isoformat env)) ],
     self)
  else
    (Ok [ ("payment_id", VStr payment_id);
          ("status", VStr "failed");
          ("error", VStr "Payment processing failed");
          ("transaction_time", VStr (utcnow_isoformat env)) ],
     self).

End PaymentService.

(** ** The service as a transition system *)

(** The public operations of [OrderService]. *)
Inductive call : Type :=
| CreateOrder (env : Env) (request : OrderRequest.t)
| GetOrderStatus (order_id : string)
| CancelOrder (order_id : string) (reason : option string)
| GetMenu (category : option string)
| GetOrderHistory (customer_phone : string).

(** The service after a call. *)
Definition step (self : OrderService.t) (c : call) : OrderService.t :=
  match c with
  | CreateOrder env request => snd (OrderService.create_order self env request)
  | GetOrderStatus order_id => snd (OrderService.get_order_status self order_id)
  | CancelOrder order_id reason =>
      snd (OrderService.cancel_order self order_id reason)
  | GetMenu category => snd (OrderService.get_menu self category)
  | GetOrderHistory phone => snd (OrderService.get_order_history self phone)
  end.

(** An [OrderRequest] object exists only as the result of its validation. *)
Definition validated (request : OrderRequest.t) : Prop :=
  exists d, OrderRequest.__init__ d = Ok request.

Definition well_formed (c : call) : Prop :=
  match c with
  | CreateOrder _ request => validated request
  | _ => True
  end.

(** The states the service reaches from [__init__] through calls that
    satisfy [P]. *)
Inductive reachable_by (P : call -> Prop) : OrderService.t -> Prop :=
| reach_init : reachable_by P OrderService.__init__
| reach_step self c :
    reachable_by P self -> P c -> reachable_by P (step self c).

Definition reachable : OrderService.t -> Prop := reachable_by (fun _ => True).

(** ** The specification's formulas *)

Module Spec.

Definition FIXED_DELIVERY_FEE : float := 200.00.
Definition DISCOUNT_THRESHOLD : float := 1000.00.
Definition DISCOUNT_PERCENT : float := 10.

(** [itemsTotal = sum(unitPrice * quantity)] over line items: the products
    are added one after the other, in the order of the line items, to a
    total that starts at 0. *)
Definition itemsTotal (lineItems : list OrderItem.t) : float :=
  fold_left
    (fun total i =>
       (total + OrderItem.price i * float_of_int (OrderItem.quantity i))
       %float)
    lineItems 0%float.

Definition deliveryFee (isDelivery : bool) : float :=
  if isDelivery then FIXED_DELIVERY_FEE else 0%float.

Definition subtotal (lineItems : list OrderItem.t) (isDelivery : bool)
  : float :=
  (itemsTotal lineItems + deliveryFee isDelivery)%float.

Definition discount (lineItems : list OrderItem.t) (isDelivery : bool)
  : float :=
  if (DISCOUNT_THRESHOLD <=? subtotal lineItems isDelivery)%float
  then (subtotal lineItems isDelivery * (DISCOUNT_PERCENT / 100))%float
  else 0%float.

Definition final (lineItems : list OrderItem.t) (isDelivery : bool)
  : float :=
  (subtotal lineItems isDelivery - discount lineItems isDelivery)%float.

(** [n] hundredths is the amount with 2 decimal places nearest to
    [m * 2^e], for [e] below 0: it lies at most half a hundredth away, and
    when it lies exactly half a hundredth away [n] is even. *)
Definition nearest_hundredths (m : positive) (e : Z) (n : Z) : Prop :=
  let half_way := 2 ^ (- e) in
  let distance := Z.abs (Zpos m * 100 - n * 2 ^ (- e)) in
  2 * distance <= half_way /\
  (2 * distance = half_way -> Z.even n = true).

(** [y] is [x] rounded to 2 decimal places.  A finite [x] is [m * 2^e] with
    its sign.  A whole number ([e] at least 0) is its own rounding, and so
    are the zeros, the infinities and NaN.  Otherwise [y] is the float of the
    nearest amount [n / 100] with the sign of [x]: the quotient of the two
    floats [n] and [100], which is rounded correctly, [n] being a float as
    long as it is below 2^53; above that the floats are more than a
    hundredth apart and [y] is [x]. *)
Definition rounded2 (x y : float) : Prop :=
  match Prim2SF x with
  | S754_finite s m e =>
      if 0 <=? e then y = x
      else
        exists n,
          nearest_hundredths m e n /\
          y = if n <? 2 ^ 53
              then if s then (- (of_uint63 (Uint63.of_Z n) / 100))%float
                   else (of_uint63 (Uint63.of_Z n) / 100)%float
              else x
  | _ => y = x
  end.

(** The greatest element of a list, when there is one. *)
Fixpoint maximum (l : list Z) : option Z :=
  match l with
  | [] => None
  | x :: l' =>
      match maximum l' with
      | None => Some x
      | Some m => Some (Z.max x m)
      end
  end.

(** What a line item contributes to [itemsTime]: the preparation minutes
    of its menu entry, 0 if the entry is missing. *)
Definition contribution (menu : list MenuItem.t) (i : OrderItem.t) : Z :=
  match find (fun m => MenuItem.id m =? OrderItem.menu_item_id i) menu with
  | Some m => MenuItem.preparation_minutes m
  | None => 0
  end.

(** [result = base + itemsTime + extra + deliveryTime]. *)
Definition estimate (itemsTime : Z) (lineItemCount : Z) (isDelivery : bool)
  : Z :=
  let base := 15 in
  let extra := Z.max 0 (lineItemCount - 1) * 5 in
  let deliveryTime := if isDelivery then 25 else 0 in
  base + itemsTime + extra + deliveryTime.

End Spec.

(** ** Predicates of the statements *)

(** [l] is obtained from [l'] by leaving elements out: the elements of [l]
    come in the same order as in [l']. *)
Inductive Subseq {A : Type} : list A -> list A -> Prop :=
| Subseq_nil : Subseq [] []
| Subseq_keep x l l' : Subseq l l' -> Subseq (x :: l) (x :: l')
| Subseq_skip x l l' : Subseq l l' -> Subseq l (x :: l').

(** The two statuses that the operations assign. *)
Definition status_known (o : OrderResponse.t) : Prop :=
  OrderResponse.status o = "created" \/ OrderResponse.status o = "cancelled".

Definition statuses_known (self : OrderService.t) : Prop :=
  forall k o, In (k, o) (OrderService.orders self) -> status_known o.

(** A digit, or a letter from A to F. *)
Definition is_upper_hex (c : ascii) : bool :=
  (is_digit c || in_range 65 70 c)%bool.

(** A digit, or a letter from a to f: a character of [uuid4().hex]. *)
Definition is_lower_hex (c : ascii) : bool :=
  (is_digit c || in_range 97 102 c)%bool.

(** [uuid4().hex] is a string of 32 hexadecimal digits in lower case. *)
Definition is_uuid_hex (s : string) : Prop :=
  String.length s = 32%nat /\ all_chars is_lower_hex s = true.

(** A float that is not negative: a zero, a positive number or plus
    infinity. *)
Definition nonneg_sf (x : spec_float) : Prop :=
  match x with
  | S754_zero _ => True
  | S754_infinity s => s = false
  | S754_finite s _ _ => s = false
  | S754_nan => False
  end.

(** A float that is greater than 0. *)
Definition pos_sf (x : spec_float) : Prop :=
  match x with
  | S754_infinity s => s = false
  | S754_finite s _ _ => s = false
  | _ => False
  end.

(** What validation guarantees of a line item: a price greater than 0 and a
    quantity from 1 to 20. *)
Definition item_ok (i : OrderItem.t) : Prop :=
  (0 <? OrderItem.price i)%float = true /\ 0 < OrderItem.quantity i <= 20.

(** The monetary fields of an order are the roundings of the amounts computed
    from its line items and its delivery flag. *)
Definition priced (o : OrderResponse.t) : Prop :=
  let subtotal :=
    Spec.subtotal (OrderResponse.items o) (OrderResponse.is_delivery o) in
  let discount :=
    Spec.discount (OrderResponse.items o) (OrderResponse.is_delivery o) in
  OrderResponse.total_amount o = py_round2 subtotal /\
  OrderResponse.discount_amount o = py_round2 discount /\
  OrderResponse.final_amount o = py_round2 (subtotal - discount)%float.

(** Every stored order is priced and holds validated line items. *)
Definition stored_ok (self : OrderService.t) : Prop :=
  forall k o, In (k, o) (OrderService.orders self) ->
              priced o /\ Forall item_ok (OrderResponse.items o).

(** The call, when it creates an order, does so from line items that have a
    price greater than 0 and a quantity from 1 to 20. *)
Definition items_checked (c : call) : Prop :=
  match c with
  | CreateOrder _ request => Forall item_ok (OrderRequest.items request)
  | _ => True
  end.

(** ** Sample inputs *)

(** The request of the specification's scenarios: one line item for menu
    entry 101, quantity 2, unit price 650.00; and its environment. *)
Definition scenario_env : Env :=
  {| now_strftime := "20240115";
     uuid4_str := "3f2b8c1a-9d4e-4f6a-8b7c-0123456789ab";
     utcnow := 1705312800 |}.

Definition scenario_item : OrderItem.t :=
  OrderItem.Build 101 "Margherita" 2 650.00 [].

Definition scenario_request (is_delivery : bool) : OrderRequest.t :=
  OrderRequest.Build "Ivan" "+7 (900) 123-45-67" [scenario_item]
    (if is_delivery then Some "Lenina 1" else None) is_delivery None.

(** A request that names menu entry 101 with a name of its own. *)
Definition renamed_data : OrderRequest.data :=
  OrderRequest.Data "Ivan" "+7 (900) 123-45-67"
    [OrderItem.Data 101 "Cola" 1 150.00 None] None None None.

Definition renamed_request : OrderRequest.t :=
  OrderRequest.Build "Ivan" "+7 (900) 123-45-67"
    [OrderItem.Build 101 "Cola" 1 150.00 []] None false None.

(** A request with two line items whose amounts have more than 2 decimal
    places: 2 at 450.125 and 1 at 150.125, 1050.375 in all. *)
Definition mixed_request : OrderRequest.t :=
  OrderRequest.Build "Ivan" "+7 (900) 123-45-67"
    [OrderItem.Build 101 "Margherita" 2 450.125 [];
     OrderItem.Build 301 "Cola" 1 150.125 []]
    None false None.

(** A request with three line items, the second for an identifier that the
    menu does not have: a drink (5 minutes), entry 999 and a salad
    (15 minutes). *)
Definition unlisted_request (is_delivery : bool) : OrderRequest.t :=
  OrderRequest.Build "Ivan" "+7 (900) 123-45-67"
    [OrderItem.Build 301 "Cola" 1 150.00 [];
     OrderItem.Build 999 "Soup" 1 200.00 [];
     OrderItem.Build 201 "Caesar" 2 350.00 []]
    (if is_delivery then Some "Lenina 1" else None) is_delivery None.

(** A state with one cancelled order and one created order. *)
Definition two_orders : OrderService.t :=
  step
    (step
       (step OrderService.__init__
          (CreateOrder scenario_env (scenario_request false)))
       (CancelOrder "ORD-20240115-3F2B8C1A" None))
    (CreateOrder
       {| now_strftime := "20240116";
          uuid4_str := "7c9e6679-7425-40de-944b-e07fc1f90ae7";
          utcnow := 1705399200 |}
       (scenario_request true)).

(** Three orders created one after the other for the same phone number,
    100 seconds apart.  The third gets the identifier of the first: its UUID
    starts with the same 8 characters, on the same day. *)
Definition second_env : Env :=
  {| now_strftime := "20240115";
     uuid4_str := "7c9e6679-7425-40de-944b-e07fc1f90ae7";
     utcnow := 1705312900 |}.

Definition third_env : Env :=
  {| now_strftime := "20240115";
     uuid4_str := "3f2b8c1a-1111-4222-8333-444455556666";
     utcnow := 1705313000 |}.

Definition two_created : OrderService.t :=
  step
    (step OrderService.__init__
       (CreateOrder scenario_env (scenario_request false)))
    (CreateOrder second_env (scenario_request false)).

Definition three_created : OrderService.t :=
  step two_created (CreateOrder third_env (scenario_request true)).

(** A request for a delivery that gives no address, one that gives [None]
    and one that gives the empty string. *)
Definition delivery_data (address : option (option string))
  : OrderRequest.data :=
  OrderRequest.Data "Ivan" "+7 (900) 123-45-67"
    [OrderItem.Data 101 "Margherita" 2 650.00 None] address (Some true) None.

(** A validated request for one item priced 1000.05, without delivery, and
    the service after its creation. *)
Definition odd_cents_data : OrderRequest.data :=
  OrderRequest.Data "Ivan" "+7 (900) 123-45-67"
    [OrderItem.Data 101 "Margherita" 1 1000.05 None] None None None.

Definition odd_cents_request : OrderRequest.t :=
  OrderRequest.Build "Ivan" "+7 (900) 123-45-67"
    [OrderItem.Build 101 "Margherita" 1 1000.05 []] None false None.

Definition odd_cents_service : OrderService.t :=
  step OrderService.__init__ (CreateOrder scenario_env odd_cents_request).

(** The service after the creation of the order of two line items. *)
Definition mixed_service : OrderService.t :=
  step OrderService.__init__ (CreateOrder scenario_env mixed_request).

(** A validated request whose price is infinite, and the service after its
    creation. *)
Definition infinite_data : OrderRequest.data :=
  OrderRequest.Data "Ivan" "+7 (900) 123-45-67"
    [OrderItem.Data 101 "Margherita" 1 infinity None] None None None.

Definition infinite_request : OrderRequest.t :=
  OrderRequest.Build "Ivan" "+7 (900) 123-45-67"
    [OrderItem.Build 101 "Margherita" 1 infinity []] None false None.

Definition infinite_service : OrderService.t :=
  step OrderService.__init__ (CreateOrder scenario_env infinite_request).

(** ** Runs and identifiers *)

(** The service after a list of calls, the first call first. *)
Definition run (self : OrderService.t) (cs : list call) : OrderService.t :=
  fold_left step cs self.

(** The call is a [create_order] whose generated identifier is [id]. *)
Definition creates (id : string) (c : call) : Prop :=
  match c with
  | CreateOrder env _ => OrderService._generate_order_id env = id
  | _ => False
  end.

(** Every entry of the store is filed under the identifier of its order. *)
Definition keys_consistent (self : OrderService.t) : Prop :=
  forall k o, In (k, o) (OrderService.orders self) ->
              OrderResponse.order_id o = k.

(** What [strftime] gives for the format of year, month and day: 8 digits. *)
Definition date_str_ok (s : string) : Prop :=
  String.length s = 8%nat /\ all_chars is_digit s = true.

(** What [str(uuid.uuid4())] gives, as far as the service reads it: 36
    characters, the first 8 of them hexadecimal digits in lower case. *)
Definition uuid_str_ok (s : string) : Prop :=
  String.length s = 36%nat /\ all_chars is_lower_hex (slice_to 8 s) = true.

(** An order and what a later state may hold in its place: the same order,
    or the same order with the status cancelled. *)
Definition same_or_cancelled (o o' : OrderResponse.t) : Prop :=
  o' = o \/ o' = OrderResponse.set_status "cancelled" o.

(** The constraints that [OrderItem] declares. *)
Definition item_constraints (d : OrderItem.data) : Prop :=
  0 < OrderItem.d_menu_item_id d /\
  2 <= len (OrderItem.d_name d) <= 100 /\
  0 < OrderItem.d_quantity d <= 20 /\
  pos_sf (Prim2SF (OrderItem.d_price d)).

(** The object that [OrderItem] builds from its arguments. *)
Definition item_of_data (d : OrderItem.data) : OrderItem.t :=
  OrderItem.Build (OrderItem.d_menu_item_id d) (OrderItem.d_name d)
    (OrderItem.d_quantity d) (OrderItem.d_price d)
    (match OrderItem.d_modifiers d with Some l => l | None => [] end).

(** What the request asks of a menu item for [get_menu] to list it. *)
Definition listed (category : option string) (m : MenuItem.t) : Prop :=
  MenuItem.available m = true /\
  match category with
  | Some c => c = "" \/ MenuItem.category m = c
  | None => True
  end.

(** ** Facts about dictionaries *)

Section Dict.

Context {V : Type}.
Implicit Types (d : dict V) (k : string) (v : V).

Lemma dict_get_set_eq d k v : dict_get k (dict_set k v d) = Some v.
Proof.
  induction d as [|[k' v'] d IH]; simpl.
  - now rewrite String.eqb_refl.
  - destruct (String.eqb k' k) eqn:E; simpl.
    + now rewrite String.eqb_refl.
    + now rewrite E.
Qed.

Lemma dict_get_set_ne d k k' v :
  k <> k' -> dict_get k' (dict_set k v d) = dict_get k' d.
Proof.
  intros Hne. induction d as [|[k0 v0] d IH]; simpl.
  - destruct (String.eqb k k') eqn:E; [|reflexivity].
    apply String.eqb_eq in E. contradiction.
  - destruct (String.eqb k0 k) eqn:E; simpl.
    + apply String.eqb_eq in E. subst k0.
      destruct (String.eqb k k') eqn:E'; [|reflexivity].
      apply String.eqb_eq in E'. contradiction.
    + now rewrite IH.
Qed.

Lemma dict_get_In d k v : dict_get k d = Some v -> In (k, v) d.
Proof.
  induction d as [|[k' v'] d IH]; simpl; [discriminate|].
  destruct (String.eqb k' k) eqn:E.
  - apply String.eqb_eq in E. intros [= ->]. subst. now left.
  - intros H. right. now apply IH.
Qed.

Lemma dict_get_None d k : dict_get k d = None <-> ~ In k (dict_keys d).
Proof.
  induction d as [|[k' v'] d IH]; simpl.
  - tauto.
  - destruct (String.eqb k' k) eqn:E.
    + apply String.eqb_eq in E. split; [discriminate|]. intros H. tauto.
    + apply String.eqb_neq in E. rewrite IH. tauto.
Qed.

(** Assigning to a key that is present keeps every key where it is. *)
Lemma dict_keys_set_present d k v v0 :
  dict_get k d = Some v0 -> dict_keys (dict_set k v d) = dict_keys d.
Proof.
  induction d as [|[k' v'] d IH]; simpl; [discriminate|].
  destruct (String.eqb k' k) eqn:E; simpl.
  - apply String.eqb_eq in E. now subst.
  - intros H. now rewrite IH.
Qed.

(** Assigning to a new key appends the entry. *)
Lemma dict_set_fresh d k v :
  dict_get k d = None -> dict_set k v d = (d ++ [(k, v)])%list.
Proof.
  induction d as [|[k' v'] d IH]; simpl; [reflexivity|].
  destruct (String.eqb k' k); [discriminate|].
  intros H. now rewrite IH.
Qed.

(** An entry of the dictionary after an assignment is the assigned value
    or an entry that was there. *)
Lemma In_dict_set d k v k' v' :
  In (k', v') (dict_set k v d) -> (k' = k /\ v' = v) \/ In (k', v') d.
Proof.
  induction d as [|[k0 v0] d IH]; simpl.
  - intros [[= <- <-]|[]]. now left.
  - destruct (String.eqb k0 k); simpl.
    + intros [[= <- <-]|H]; [now left|right; now right].
    + intros [H|H]; [right; now left|].
      destruct (IH H) as [?|?]; [now left|right; now right].
Qed.

(** Assigning to a key that is present replaces the value where it
    stands. *)
Lemma dict_set_present d d' k v v0 :
  dict_get k d = None ->
  dict_set k v (d ++ (k, v0) :: d')%list = (d ++ (k, v) :: d')%list.
Proof.
  induction d as [|[k' v'] d IH]; simpl.
  - intros _. now rewrite String.eqb_refl.
  - destruct (String.eqb k' k); [discriminate|].
    intros H. now rewrite IH.
Qed.

End Dict.

(** ** Cancellation *)

Section Cancel.

Import OrderService.

Implicit Types (self : OrderService.t) (order_id : string).





Lemma create_order_stores self env request response :
  fst (create_order self env request) = Ok response ->
  dict_get (OrderResponse.order_id response)
    (orders (snd (create_order self env request))) = Some response /\
  OrderResponse.status response = "created".
Proof.
  unfold create_order.
  destruct (_validate_menu_items self (OrderRequest.items request));
    [|discriminate].
  simpl. intros [= <-]. simpl. split; [apply dict_get_set_eq|reflexivity].
Qed.

End Cancel.


(** ** Configuration *)

Section Config.

Import OrderService.

(** No operation changes the configuration or the menu. *)
Lemma step_config (self : OrderService.t) (c : call) :
  delivery_fee (step self c) = delivery_fee self /\
  discount_threshold (step self c) = discount_threshold self /\
  discount_percent (step self c) = discount_percent self /\
  menu_items (step self c) = menu_items self.
Proof.
  destruct c as [env request|order_id|order_id reason|category|phone]; simpl.
  - unfold create_order.
    destruct (_validate_menu_items self (OrderRequest.items request));
      simpl; auto.
  - auto.
  - unfold cancel_order.
    destruct (dict_get order_id (orders self)) as [o|]; simpl; auto.
    destruct (cancellable (OrderResponse.status o)); simpl; auto.
  - auto.
  - auto.
Qed.

Lemma reachable_config (P : call -> Prop) (self : OrderService.t) :
  reachable_by P self ->
  delivery_fee self = 200%float /\
  discount_threshold self = 1000%float /\
  discount_percent self = 10%float /\
  menu_items self = menu_items __init__.
Proof.
  induction 1 as [|self c _ IH _]; [repeat split|].
  destruct (step_config self c) as (-> & -> & -> & ->). exact IH.
Qed.

End Config.

(** ** Validated requests *)

(** Once a field is rejected, so is the request, whatever the later fields
    do. *)
Ltac rejected :=
  repeat match goal with
         | |- context [match ?r with Ok _ => _ | Raise _ => _ end] =>
             destruct r; simpl
         end;
  discriminate.

Section Validated.

Lemma OrderItem_init_ok (d : OrderItem.data) (i : OrderItem.t) :
  OrderItem.__init__ d = Ok i -> item_ok i.
Proof.
  unfold OrderItem.__init__, OrderItem.validate_model, field, check, and_then.
  simpl.
  destruct (0 <? OrderItem.d_menu_item_id d) eqn:C1;
    destruct (2 <=? len (OrderItem.d_name d)) eqn:C2;
    destruct (len (OrderItem.d_name d) <=? 100) eqn:C3;
    destruct (0 <? OrderItem.d_quantity d) eqn:C4;
    destruct (OrderItem.d_quantity d <=? 20) eqn:C5;
    destruct (0 <? OrderItem.d_price d)%float eqn:C6;
    simpl; try discriminate.
  intros [= <-]. unfold item_ok. simpl.
  apply Z.ltb_lt in C4. apply Z.leb_le in C5. auto.
Qed.

Lemma validate_sequence_ok (l : list OrderItem.data) (i : nat) :
  Forall item_ok (fst (OrderRequest.validate_sequence i l)).
Proof.
  revert i. induction l as [|d l IH]; intros i; simpl; [constructor|].
  specialize (IH (S i)).
  destruct (OrderRequest.validate_sequence (S i) l) as [result errors].
  destruct (OrderItem.__init__ d) as [v|e] eqn:E; simpl in *; [|exact IH].
  constructor; [|exact IH]. exact (OrderItem_init_ok d v E).
Qed.

Lemma build_items_ok (l : list OrderItem.data) (its : list OrderItem.t) :
  OrderRequest.build_items l = Ok its -> Forall item_ok its.
Proof.
  unfold OrderRequest.build_items.
  pose proof (validate_sequence_ok l 0) as F.
  destruct (OrderRequest.validate_sequence 0 l) as [result [|e errors]];
    [|discriminate].
  intros [= <-]. exact F.
Qed.

(** The line items of a validated request are validated, and there is at
    least one. *)
Lemma validated_items (request : OrderRequest.t) :
  validated request ->
  Forall item_ok (OrderRequest.items request) /\
  OrderRequest.items request <> [].
Proof.
  intros [d H]. revert H.
  unfold OrderRequest.__init__, OrderRequest.validate_model, field.
  simpl.
  destruct (and_then (check _ _ _) _) as [n|]; simpl; [|rejected].
  destruct (and_then (and_then (check _ _ _) _) _) as [p|]; simpl;
    [|rejected].
  destruct (and_then (OrderRequest.build_items (OrderRequest.d_items d)) _)
    as [its|] eqn:Eits; simpl; [|rejected].
  destruct (match OrderRequest.d_delivery_address d with
            | Some v => _ | None => _ end) as [a|]; simpl; [|discriminate].
  intros [= <-]. simpl.
  unfold and_then in Eits.
  destruct (OrderRequest.build_items (OrderRequest.d_items d)) as [its'|]
    eqn:B; [|discriminate].
  unfold OrderRequest.validate_items in Eits.
  destruct its'; [discriminate|]. injection Eits as <-.
  split; [exact (build_items_ok _ _ B)|discriminate].
Qed.

Lemma validated_items_ok (request : OrderRequest.t) :
  validated request -> Forall item_ok (OrderRequest.items request).
Proof. intros H. now apply validated_items. Qed.

Lemma under_head (p : loc_part) (errors : list (loc * message))
    (e : loc * message) :
  In e (under p errors) -> exists rest, fst e = p :: rest.
Proof.
  unfold under. rewrite in_map_iff. intros (e0 & <- & _). simpl. eauto.
Qed.

(** The errors of a request lie under [customer_name], [customer_phone] or
    [items]. *)
Lemma request_errors_heads (d : OrderRequest.data) (e : loc * message) :
  In e (snd (OrderRequest.validate_model d)) ->
  exists rest,
    fst e = Field "customer_name" :: rest \/
    fst e = Field "customer_phone" :: rest \/
    fst e = Field "items" :: rest.
Proof.
  unfold OrderRequest.validate_model, field. simpl.
  destruct (and_then (check _ _ _) _) as [n|e1];
    destruct (and_then (and_then (check _ _ _) _) _) as [p|e2];
    destruct (and_then (OrderRequest.build_items _) _) as [its|e3];
    destruct (OrderRequest.d_delivery_address d) as [v|];
    simpl; intros H;
    repeat (apply in_app_or in H; destruct H as [H|H]);
    try contradiction;
    apply under_head in H as [rest H]; exists rest; auto.
Qed.

(** The field [delivery_address] is never rejected, whatever the request:
    when it is validated the flag is not in [values] yet. *)
Lemma delivery_address_never_rejected (d : OrderRequest.data)
    (e : loc * message) (rest : loc) :
  In e (snd (OrderRequest.validate_model d)) ->
  fst e <> Field "delivery_address" :: rest.
Proof.
  intros H E. apply request_errors_heads in H as (r & [H|[H|H]]);
    rewrite E in H; discriminate.
Qed.

End Validated.

(** ** Time estimate *)

Section Estimate.

Import OrderService.

Variable self : OrderService.t.

(** [items_time] never goes below 0, so an item without a menu entry, which
    leaves it as it is, counts as a contribution of 0. *)
Lemma items_time_loop_from (l : list OrderItem.t) (a : Z) :
  0 <= a ->
  fold_left
    (fun items_time order_item =>
       match find_menu_item self (OrderItem.menu_item_id order_item) with
       | Some menu_item =>
           Z.max items_time (MenuItem.preparation_minutes menu_item)
       | None => items_time
       end) l a
  = fold_left Z.max (map (Spec.contribution (menu_items self)) l) a.
Proof.
  revert a. induction l as [|i l IH]; intros a Ha; simpl; [reflexivity|].
  unfold Spec.contribution at 2, find_menu_item at 2.
  destruct (find (fun m => MenuItem.id m =? OrderItem.menu_item_id i)
              (menu_items self)) as [m|].
  - apply IH. lia.
  - rewrite (Z.max_l a 0) by lia. now apply IH.
Qed.

Lemma fold_max_maximum (cs : list Z) (a m : Z) :
  Spec.maximum cs = Some m -> fold_left Z.max cs a = Z.max a m.
Proof.
  revert a m. induction cs as [|c cs IH]; intros a m; simpl; [discriminate|].
  destruct (Spec.maximum cs) as [m'|] eqn:E.
  - intros [= <-]. rewrite (IH _ m' eq_refl). lia.
  - intros [= <-]. destruct cs as [|c' cs]; [reflexivity|].
    simpl in E. destruct (Spec.maximum cs); discriminate.
Qed.

Lemma maximum_In (cs : list Z) (m : Z) :
  Spec.maximum cs = Some m -> In m cs /\ Forall (fun c => c <= m) cs.
Proof.
  revert m. induction cs as [|c cs IH]; intros m; simpl; [discriminate|].
  destruct (Spec.maximum cs) as [m'|] eqn:E.
  - intros [= <-]. destruct (IH m' eq_refl) as [Hin Hall].
    split.
    + destruct (Z.max_spec c m') as [[_ ->]|[_ ->]]; [now right|now left].
    + constructor; [lia|].
      eapply Forall_impl; [|exact Hall]. simpl. intros; lia.
  - intros [= <-]. destruct cs as [|c' cs].
    + split; [now left|]. constructor; [lia|constructor].
    + simpl in E. destruct (Spec.maximum cs); discriminate.
Qed.

Lemma contribution_nonneg (i : OrderItem.t) :
  Forall (fun m => 0 <= MenuItem.preparation_minutes m) (menu_items self) ->
  0 <= Spec.contribution (menu_items self) i.
Proof.
  intros H. unfold Spec.contribution.
  destruct (find _ (menu_items self)) as [m|] eqn:F; [|lia].
  apply find_some in F as [Hin _].
  rewrite Forall_forall in H. now apply H.
Qed.

End Estimate.

(** With a menu whose preparation minutes are not negative, the estimate of a request with at least one line
    item is 15, plus the greatest preparation time among the menu entries of
    its line items, a missing entry counting for 0, plus 5 for each line item
    after the first, plus 25 for a delivery.  It depends on the line items
    and the delivery flag only. *)
Lemma estimated_time_max :
  forall (self : OrderService.t) (request : OrderRequest.t) (m : Z),
    Forall (fun mi => 0 <= MenuItem.preparation_minutes mi)
      (OrderService.menu_items self) ->
    Spec.maximum
      (map (Spec.contribution (OrderService.menu_items self))
         (OrderRequest.items request)) = Some m ->
    OrderService._calculate_estimated_time self request
      = 15 + m
        + 5 * Z.max 0 (Z.of_nat (List.length (OrderRequest.items request)) - 1)
        + (if OrderRequest.is_delivery request then 25 else 0)
    /\ OrderService._calculate_estimated_time self request
        = Spec.estimate m
            (Z.of_nat (List.length (OrderRequest.items request)))
            (OrderRequest.is_delivery request)
    /\ forall request',
         OrderRequest.items request' = OrderRequest.items request ->
         OrderRequest.is_delivery request' = OrderRequest.is_delivery request ->
         OrderService._calculate_estimated_time self request'
           = OrderService._calculate_estimated_time self request.
Proof.
  intros self request m Hmenu Hmax.
  assert (Hm : 0 <= m).
  { apply maximum_In in Hmax as [Hin _].
    apply in_map_iff in Hin as (i & <- & _).
    now apply contribution_nonneg. }
  assert (E : OrderService.items_time_loop self (OrderRequest.items request) = m).
  { unfold OrderService.items_time_loop.
    rewrite items_time_loop_from by lia.
    rewrite (fold_max_maximum _ 0 m Hmax). lia. }
  unfold OrderService._calculate_estimated_time, Spec.estimate.
  cbv zeta. rewrite E.
  split; [lia|]. split; [lia|].
  intros request' Hi Hd. rewrite Hi, Hd, E. reflexivity.
Qed.

Lemma maximum_nonempty (cs : list Z) :
  cs <> [] -> exists m, Spec.maximum cs = Some m.
Proof.
  destruct cs as [|c cs]; [congruence|]. intros _. simpl.
  destruct (Spec.maximum cs); eauto.
Qed.

(** C3. For every request, in any state that the service reaches, the
    estimate is 15, plus the greatest preparation time among the menu
    entries of the line items, a missing entry counting for 0 (and 0 when
    there is no line item at all), plus 5 times the number of line items
    after the first, plus 25 for a delivery.  It depends on the line items
    and the delivery flag only. *)
Theorem estimated_time_spec :
  forall (self : OrderService.t) (request : OrderRequest.t),
    reachable self ->
    let contributions :=
      map (Spec.contribution (OrderService.menu_items self))
        (OrderRequest.items request) in
    let n := Z.of_nat (List.length (OrderRequest.items request)) in
    exists m,
      (OrderRequest.items request = [] /\ m = 0 \/
       In m contributions /\ Forall (fun c => c <= m) contributions) /\
      OrderService._calculate_estimated_time self request
      = 15 + m + 5 * Z.max 0 (n - 1)
        + (if OrderRequest.is_delivery request then 25 else 0) /\
      forall request',
        OrderRequest.items request' = OrderRequest.items request ->
        OrderRequest.is_delivery request' = OrderRequest.is_delivery request ->
        OrderService._calculate_estimated_time self request'
        = OrderService._calculate_estimated_time self request.
Proof.
  intros self request R contributions n.
  destruct (OrderRequest.items request) as [|i items] eqn:Items.
  - exists 0. split; [left; auto|].
    unfold OrderService._calculate_estimated_time. rewrite Items.
    split; [subst n; simpl; lia|].
    intros request' Hi Hd. rewrite Hi, Hd. reflexivity.
  - destruct (maximum_nonempty contributions) as [m Hm];
      [subst contributions; discriminate|].
    assert (Hmenu : Forall (fun mi => 0 <= MenuItem.preparation_minutes mi)
                      (OrderService.menu_items self)).
    { destruct (reachable_config _ self R) as (_ & _ & _ & ->).
      simpl. repeat (constructor; [simpl; lia|]). constructor. }
    subst contributions n. rewrite <- Items in *.
    destruct (estimated_time_max self request m Hmenu Hm) as (E & _ & Det).
    destruct (maximum_In _ _ Hm) as [Hin Hall].
    exists m. auto.
Qed.

(** Three line items, the second without a menu entry: the drink counts for
    5, the missing entry for 0 and the salad for 15, so the estimate is
    15 + 15 + 5 * 2, that is 40 minutes, and 65 for a delivery. *)
Lemma estimated_time_spec_witness :
  OrderService._calculate_estimated_time OrderService.__init__
    (unlisted_request false) = 40 /\
  OrderService._calculate_estimated_time OrderService.__init__
    (unlisted_request true) = 65.
Proof.
  split.
  - destruct (estimated_time_spec OrderService.__init__
                (unlisted_request false) (reach_init _))
      as (m & [ [C _] | [Hin Hall] ] & E & _); [discriminate C|].
    rewrite E.
    change (map _ _) with [5; 0; 15] in Hin, Hall.
    rewrite Forall_forall in Hall. specialize (Hall 15 ltac:(simpl; auto)).
    destruct Hin as [<- | [<- | [<- | [] ] ] ]; try lia. reflexivity.
  - destruct (estimated_time_spec OrderService.__init__
                (unlisted_request true) (reach_init _))
      as (m & [ [C _] | [Hin Hall] ] & E & _); [discriminate C|].
    rewrite E.
    change (map _ _) with [5; 0; 15] in Hin, Hall.
    rewrite Forall_forall in Hall. specialize (Hall 15 ltac:(simpl; auto)).
    destruct Hin as [<- | [<- | [<- | [] ] ] ]; try lia. reflexivity.
Defined.

(** ** Order creation *)

Section Create.

Import OrderService.

Implicit Types (self : OrderService.t) (env : Env) (request : OrderRequest.t).

Lemma mem_In (z : Z) (l : list Z) : mem z l = true <-> In z l.
Proof.
  unfold mem. rewrite existsb_exists. split.
  - intros (x & Hin & E). apply Z.eqb_eq in E. now subst.
  - intros H. exists z. split; [exact H|apply Z.eqb_refl].
Qed.

Lemma validate_loop_ok (ids : list Z) (items : list OrderItem.t) :
  _validate_menu_items_loop ids items = Ok tt <->
  Forall (fun i => In (OrderItem.menu_item_id i) ids) items.
Proof.
  induction items as [|i items IH]; simpl.
  - split; [constructor|reflexivity].
  - destruct (mem (OrderItem.menu_item_id i) ids) eqn:M; simpl.
    + rewrite IH. apply mem_In in M. split.
      * now constructor.
      * now inversion 1.
    + split; [discriminate|]. inversion 1; subst.
      apply mem_In in H2. congruence.
Qed.

(** The loop fails on the first line item whose identifier is unknown. *)
Lemma validate_loop_raise (ids : list Z) (items : list OrderItem.t) :
  Exists (fun i => ~ In (OrderItem.menu_item_id i) ids) items ->
  exists before i after,
    items = (before ++ i :: after)%list /\
    Forall (fun j => In (OrderItem.menu_item_id j) ids) before /\
    ~ In (OrderItem.menu_item_id i) ids /\
    _validate_menu_items_loop ids items
      = Raise (ValueError (MenuItemMissing (OrderItem.menu_item_id i))).
Proof.
  induction items as [|i items IH]; intros H; [inversion H|].
  simpl. destruct (mem (OrderItem.menu_item_id i) ids) eqn:M; simpl.
  - apply mem_In in M.
    destruct IH as (before & j & after & -> & Hb & Hj & E).
    { inversion H; subst; [contradiction|assumption]. }
    exists (i :: before), j, after. repeat split; auto.
  - exists [], i, items. repeat split; auto.
    intros Hin. apply mem_In in Hin. congruence.
Qed.

(** The result of the loop is a function of the identifiers alone. *)
Lemma validate_loop_ids (ids : list Z) (items items' : list OrderItem.t) :
  map OrderItem.menu_item_id items' = map OrderItem.menu_item_id items ->
  _validate_menu_items_loop ids items' = _validate_menu_items_loop ids items.
Proof.
  revert items'. induction items as [|i items IH]; intros [|i' items'];
    simpl; try discriminate; [reflexivity|].
  intros [= -> H]. now rewrite (IH _ H).
Qed.

(** [create_order] returns an order exactly when every line item refers to
    an entry of the menu. *)
Lemma create_order_accepts self env request :
  is_ok (fst (create_order self env request)) = true <->
  Forall (fun i => In (OrderItem.menu_item_id i) (menu_item_ids self))
    (OrderRequest.items request).
Proof.
  rewrite <- validate_loop_ok. unfold create_order, _validate_menu_items.
  destruct (_validate_menu_items_loop _ _) as [[]|e]; simpl.
  - tauto.
  - split; discriminate.
Qed.

(** The fields of the order that [create_order] returns. *)
Lemma create_order_response self env request response :
  fst (create_order self env request) = Ok response ->
  let subtotal :=
    (_calculate_items_total self (OrderRequest.items request)
     + (if OrderRequest.is_delivery request then delivery_fee self else 0))
    %float in
  let discount := _calculate_discount self subtotal in
  response =
    {| OrderResponse.order_id := _generate_order_id env;
       OrderResponse.status := "created";
       OrderResponse.total_amount := py_round2 subtotal;
       OrderResponse.discount_amount := py_round2 discount;
       OrderResponse.final_amount := py_round2 (subtotal - discount)%float;
       OrderResponse.estimated_minutes :=
         _calculate_estimated_time self request;
       OrderResponse.created_at := utcnow env;
       OrderResponse.customer_name := OrderRequest.customer_name request;
       OrderResponse.customer_phone := OrderRequest.customer_phone request;
       OrderResponse.items := OrderRequest.items request;
       OrderResponse.is_delivery := OrderRequest.is_delivery request;
       OrderResponse.delivery_address :=
         OrderRequest.delivery_address request;
       OrderResponse.special_instructions :=
         OrderRequest.special_instructions request |}
  /\ snd (create_order self env request)
     = set_orders
         (dict_set (_generate_order_id env) response (orders self)) self.
Proof.
  unfold create_order.
  destruct (_validate_menu_items self (OrderRequest.items request));
    [|discriminate].
  simpl. intros [= <-]. split; reflexivity.
Qed.

(** [sum] over the generator of the products adds them in the order of the
    line items. *)
Lemma items_total_spec self (items : list OrderItem.t) :
  _calculate_items_total self items = Spec.itemsTotal items.
Proof.
  unfold _calculate_items_total, Spec.itemsTotal, py_sum.
  generalize 0%float. induction items as [|i items IH]; intros total; simpl;
    [reflexivity|apply IH].
Qed.

(** With the configuration of [__init__], the amounts before rounding are
    those of the specification's formulas. *)
Lemma amounts_spec (P : call -> Prop) self
    (items : list OrderItem.t) (is_delivery : bool) :
  reachable_by P self ->
  let subtotal :=
    (_calculate_items_total self items
     + (if is_delivery then delivery_fee self else 0))%float in
  subtotal = Spec.subtotal items is_delivery /\
  _calculate_discount self subtotal = Spec.discount items is_delivery /\
  (subtotal - _calculate_discount self subtotal)%float
  = Spec.final items is_delivery.
Proof.
  intros R. destruct (reachable_config P self R) as (Hf & Ht & Hp & _).
  cbv zeta.
  assert (E : (_calculate_items_total self items
               + (if is_delivery then delivery_fee self else 0))%float
              = Spec.subtotal items is_delivery).
  { unfold Spec.subtotal, Spec.deliveryFee, Spec.FIXED_DELIVERY_FEE.
    now rewrite Hf, items_total_spec. }
  rewrite E. split; [reflexivity|].
  assert (D : _calculate_discount self (Spec.subtotal items is_delivery)
              = Spec.discount items is_delivery).
  { unfold _calculate_discount, Spec.discount, Spec.DISCOUNT_THRESHOLD,
      Spec.DISCOUNT_PERCENT. now rewrite Ht, Hp. }
  rewrite D. split; reflexivity.
Qed.

End Create.

(** ** Rounding to 2 decimal places *)

Section Round2.

Lemma round_half_even_nearest (num den : Z) :
  0 < den ->
  2 * Z.abs (num - round_half_even num den * den) <= den /\
  (2 * Z.abs (num - round_half_even num den * den) = den ->
   Z.even (round_half_even num den) = true).
Proof.
  intros Hden. unfold round_half_even.
  assert (E := Z.div_mod num den ltac:(lia)).
  assert (B := Z.mod_pos_bound num den Hden).
  set (q := num / den) in *. set (r := num mod den) in *.
  assert (Eq : num - q * den = r) by lia.
  assert (Es : num - (q + 1) * den = r - den) by lia.
  destruct (Z.compare_spec (2 * r) den) as [C|C|C].
  - destruct (Z.even q) eqn:Ev.
    + rewrite Eq. split; [lia|]. intros _. exact Ev.
    + rewrite Es. split; [lia|]. intros _.
      rewrite Z.add_1_r, Z.even_succ, <- Z.negb_even, Ev. reflexivity.
  - rewrite Eq. split; lia.
  - rewrite Es. split; lia.
Qed.

(** [round(x, 2)] is [x] rounded to 2 decimal places. *)
Lemma py_round2_rounded2 (x : float) : Spec.rounded2 x (py_round2 x).
Proof.
  unfold Spec.rounded2, py_round2.
  destruct (Prim2SF x) as [s|s| |s m e]; try reflexivity.
  destruct (0 <=? e) eqn:He; [reflexivity|].
  apply Z.leb_gt in He.
  exists (round_half_even (Zpos m * 100) (2 ^ (- e))).
  split; [|reflexivity].
  unfold Spec.nearest_hundredths. cbv zeta.
  apply round_half_even_nearest. apply Z.pow_pos_nonneg; lia.
Qed.

(** Only one amount with 2 decimal places is nearest. *)
Lemma nearest_hundredths_unique (m : positive) (e n n' : Z) :
  Spec.nearest_hundredths m e n -> Spec.nearest_hundredths m e n' -> n = n'.
Proof.
  unfold Spec.nearest_hundredths. cbv zeta.
  destruct (Z.le_gt_cases 0 (- e)) as [He|He];
    [|rewrite (Z.pow_neg_r 2 (- e)) by lia; intros [L1 _]; lia].
  assert (Hd : 0 < 2 ^ (- e)) by (apply Z.pow_pos_nonneg; lia).
  set (d := 2 ^ (- e)) in *. set (a := Zpos m * 100).
  intros [L1 T1] [L2 T2].
  assert (C : n' = n \/ n' = n + 1 \/ n = n' + 1) by nia.
  destruct C as [-> | [-> | ->] ]; [reflexivity| |].
  - assert (X1 : 2 * Z.abs (a - n * d) = d) by lia.
    assert (X2 : 2 * Z.abs (a - (n + 1) * d) = d) by lia.
    specialize (T1 X1). specialize (T2 X2).
    rewrite Z.add_1_r, Z.even_succ, <- Z.negb_even, T1 in T2. discriminate.
  - assert (X1 : 2 * Z.abs (a - (n' + 1) * d) = d) by lia.
    assert (X2 : 2 * Z.abs (a - n' * d) = d) by lia.
    specialize (T1 X1). specialize (T2 X2).
    rewrite Z.add_1_r, Z.even_succ, <- Z.negb_even, T2 in T1. discriminate.
Qed.

(** Rounding to 2 decimal places gives one result. *)
Lemma rounded2_unique (x y y' : float) :
  Spec.rounded2 x y -> Spec.rounded2 x y' -> y = y'.
Proof.
  unfold Spec.rounded2.
  destruct (Prim2SF x) as [s|s| |s m e]; try congruence.
  destruct (0 <=? e); [congruence|].
  intros (n & N & ->) (n' & N' & ->).
  now rewrite (nearest_hundredths_unique m e n n' N N').
Qed.

End Round2.

(** C1. In a state the service can reach, the order that [create_order]
    returns is priced as follows.  The subtotal is the sum over the line
    items, taken in their order from 0, of unit price times quantity, plus
    the delivery fee: 200.00 for a delivery, 0 otherwise.  The discount is 10
    percent of that subtotal when the subtotal is at least 1000.00 and 0
    otherwise.  [total_amount] is the subtotal rounded to 2 decimal places,
    [discount_amount] the discount rounded to 2 decimal places and
    [final_amount] the subtotal minus the discount rounded to 2 decimal
    places: each is rounded once, when the response is built, and the
    discount and the final amount are computed from the subtotal and the
    discount before rounding. *)
Theorem create_order_amounts :
  forall (self : OrderService.t) (env : Env) (request : OrderRequest.t)
         (response : OrderResponse.t),
    reachable self ->
    fst (OrderService.create_order self env request) = Ok response ->
    let lineItems := OrderRequest.items request in
    let isDelivery := OrderRequest.is_delivery request in
    let subtotal :=
      (fold_left
         (fun total i =>
            (total + OrderItem.price i * float_of_int (OrderItem.quantity i))
            %float)
         lineItems 0
       + (if isDelivery then 200.00 else 0))%float in
    let discount :=
      if (1000.00 <=? subtotal)%float then (subtotal * (10 / 100))%float
      else 0%float in
    Spec.rounded2 subtotal (OrderResponse.total_amount response) /\
    Spec.rounded2 discount (OrderResponse.discount_amount response) /\
    Spec.rounded2 (subtotal - discount)%float
      (OrderResponse.final_amount response).
Proof.
  intros self env request response R H.
  destruct (create_order_response self env request response H) as [-> _].
  destruct (amounts_spec _ self (OrderRequest.items request)
              (OrderRequest.is_delivery request) R) as (E1 & E2 & E3).
  cbv zeta in *. simpl.
  rewrite E3, E2, E1.
  change (Spec.rounded2
            (Spec.subtotal (OrderRequest.items request)
               (OrderRequest.is_delivery request))
            (py_round2
               (Spec.subtotal (OrderRequest.items request)
                  (OrderRequest.is_delivery request))) /\
          Spec.rounded2
            (Spec.discount (OrderRequest.items request)
               (OrderRequest.is_delivery request))
            (py_round2
               (Spec.discount (OrderRequest.items request)
                  (OrderRequest.is_delivery request))) /\
          Spec.rounded2
            (Spec.final (OrderRequest.items request)
               (OrderRequest.is_delivery request))
            (py_round2
               (Spec.final (OrderRequest.items request)
                  (OrderRequest.is_delivery request)))).
  repeat split; apply py_round2_rounded2.
Qed.

(** Two line items, 2 at 450.125 and 1 at 150.125, without delivery: the
    subtotal 1050.375 is returned as 1050.38, the discount
    105.03750000000001 as 105.04 and the remainder 945.3375 as 945.34. *)
Lemma create_order_amounts_witness :
  exists response,
    fst (OrderService.create_order OrderService.__init__ scenario_env
           mixed_request) = Ok response /\
    OrderResponse.total_amount response = 1050.38%float /\
    OrderResponse.discount_amount response = 105.04%float /\
    OrderResponse.final_amount response = 945.34%float /\
    Spec.rounded2 1050.375 1050.38 /\
    Spec.rounded2 105.03750000000001 105.04 /\
    Spec.rounded2 945.3375 945.34.
Proof.
  eexists. split; [reflexivity|].
  split; [vm_compute; reflexivity|].
  split; [vm_compute; reflexivity|].
  split; [vm_compute; reflexivity|].
  exact (create_order_amounts OrderService.__init__ scenario_env
           mixed_request _ (reach_init _) eq_refl).
Defined.

(** C4. When a line item of the request refers to an identifier that is not
    in the menu, [create_order] raises the error of [_validate_menu_items]
    for the first such identifier (a [ValueError]: the validation error of
    the specification's taxonomy) and leaves the service, hence the order
    store, as it was.  The failure is decided by the identifiers alone: any
    request with the same identifiers fails in the same way, whatever its
    prices, quantities and delivery flag. *)
Theorem create_order_unknown_item :
  forall (self : OrderService.t) (env : Env) (request : OrderRequest.t),
    Exists
      (fun i => ~ In (OrderItem.menu_item_id i)
                     (OrderService.menu_item_ids self))
      (OrderRequest.items request) ->
    exists i,
      In i (OrderRequest.items request) /\
      ~ In (OrderItem.menu_item_id i) (OrderService.menu_item_ids self) /\
      fst (OrderService.create_order self env request)
        = Raise (ValueError (MenuItemMissing (OrderItem.menu_item_id i))) /\
      snd (OrderService.create_order self env request) = self /\
      OrderService.orders (snd (OrderService.create_order self env request))
        = OrderService.orders self /\
      forall env' request',
        map OrderItem.menu_item_id (OrderRequest.items request')
        = map OrderItem.menu_item_id (OrderRequest.items request) ->
        OrderService.create_order self env' request'
        = (Raise (ValueError (MenuItemMissing (OrderItem.menu_item_id i))),
           self).
Proof.
  intros self env request H.
  destruct (validate_loop_raise _ _ H) as (before & i & after & E & _ & Hi & V).
  exists i.
  assert (C : forall env' request',
             map OrderItem.menu_item_id (OrderRequest.items request')
             = map OrderItem.menu_item_id (OrderRequest.items request) ->
             OrderService.create_order self env' request'
             = (Raise (ValueError (MenuItemMissing (OrderItem.menu_item_id i))),
                self)).
  { intros env' request' Hids. unfold OrderService.create_order.
    unfold OrderService._validate_menu_items.
    rewrite (validate_loop_ids _ _ _ Hids), V. reflexivity. }
  split; [rewrite E; apply in_elt|].
  split; [exact Hi|].
  rewrite (C env request eq_refl). simpl. auto.
Qed.

(** The specification's scenario: a request for menu identifier 999. *)
Lemma create_order_unknown_item_witness :
  exists i,
    OrderItem.menu_item_id i = 999 /\
    OrderService.create_order OrderService.__init__ scenario_env
      (OrderRequest.Build "Ivan" "+7 (900) 123-45-67"
         [scenario_item; OrderItem.Build 999 "Ghost" 1 10 []] None false None)
    = (Raise (ValueError (MenuItemMissing (OrderItem.menu_item_id i))),
       OrderService.__init__).
Proof.
  destruct (create_order_unknown_item OrderService.__init__ scenario_env
              (OrderRequest.Build "Ivan" "+7 (900) 123-45-67"
                 [scenario_item; OrderItem.Build 999 "Ghost" 1 10 []]
                 None false None))
    as (i & Hin & Hi & _ & _ & _ & C).
  - apply Exists_cons_tl, Exists_cons_hd. simpl.
    intros [H|[H|[H|[H|[H|[H|[]]]]]]]; discriminate.
  - exists i. split; [|now apply C].
    destruct Hin as [<-|[<-|[]]]; [|reflexivity].
    exfalso. apply Hi. simpl. now left.
Defined.

(** ** Line items and the catalogue *)

(** Names of the catalogue are not consulted: the validated request below is
    accepted with a line item called Cola for the entry that the menu calls
    by another name. *)
Lemma line_item_name_unchecked :
  ~ (forall (self : OrderService.t) (env : Env) (request : OrderRequest.t)
            (response : OrderResponse.t),
       reachable self ->
       validated request ->
       fst (OrderService.create_order self env request) = Ok response ->
       forall i m,
         In i (OrderResponse.items response) ->
         OrderService.find_menu_item self (OrderItem.menu_item_id i) = Some m ->
         OrderItem.name i = MenuItem.name m).
Proof.
  intros H.
  assert (V : validated renamed_request) by (exists renamed_data; reflexivity).
  specialize (H OrderService.__init__ scenario_env renamed_request _
                (reach_init _) V eq_refl
                (OrderItem.Build 101 "Cola" 1 150.00 [])
                (MenuItem.Build 101 "Пицца Маргарита" "pizza"
                   (Some "Томаты, моцарелла, базилик") 650.00 true 25)).
  simpl in H. specialize (H (or_introl eq_refl) eq_refl). discriminate.
Qed.

(** C9, as the code has it.  For a request that [create_order] accepts, each
    line item refers to an entry of the menu through its identifier; the
    order keeps the line items of the request as they are, their names
    included, and no name is compared with the catalogue. *)
Theorem create_order_line_items :
  forall (self : OrderService.t) (env : Env) (request : OrderRequest.t)
         (response : OrderResponse.t),
    fst (OrderService.create_order self env request) = Ok response ->
    OrderResponse.items response = OrderRequest.items request /\
    forall i,
      In i (OrderResponse.items response) ->
      exists m,
        OrderService.find_menu_item self (OrderItem.menu_item_id i) = Some m /\
        In m (OrderService.menu_items self) /\
        MenuItem.id m = OrderItem.menu_item_id i.
Proof.
  intros self env request response H.
  assert (A : is_ok (fst (OrderService.create_order self env request)) = true)
    by now rewrite H.
  apply create_order_accepts in A.
  destruct (create_order_response self env request response H) as [-> _].
  simpl. split; [reflexivity|].
  intros i Hin. rewrite Forall_forall in A. specialize (A i Hin).
  unfold OrderService.menu_item_ids in A.
  apply in_map_iff in A as (m0 & E0 & Hm0).
  unfold OrderService.find_menu_item.
  destruct (find (fun m => MenuItem.id m =? OrderItem.menu_item_id i)
              (OrderService.menu_items self)) as [m|] eqn:F.
  - exists m. apply find_some in F as [Hm E]. apply Z.eqb_eq in E. auto.
  - exfalso. pose proof (find_none _ _ F m0 Hm0) as N. simpl in N.
    rewrite E0, Z.eqb_refl in N. discriminate.
Qed.

Lemma create_order_line_items_witness :
  exists response,
    fst (OrderService.create_order OrderService.__init__ scenario_env
           renamed_request) = Ok response /\
    OrderResponse.items response = OrderRequest.items renamed_request.
Proof.
  eexists. split; [reflexivity|].
  apply (create_order_line_items OrderService.__init__ scenario_env
           renamed_request _ eq_refl).
Defined.

(** ** Order history *)

Section History.

Import OrderService.

Context {A : Type} (p : A -> bool).

Lemma filter_Subseq (l : list A) : Subseq (filter p l) l.
Proof.
  induction l as [|x l IH]; simpl; [constructor|].
  destruct (p x); now constructor.
Qed.

Lemma filter_length_count (l : list A) :
  List.length (filter p l)
  = fold_right (fun x n => if p x then S n else n) O l.
Proof.
  induction l as [|x l IH]; simpl; [reflexivity|].
  destruct (p x); simpl; now rewrite IH.
Qed.

(** A subsequence of [l] whose elements all satisfy [p] and which has as
    many elements as [l] has elements satisfying [p] is [filter p l]. *)
Lemma Subseq_filter_unique (l l' : list A) :
  Subseq l' l ->
  Forall (fun x => p x = true) l' ->
  List.length l' = List.length (filter p l) ->
  l' = filter p l.
Proof.
  assert (Hlen : forall k k' : list A,
             Subseq k' k -> Forall (fun x => p x = true) k' ->
             (List.length k' <= List.length (filter p k))%nat).
  { induction 1 as [|x k' k _ IH|x k' k _ IH]; intros F; simpl.
    - apply Nat.le_refl.
    - inversion F; subst. rewrite H1. simpl. apply le_n_S. now apply IH.
    - destruct (p x); simpl; [apply Nat.le_le_succ_r|]; now apply IH. }
  induction 1 as [|x k' k S IH|x k' k S IH]; intros F L; simpl in *.
  - reflexivity.
  - inversion F; subst. rewrite H1 in *. simpl in L. f_equal.
    apply IH; [assumption|]. now injection L.
  - destruct (p x) eqn:E; simpl in L.
    + pose proof (Hlen _ _ S F) as Hle. rewrite L in Hle.
      exfalso. apply (Nat.nle_succ_diag_l _ Hle).
    + now apply IH.
Qed.

End History.

Lemma scenario_request_validated (is_delivery : bool) :
  validated (scenario_request is_delivery).
Proof.
  exists (OrderRequest.Data "Ivan" "+7 (900) 123-45-67"
            [OrderItem.Data 101 "Margherita" 2 650.00 None]
            (if is_delivery then Some (Some "Lenina 1") else None)
            (Some is_delivery) None).
  destruct is_delivery; reflexivity.
Qed.

(** C7, counterexample.  The history is not in creation order.  Three orders
    are created from validated requests for the same phone number, at
    1705312800, 1705312900 and 1705313000, the third under the identifier of
    the first.  The history of the phone number then holds two orders, the
    one created last before the one created second; so an order that is
    created does not always go to the end of the history of its phone
    number. *)
Theorem history_not_in_creation_order :
  reachable_by well_formed three_created /\
  map OrderResponse.created_at
    (fst (OrderService.get_order_history three_created "+7 (900) 123-45-67"))
  = [1705313000; 1705312900] /\
  ~ (forall (self : OrderService.t) (env : Env) (request : OrderRequest.t)
            (response : OrderResponse.t),
       reachable_by well_formed self ->
       validated request ->
       fst (OrderService.create_order self env request) = Ok response ->
       fst (OrderService.get_order_history
              (snd (OrderService.create_order self env request))
              (OrderResponse.customer_phone response))
       = (fst (OrderService.get_order_history self
                 (OrderResponse.customer_phone response))
          ++ [response])%list).
Proof.
  assert (R : reachable_by well_formed two_created).
  { repeat (apply reach_step; [|apply scenario_request_validated]).
    apply reach_init. }
  split.
  { apply reach_step; [exact R|apply scenario_request_validated]. }
  split; [reflexivity|].
  intros H.
  specialize (H two_created third_env (scenario_request true) _ R
                (scenario_request_validated true) eq_refl).
  apply (f_equal (@List.length OrderResponse.t)) in H.
  vm_compute in H. discriminate.
Qed.

(** C7, as the code has it.  [get_order_history] returns the stored orders
    whose [customer_phone] is the given string, character for character, and
    only those: each as many times as it is stored and in the order of the
    dictionary, which is the order in which the identifiers were first
    inserted.  The service is unchanged.  An order created under a new
    identifier goes to the end of the history of its phone number; an order
    created under an identifier that is already stored takes the place of
    the order stored under it. *)
Theorem get_order_history_spec :
  forall (self : OrderService.t) (customer_phone : string),
    let history := fst (OrderService.get_order_history self customer_phone) in
    let stored := dict_values (OrderService.orders self) in
    let matches := fun o =>
      String.eqb (OrderResponse.customer_phone o) customer_phone in
    snd (OrderService.get_order_history self customer_phone) = self /\
    (forall o, In o history <->
               In o stored /\ OrderResponse.customer_phone o = customer_phone)
    /\ Subseq history stored
    /\ List.length history
       = fold_right (fun o n => if matches o then S n else n) O stored
    /\ (forall l, Subseq l stored ->
          Forall (fun o => OrderResponse.customer_phone o = customer_phone) l ->
          List.length l = List.length history -> l = history)
    /\ (forall env request response,
          fst (OrderService.create_order self env request) = Ok response ->
          dict_get (OrderResponse.order_id response) (OrderService.orders self)
            = None ->
          fst (OrderService.get_order_history
                 (snd (OrderService.create_order self env request))
                 customer_phone)
          = (history ++ (if matches response then [response] else []))%list)
    /\ (forall env request response before old after,
          fst (OrderService.create_order self env request) = Ok response ->
          OrderService.orders self
          = (before ++ (OrderResponse.order_id response, old) :: after)%list ->
          dict_get (OrderResponse.order_id response) before = None ->
          history
          = (filter matches (dict_values before)
             ++ (if matches old then [old] else [])
             ++ filter matches (dict_values after))%list /\
          fst (OrderService.get_order_history
                 (snd (OrderService.create_order self env request))
                 customer_phone)
          = (filter matches (dict_values before)
             ++ (if matches response then [response] else [])
             ++ filter matches (dict_values after))%list).
Proof.
  intros self customer_phone history stored matches.
  split; [reflexivity|].
  split.
  { intros o. unfold history, OrderService.get_order_history. simpl.
    rewrite filter_In, String.eqb_eq. reflexivity. }
  split; [apply filter_Subseq|].
  split; [apply filter_length_count|].
  split.
  { intros l S F L. apply Subseq_filter_unique; [exact S| |exact L].
    eapply Forall_impl; [|exact F]. simpl. intros o E.
    now apply String.eqb_eq. }
  split.
  { intros env request response H Fresh.
    destruct (create_order_response self env request response H) as [E ->].
    assert (Id : OrderService._generate_order_id env
                 = OrderResponse.order_id response)
      by (rewrite E; reflexivity).
    rewrite Id.
    unfold OrderService.get_order_history. simpl.
    rewrite (dict_set_fresh _ _ _ Fresh).
    unfold dict_values. rewrite map_app, filter_app. simpl.
    fold (matches response). destruct (matches response); reflexivity. }
  intros env request response before old after H Stored Fresh.
  destruct (create_order_response self env request response H) as [E ->].
  assert (Id : OrderService._generate_order_id env
               = OrderResponse.order_id response)
    by (rewrite E; reflexivity).
  rewrite Id.
  unfold history, OrderService.get_order_history. simpl.
  rewrite Stored, (dict_set_present _ _ _ _ _ Fresh).
  unfold dict_values. rewrite !map_app, !filter_app. simpl.
  fold (matches response). fold (matches old).
  split; [destruct (matches old)|destruct (matches response)]; reflexivity.
Qed.

(** The third of the three orders takes the place of the first: the history
    was the first order and the second, and becomes the third order and the
    second. *)
Lemma get_order_history_spec_witness :
  exists first second third,
    OrderService.orders two_created
    = [("ORD-20240115-3F2B8C1A", first); ("ORD-20240115-7C9E6679", second)] /\
    fst (OrderService.create_order two_created third_env
           (scenario_request true)) = Ok third /\
    fst (OrderService.get_order_history two_created "+7 (900) 123-45-67")
    = [first; second] /\
    fst (OrderService.get_order_history three_created "+7 (900) 123-45-67")
    = [third; second].
Proof.
  eexists. eexists. eexists.
  split; [reflexivity|]. split; [reflexivity|].
  destruct (get_order_history_spec two_created "+7 (900) 123-45-67")
    as (_ & _ & _ & _ & _ & _ & Replace).
  exact (Replace third_env (scenario_request true) _ [] _ _ eq_refl eq_refl
           eq_refl).
Defined.

(** ** Order statuses *)

Section Statuses.

Import OrderService.

Lemma step_statuses_known self c :
  statuses_known self -> statuses_known (step self c).
Proof.
  intros Inv.
  destruct c as [env request|order_id|order_id reason|category|phone];
    simpl; try exact Inv.
  - destruct (fst (create_order self env request)) as [response|e] eqn:H.
    + destruct (create_order_response self env request response H)
        as [E ->].
      intros k o Hin. simpl in Hin.
      apply In_dict_set in Hin as [[_ ->]|Hin]; [|now apply (Inv k)].
      left. rewrite E. reflexivity.
    + unfold create_order in *.
      destruct (_validate_menu_items self (OrderRequest.items request));
        [discriminate|exact Inv].
  - unfold cancel_order.
    destruct (dict_get order_id (orders self)) as [o|]; [|exact Inv].
    destruct (cancellable (OrderResponse.status o)); [|exact Inv].
    intros k o' Hin. simpl in Hin.
    apply In_dict_set in Hin as [[_ ->]|Hin]; [|now apply (Inv k)].
    right. reflexivity.
Qed.

End Statuses.

(** C10. In every state that the service reaches from [__init__] by its
    public operations, each stored order has status created or cancelled:
    [create_order] stores created, [cancel_order] assigns cancelled,
    [_schedule_status_updates] does nothing and no operation assigns
    processing, ready or delivered. *)
Theorem reachable_statuses :
  forall self : OrderService.t,
    reachable self ->
    forall k o,
      In (k, o) (OrderService.orders self) ->
      OrderResponse.status o = "created" \/
      OrderResponse.status o = "cancelled".
Proof.
  induction 1 as [|self c _ IH _].
  - intros k o [].
  - now apply step_statuses_known.
Qed.

Lemma reachable_statuses_witness :
  reachable two_orders /\
  map (fun e => OrderResponse.status (snd e)) (OrderService.orders two_orders)
  = ["cancelled"; "created"] /\
  Forall
    (fun e => OrderResponse.status (snd e) = "created" \/
              OrderResponse.status (snd e) = "cancelled")
    (OrderService.orders two_orders).
Proof.
  assert (R : reachable two_orders)
    by (repeat (apply reach_step; [|exact I]); apply reach_init).
  split; [exact R|]. split; [reflexivity|].
  apply Forall_forall. intros [k o] Hin.
  exact (reachable_statuses two_orders R k o Hin).
Defined.

(** ** Payment *)

Section Payment.

Lemma upper_char_hex (c : ascii) :
  is_lower_hex c = true ->
  is_upper_hex (upper_char c) = true /\ is_lower (upper_char c) = false.
Proof.
  unfold is_lower_hex, is_upper_hex, upper_char, is_lower, is_digit, in_range.
  intros H.
  destruct (Nat.leb 97 (nat_of_ascii c) && Nat.leb (nat_of_ascii c) 122)%bool
    eqn:L.
  - apply andb_true_iff in L as [L1 L2].
    apply Nat.leb_le in L1, L2.
    apply orb_true_iff in H as [H|H]; apply andb_true_iff in H as [H1 H2];
      apply Nat.leb_le in H1, H2; [lia|].
    rewrite nat_ascii_embedding by lia.
    split.
    + apply orb_true_iff. right. apply andb_true_iff.
      split; apply Nat.leb_le; lia.
    + apply andb_false_iff. left. apply Nat.leb_gt. lia.
  - split; [|exact L].
    apply orb_true_iff in H as [H|H]; [now rewrite H|].
    apply andb_true_iff in H as [H1 H2]. apply Nat.leb_le in H1, H2.
    apply andb_false_iff in L as [L|L]; apply Nat.leb_gt in L; lia.
Qed.

Lemma upper_slice_hex (n : nat) (s : string) :
  all_chars is_lower_hex s = true ->
  all_chars is_upper_hex (upper (slice_to n s)) = true /\
  all_chars (fun c => negb (is_lower c)) (upper (slice_to n s)) = true.
Proof.
  unfold slice_to. revert n.
  induction s as [|c s IH]; intros n H.
  - destruct n; simpl; auto.
  - simpl in H. apply andb_true_iff in H as [Hc Hs].
    destruct n as [|n]; simpl; [auto|].
    destruct (upper_char_hex c Hc) as [U L]. rewrite U, L. simpl.
    now apply IH.
Qed.

Lemma slice_length (n : nat) (s : string) :
  (n <= String.length s)%nat -> String.length (slice_to n s) = n.
Proof.
  unfold slice_to. revert n.
  induction s as [|c s IH]; intros [|n] H; simpl in *; try reflexivity.
  - inversion H.
  - f_equal. apply IH. now apply le_S_n.
Qed.

Lemma upper_length (s : string) : String.length (upper s) = String.length s.
Proof. induction s as [|c s IH]; simpl; [reflexivity|now rewrite IH]. Qed.

End Payment.

(** A failed payment carries neither the amount nor the method: the result
    for an amount of 0 has no key [amount]. *)
Lemma failed_payment_has_no_amount :
  ~ (forall (self : PaymentService.t) (env : PayEnv) (order_id : string)
            (amount : float) (payment_method : string),
       exists d,
         fst (PaymentService.process_payment self env order_id amount
                payment_method) = Ok d /\
         dict_get "amount" d = Some (VFloat amount) /\
         dict_get "payment_method" d = Some (VStr payment_method)).
Proof.
  intros H.
  destruct (H PaymentService.__init__
              {| uuid4_hex := "0123456789abcdef0123456789abcdef";
                 utcnow_isoformat := "2024-01-15T10:00:00" |}
              "ORD-20240115-3F2B8C1A" 0%float "card") as (d & E & A & _).
  simpl in E. injection E as <-. discriminate.
Qed.

(** C8, as the code has it.  [process_payment] always returns a dictionary
    and returns the payment service as it received it; order records are out
    of its reach, since it is given the payment service only.  The status is
    success exactly when the amount is greater than 0, and failed otherwise.
    Either result holds a payment identifier made of PAY- and the first 8
    digits of a fresh UUID in upper case, and the time of the transaction.  A
    successful result also holds the amount and the method; a failed one
    holds an error text instead, and neither the amount nor the method. *)
Theorem process_payment_spec :
  forall (self : PaymentService.t) (env : PayEnv) (order_id : string)
         (amount : float) (payment_method : string),
    is_uuid_hex (uuid4_hex env) ->
    exists d suffix,
      PaymentService.process_payment self env order_id amount payment_method
      = (Ok d, self) /\
      (dict_get "status" d = Some (VStr "success") <->
       (0 <? amount)%float = true) /\
      (dict_get "status" d = Some (VStr "failed") <->
       (0 <? amount)%float = false) /\
      dict_get "payment_id" d = Some (VStr ("PAY-" ++ suffix)) /\
      String.length suffix = 8%nat /\
      all_chars is_upper_hex suffix = true /\
      all_chars (fun c => negb (is_lower c)) suffix = true /\
      dict_get "transaction_time" d = Some (VStr (utcnow_isoformat env)) /\
      ((0 <? amount)%float = true ->
       dict_get "amount" d = Some (VFloat amount) /\
       dict_get "payment_method" d = Some (VStr payment_method) /\
       dict_get "error" d = None) /\
      ((0 <? amount)%float = false ->
       dict_get "error" d = Some (VStr "Payment processing failed") /\
       dict_get "amount" d = None /\
       dict_get "payment_method" d = None).
Proof.
  intros self env order_id amount payment_method [Hlen Hhex].
  destruct (upper_slice_hex 8 _ Hhex) as [HU HL].
  assert (L : String.length (upper (slice_to 8 (uuid4_hex env))) = 8%nat).
  { rewrite upper_length. apply slice_length. rewrite Hlen.
    repeat constructor. }
  unfold PaymentService.process_payment.
  destruct (0 <? amount)%float eqn:E;
    eexists; exists (upper (slice_to 8 (uuid4_hex env)));
    (split; [reflexivity|]); simpl;
    repeat split; auto; try discriminate; try congruence.
Qed.

Lemma process_payment_spec_witness :
  exists d,
    PaymentService.process_payment PaymentService.__init__
      {| uuid4_hex := "3f2b8c1a9d4e4f6a8b7c0123456789ab";
         utcnow_isoformat := "2024-01-15T10:00:00" |}
      "ORD-20240115-3F2B8C1A" 1170%float "card"
    = (Ok d, PaymentService.__init__) /\
    dict_get "status" d = Some (VStr "success") /\
    dict_get "payment_id" d = Some (VStr "PAY-3F2B8C1A").
Proof.
  destruct (process_payment_spec PaymentService.__init__
              {| uuid4_hex := "3f2b8c1a9d4e4f6a8b7c0123456789ab";
                 utcnow_isoformat := "2024-01-15T10:00:00" |}
              "ORD-20240115-3F2B8C1A" 1170%float "card")
    as (d & suffix & E & S & _).
  - split; reflexivity.
  - exists d. split; [exact E|]. split; [apply S; reflexivity|].
    simpl in E. injection E as <-. reflexivity.
Defined.

(** ** Delivery address *)

(** C5 fails on the code.  [delivery_address] is declared, and so validated,
    before [is_delivery]: when [validate_delivery_address] runs, [values]
    has no [is_delivery] yet, the test reads it as false and the validator
    lets every address through.  (Had the flag been in [values], the
    validator would raise, as its first conjunct shows.)  A delivery request
    without an address is built, and [create_order] stores an order with the
    delivery flag set and no address. *)
Theorem delivery_without_address_accepted :
  (forall v vs,
     OrderRequest.v_is_delivery vs = Some true ->
     opt_str_falsy v = true ->
     OrderRequest.validate_delivery_address v vs
     = Raise (ValueError DeliveryAddressRequired)) /\
  (forall v vs,
     OrderRequest.v_is_delivery vs = None ->
     OrderRequest.validate_delivery_address v vs = Ok v) /\
  OrderRequest.__init__ (delivery_data None)
  = Ok (OrderRequest.Build "Ivan" "+7 (900) 123-45-67" [scenario_item]
          None true None) /\
  OrderRequest.__init__ (delivery_data (Some None))
  = Ok (OrderRequest.Build "Ivan" "+7 (900) 123-45-67" [scenario_item]
          None true None) /\
  OrderRequest.__init__ (delivery_data (Some (Some "")))
  = Ok (OrderRequest.Build "Ivan" "+7 (900) 123-45-67" [scenario_item]
          (Some "") true None) /\
  exists request response,
    OrderRequest.__init__ (delivery_data None) = Ok request /\
    fst (OrderService.create_order OrderService.__init__ scenario_env request)
    = Ok response /\
    OrderResponse.is_delivery response = true /\
    OrderResponse.delivery_address response = None /\
    dict_get (OrderResponse.order_id response)
      (OrderService.orders
         (snd (OrderService.create_order OrderService.__init__ scenario_env
                 request)))
    = Some response.
Proof.
  split.
  { intros v vs Hd Hv. unfold OrderRequest.validate_delivery_address,
      OrderRequest.get_is_delivery. now rewrite Hd, Hv. }
  split.
  { intros v vs Hd. unfold OrderRequest.validate_delivery_address,
      OrderRequest.get_is_delivery. now rewrite Hd. }
  split; [reflexivity|]. split; [reflexivity|]. split; [reflexivity|].
  eexists. eexists. split; [reflexivity|]. split; [reflexivity|].
  repeat split.
Qed.

(** ** Signs of binary64 results

    The facts below are about the specification [Prim2SF] of the primitive
    floats: which results are not negative. *)

Section Rounding.

Lemma shr_1_m (mrs : shr_record) :
  0 <= shr_m mrs -> shr_m (shr_1 mrs) = shr_m mrs / 2.
Proof.
  destruct mrs as [m r s]. simpl. intros H.
  destruct m as [|p|p]; [reflexivity| |lia].
  rewrite <- Z.div2_div. destruct p; reflexivity.
Qed.

Lemma iter_shr_m (p : positive) (mrs : shr_record) :
  0 <= shr_m mrs ->
  shr_m (iter_pos shr_1 p mrs) = shr_m mrs / 2 ^ Zpos p.
Proof.
  revert mrs. induction p as [p IH|p IH|]; intros mrs H; simpl iter_pos.
  - assert (H1 : 0 <= shr_m (shr_1 mrs)).
    { rewrite shr_1_m by exact H. apply Z.div_pos; lia. }
    assert (H2 : 0 <= shr_m (iter_pos shr_1 p (shr_1 mrs))).
    { rewrite IH by exact H1. apply Z.div_pos; [exact H1|]. 
      apply Z.pow_pos_nonneg; lia. }
    rewrite IH by exact H2. rewrite IH by exact H1.
    rewrite shr_1_m by exact H.
    rewrite !Z.div_div by (try apply Z.pow_pos_nonneg; lia).
    f_equal. rewrite Pos2Z.inj_xI.
    rewrite <- Z.pow_add_r, <- Z.pow_succ_r by lia. f_equal. lia.
  - assert (H2 : 0 <= shr_m (iter_pos shr_1 p mrs)).
    { rewrite IH by exact H. apply Z.div_pos; [exact H|].
      apply Z.pow_pos_nonneg; lia. }
    rewrite IH by exact H2. rewrite IH by exact H.
    rewrite !Z.div_div by (try apply Z.pow_pos_nonneg; lia).
    f_equal. rewrite Pos2Z.inj_xO.
    rewrite <- Z.pow_add_r by lia. f_equal. lia.
  - rewrite shr_1_m by exact H. reflexivity.
Qed.

Lemma shr_record_of_loc_m (m : Z) (l : location) :
  shr_m (shr_record_of_loc m l) = m.
Proof. destruct l as [|[]]; reflexivity. Qed.

(** Shifting right by [n] places divides the mantissa by [2^n] and adds
    [n] to the exponent; a shift that is not positive does nothing. *)
Lemma shr_spec (m : Z) (l : location) (e n : Z) :
  0 <= m ->
  shr_m (fst (shr (shr_record_of_loc m l) e n)) = m / 2 ^ Z.max 0 n /\
  snd (shr (shr_record_of_loc m l) e n) = e + Z.max 0 n.
Proof.
  intros H. destruct n as [|p|p]; simpl.
  - rewrite shr_record_of_loc_m, Z.div_1_r. lia.
  - rewrite iter_shr_m by (rewrite shr_record_of_loc_m; exact H).
    rewrite shr_record_of_loc_m. split; [reflexivity|lia].
  - rewrite shr_record_of_loc_m, Z.div_1_r. lia.
Qed.

Lemma round_nearest_even_bounds (m : Z) (l : location) :
  m <= round_nearest_even m l <= m + 1.
Proof.
  destruct l as [|[]]; simpl; try lia. destruct (Z.even m); lia.
Qed.

(** Rounding a mantissa that is not negative keeps the sign it is given
    and never yields NaN. *)
Lemma binary_round_aux_sign (s : bool) (m e : Z) (l : location) :
  0 <= m ->
  match binary_round_aux prec emax s m e l with
  | S754_zero s' | S754_infinity s' | S754_finite s' _ _ => s' = s
  | S754_nan => False
  end.
Proof.
  intros H. unfold binary_round_aux, shr_fexp.
  set (n1 := fexp prec emax (Zdigits2 m + e) - e).
  pose proof (shr_spec m l e n1 H) as [M1 _].
  destruct (shr (shr_record_of_loc m l) e n1) as [mrs' e'] eqn:S1.
  simpl in M1.
  set (m1 := round_nearest_even (shr_m mrs') (loc_of_shr_record mrs')).
  assert (H1 : 0 <= m1).
  { pose proof (round_nearest_even_bounds (shr_m mrs') (loc_of_shr_record mrs')).
    assert (0 <= shr_m mrs').
    { rewrite M1. apply Z.div_pos; [exact H|]. apply Z.pow_pos_nonneg; lia. }
    unfold m1. lia. }
  set (n2 := fexp prec emax (Zdigits2 m1 + e') - e').
  pose proof (shr_spec m1 loc_Exact e' n2 H1) as [M2 _].
  destruct (shr (shr_record_of_loc m1 loc_Exact) e' n2) as [mrs'' e''] eqn:S2.
  simpl in M2.
  assert (H2 : 0 <= shr_m mrs'').
  { rewrite M2. apply Z.div_pos; [exact H1|]. apply Z.pow_pos_nonneg; lia. }
  destruct (shr_m mrs'') as [|p|p]; [reflexivity| |lia].
  destruct (e'' <=? emax - prec); reflexivity.
Qed.

End Rounding.

Section Signs.

Lemma binary_round_sign (s : bool) (m : positive) (e : Z) :
  match binary_round prec emax s m e with
  | S754_zero s' | S754_infinity s' | S754_finite s' _ _ => s' = s
  | S754_nan => False
  end.
Proof.
  unfold binary_round.
  destruct (shl_align m e (fexp prec emax (Zpos (digits2_pos m) + e)))
    as [mz ez].
  apply binary_round_aux_sign. lia.
Qed.

Lemma signed_nonneg (x : spec_float) :
  match x with
  | S754_zero s' | S754_infinity s' | S754_finite s' _ _ => s' = false
  | S754_nan => False
  end -> nonneg_sf x.
Proof. destruct x; simpl; auto. Qed.

Lemma binary_normalize_nonneg (m e : Z) :
  0 <= m -> nonneg_sf (binary_normalize prec emax m e false).
Proof.
  intros H. destruct m as [|p|p]; simpl; [exact I| |lia].
  apply signed_nonneg, binary_round_sign.
Qed.

Lemma SFadd_nonneg (x y : spec_float) :
  nonneg_sf x -> nonneg_sf y -> nonneg_sf (SF64add x y).
Proof.
  unfold SF64add.
  destruct x as [sx|sx| |sx mx ex], y as [sy|sy| |sy my ey]; simpl;
    intros Hx Hy; subst; try contradiction; try exact I; try reflexivity.
  - destruct sx, sy; exact I.
  - apply binary_normalize_nonneg.
    unfold cond_Zopp. lia.
Qed.

Lemma SFmul_pos (x y : spec_float) :
  pos_sf x -> pos_sf y -> nonneg_sf (SF64mul x y).
Proof.
  unfold SF64mul.
  destruct x as [sx|sx| |sx mx ex], y as [sy|sy| |sy my ey]; simpl;
    intros Hx Hy; subst; try contradiction; try reflexivity.
  apply signed_nonneg. apply binary_round_aux_sign. lia.
Qed.

Lemma SFdiv_nonneg_pos (x : spec_float) (my : positive) (ey : Z) :
  nonneg_sf x -> nonneg_sf (SF64div x (S754_finite false my ey)).
Proof.
  unfold SF64div.
  destruct x as [sx|sx| |sx mx ex]; simpl; intros Hx; subst;
    try contradiction; try exact I; try reflexivity.
  unfold SFdiv_core_binary.
  set (m' := match _ - _ - _ with Z0 => Zpos mx | Zpos _ => _ | Zneg _ => 0 end).
  assert (Hm' : 0 <= m').
  { unfold m'. destruct (_ - _ - _); try lia. apply Z.shiftl_nonneg. lia. }
  pose proof (Z_div_mod m' (Zpos my) ltac:(lia)) as DM.
  destruct (Z.div_eucl m' (Zpos my)) as [q r].
  assert (Hq : 0 <= q) by nia.
  apply signed_nonneg. now apply binary_round_aux_sign.
Qed.

Lemma SFsub_zero (x : spec_float) :
  nonneg_sf x -> nonneg_sf (SF64sub x (S754_zero false)).
Proof.
  destruct x as [sx|sx| |sx mx ex]; simpl; auto. destruct sx; auto.
Qed.

Lemma SFleb_zero (x : spec_float) :
  nonneg_sf x -> SFleb (S754_zero false) x = true.
Proof.
  destruct x as [sx|sx| |sx mx ex]; simpl; intros H; subst;
    try contradiction; reflexivity.
Qed.

Lemma SFltb_zero_pos (x : spec_float) :
  SFltb (S754_zero false) x = true -> pos_sf x.
Proof.
  destruct x as [sx|sx| |sx mx ex]; simpl; try discriminate;
    destruct sx; simpl; try discriminate; reflexivity.
Qed.

Lemma pos_nonneg (x : spec_float) : pos_sf x -> nonneg_sf x.
Proof. destruct x; simpl; auto. Qed.

End Signs.

Section Magnitude.

Lemma digits2_pos_bounds (p : positive) :
  2 ^ (Zpos (digits2_pos p) - 1) <= Zpos p < 2 ^ Zpos (digits2_pos p).
Proof.
  induction p as [p IH|p IH|]; simpl digits2_pos.
  - rewrite Pos2Z.inj_succ.
    replace (Z.succ (Zpos (digits2_pos p)) - 1)
      with (Z.succ (Zpos (digits2_pos p) - 1)) by lia.
    rewrite !Z.pow_succ_r by lia. lia.
  - rewrite Pos2Z.inj_succ.
    replace (Z.succ (Zpos (digits2_pos p)) - 1)
      with (Z.succ (Zpos (digits2_pos p) - 1)) by lia.
    rewrite !Z.pow_succ_r by lia. lia.
  - simpl. lia.
Qed.

(** The number of binary digits of a number between [2^(d-1)] and [2^d]. *)
Lemma digits2_pos_unique (p : positive) (d : Z) :
  2 ^ (d - 1) <= Zpos p < 2 ^ d -> Zpos (digits2_pos p) = d.
Proof.
  intros [L U]. destruct (digits2_pos_bounds p) as [L' U'].
  assert (0 < d).
  { destruct (Z.ltb_spec 0 d) as [|N]; [assumption|exfalso].
    destruct (Z.eq_dec d 0) as [->|];
      [simpl in U|rewrite Z.pow_neg_r in U]; lia. }
  assert (A : d - 1 < Zpos (digits2_pos p)).
  { apply (Z.pow_lt_mono_r_iff 2); lia. }
  assert (B : Zpos (digits2_pos p) - 1 < d).
  { apply (Z.pow_lt_mono_r_iff 2); lia. }
  lia.
Qed.

Lemma iter_xO (m d : positive) :
  Zpos (Pos.iter xO m d) = Zpos m * 2 ^ Zpos d.
Proof.
  induction d as [|d IH] using Pos.peano_ind.
  - simpl. lia.
  - rewrite Pos.iter_succ, Pos2Z.inj_xO, IH, Pos2Z.inj_succ,
      Z.pow_succ_r by lia. lia.
Qed.

End Magnitude.

Section Tenth.

Lemma bounded_normal (m : positive) (e : Z) :
  bounded prec emax m e = true -> -1074 < e ->
  2 ^ 52 <= Zpos m < 2 ^ 53 /\ e <= 971.
Proof.
  unfold bounded, canonical_mantissa, fexp, SpecFloat.emin.
  intros H He. apply andb_true_iff in H as [C B].
  apply Z.eqb_eq in C. apply Z.leb_le in B.
  change (3 - emax - prec) with (-1074) in C.
  change (emax - prec) with 971 in B.
  change prec with 53 in C.
  assert (D : Zpos (digits2_pos m) = 53) by lia.
  pose proof (digits2_pos_bounds m) as Hb. rewrite D in Hb.
  change (53 - 1) with 52 in Hb. split; [exact Hb|exact B].
Qed.

Lemma mul_tenth (m : positive) (e : Z) :
  bounded prec emax m e = true -> -43 <= e ->
  exists md ed,
    SF64mul (S754_finite false m e)
      (S754_finite false 7205759403792794 (-56))
    = S754_finite false md ed /\
    ed <= e - 2 /\ Zpos md <= 2 ^ 53.
Proof.
  intros Hb He.
  destruct (bounded_normal m e Hb ltac:(lia)) as [[Hm1 Hm2] He2].
  change (2 ^ 52) with 4503599627370496 in Hm1.
  change (2 ^ 53) with 9007199254740992 in Hm2.
  unfold SF64mul, SFmul, binary_round_aux, shr_fexp. simpl xorb.
  set (M := Zpos (m * 7205759403792794)).
  assert (HM : M = Zpos m * 7205759403792794) by (unfold M; lia).
  assert (HMl : 2 ^ 104 <= M).
  { change (2 ^ 104) with (4503599627370496 * 4503599627370496). nia. }
  assert (HMu : M < 2 ^ 106).
  { change (2 ^ 106) with (9007199254740992 * 9007199254740992). nia. }
  set (D := Zdigits2 M).
  assert (HD : D = 105 \/ D = 106).
  { unfold D, M. simpl Zdigits2.
    pose proof (digits2_pos_bounds (m * 7205759403792794)) as [L U].
    fold M in L, U.
    assert (104 < Zpos (digits2_pos (m * 7205759403792794))).
    { apply (Z.pow_lt_mono_r_iff 2); lia. }
    assert (Zpos (digits2_pos (m * 7205759403792794)) - 1 < 106).
    { apply (Z.pow_lt_mono_r_iff 2); lia. }
    lia. }
  assert (HDb : 2 ^ (D - 1) <= M < 2 ^ D).
  { unfold D, M. simpl Zdigits2. apply digits2_pos_bounds. }
  set (n1 := fexp prec emax (D + (e + -56)) - (e + -56)).
  assert (Hn1 : n1 = D - 53).
  { unfold n1, fexp, SpecFloat.emin.
    change (3 - emax - prec) with (-1074). change prec with 53. lia. }
  destruct (shr_spec M loc_Exact (e + -56) n1 ltac:(lia)) as [M1 E1].
  destruct (shr (shr_record_of_loc M loc_Exact) (e + -56) n1)
    as [mrs' e'] eqn:S1.
  simpl in M1, E1.
  set (q := shr_m mrs') in *.
  assert (Hq : 2 ^ 52 <= q < 2 ^ 53).
  { rewrite M1, Hn1. destruct HD as [HD|HD]; rewrite HD in *.
    - change (Z.max 0 (105 - 53)) with 52.
      change (105 - 1) with 104 in HDb.
      split.
      + apply Z.div_le_lower_bound; [reflexivity|].
        rewrite <- Z.pow_add_r by lia. exact (proj1 HDb).
      + apply Z.div_lt_upper_bound; [reflexivity|].
        rewrite <- Z.pow_add_r by lia. exact (proj2 HDb).
    - change (Z.max 0 (106 - 53)) with 53.
      change (106 - 1) with 105 in HDb.
      split.
      + apply Z.div_le_lower_bound; [reflexivity|].
        rewrite <- Z.pow_add_r by lia. exact (proj1 HDb).
      + apply Z.div_lt_upper_bound; [reflexivity|].
        rewrite <- Z.pow_add_r by lia. exact (proj2 HDb). }
  set (m1 := round_nearest_even q (loc_of_shr_record mrs')).
  pose proof (round_nearest_even_bounds q (loc_of_shr_record mrs')) as Hr.
  fold m1 in Hr.
  change (2 ^ 52) with 4503599627370496 in Hq.
  change (2 ^ 53) with 9007199254740992 in Hq.
  assert (Hm1' : 4503599627370496 <= m1 <= 9007199254740992) by lia.
  set (D1 := Zdigits2 m1).
  assert (HD1 : (D1 = 53 /\ m1 < 9007199254740992)
                \/ (D1 = 54 /\ m1 = 9007199254740992)).
  { destruct (Z.eq_dec m1 9007199254740992) as [E|N].
    - right. split; [|exact E]. unfold D1. rewrite E. reflexivity.
    - left. split; [|lia]. unfold D1.
      destruct m1 as [|p1|p1]; try lia. simpl Zdigits2.
      apply digits2_pos_unique.
      change (2 ^ (53 - 1)) with 4503599627370496.
      change (2 ^ 53) with 9007199254740992. lia. }
  set (n2 := fexp prec emax (D1 + e') - e').
  assert (Hn2 : n2 = D1 - 53).
  { unfold n2, fexp, SpecFloat.emin.
    change (3 - emax - prec) with (-1074). change prec with 53. lia. }
  destruct (shr_spec m1 loc_Exact e' n2 ltac:(lia)) as [M2 E2].
  destruct (shr (shr_record_of_loc m1 loc_Exact) e' n2) as [mrs'' e''] eqn:S2.
  simpl in M2, E2.
  assert (Hm'' : 0 < shr_m mrs'' <= 9007199254740992).
  { rewrite M2, Hn2. destruct HD1 as [[-> Hlt]|[-> ->]].
    - change (2 ^ Z.max 0 (53 - 53)) with 1. rewrite Z.div_1_r. lia.
    - change (2 ^ Z.max 0 (54 - 53)) with 2. vm_compute. split; [reflexivity|discriminate]. }
  assert (He'' : e'' <= e - 2) by lia.
  destruct (shr_m mrs'') as [|md|md]; try lia.
  assert (Hf : (e'' <=? emax - prec) = true).
  { apply Z.leb_le. change (emax - prec) with 971. lia. }
  rewrite Hf.
  exists md, e''. split; [reflexivity|].
  split; [exact He''|]. change (2 ^ 53) with 9007199254740992. lia.
Qed.

End Tenth.

Section Final.

(** A positive normal float minus a float at least two binades below. *)
Lemma SFsub_smaller (m md : positive) (e ed : Z) :
  2 ^ 52 <= Zpos m -> Zpos md <= 2 ^ 53 -> ed <= e - 2 ->
  nonneg_sf (SF64sub (S754_finite false m e) (S754_finite false md ed)).
Proof.
  intros Hm Hmd Hed. unfold SF64sub, SFsub, cond_Zopp.
  assert (Emin : Z.min e ed = ed) by lia.
  replace (IntDef.Z.min e ed) with ed by (symmetry; exact Emin).
  apply binary_normalize_nonneg.
  unfold shl_align.
  replace (ed - ed) with 0 by lia. simpl fst.
  destruct (ed - e) as [|d|d] eqn:Ed; try lia.
  simpl fst. rewrite iter_xO.
  assert (4 <= 2 ^ Zpos d).
  { change 4 with (2 ^ 2). apply Z.pow_le_mono_r; lia. }
  change (2 ^ 52) with 4503599627370496 in Hm.
  change (2 ^ 53) with 9007199254740992 in Hmd.
  nia.
Qed.

Lemma Prim2SF_tenth :
  Prim2SF (10 / 100) = S754_finite false 7205759403792794 (-56).
Proof. vm_compute. reflexivity. Qed.

Lemma leb_1000 (x : float) :
  (1000 <=? x)%float = true ->
  Prim2SF x = S754_infinity false
  \/ exists m e, Prim2SF x = S754_finite false m e /\ -43 <= e.
Proof.
  rewrite FloatAxioms.leb_spec.
  replace (Prim2SF 1000) with (S754_finite false 8796093022208000 (-43))
    by (vm_compute; reflexivity).
  destruct (Prim2SF x) as [s|s| |s m e]; try destruct s; simpl;
    try discriminate.
  - now left.
  - intros H. right. exists m, e. split; [reflexivity|].
    unfold SFleb, SFcompare in H.
    destruct (Z.compare_spec (-43) e); try lia; discriminate.
Qed.

(** The amount left after a discount of one tenth on a finite subtotal of
    at least 1000 is not negative. *)
Lemma sub_tenth_nonneg (x : float) :
  (1000 <=? x)%float = true ->
  x <> infinity ->
  nonneg_sf (Prim2SF (x - x * (10 / 100))).
Proof.
  intros H Hinf. rewrite FloatAxioms.sub_spec, FloatAxioms.mul_spec, Prim2SF_tenth.
  pose proof (Prim2SF_valid x) as V.
  destruct (leb_1000 x H) as [E|(m & e & E & He)].
  - exfalso. apply Hinf. apply Prim2SF_inj. rewrite E. reflexivity.
  - rewrite E in *. simpl in V.
    destruct (mul_tenth m e V He) as (md & ed & -> & Hed & Hmd).
    destruct (bounded_normal m e V ltac:(lia)) as [[Hm _] _].
    now apply SFsub_smaller.
Qed.

(** A discount of one tenth is not negative. *)
Lemma mul_tenth_nonneg (x : float) :
  (1000 <=? x)%float = true -> nonneg_sf (Prim2SF (x * (10 / 100))).
Proof.
  intros H. rewrite FloatAxioms.mul_spec, Prim2SF_tenth.
  apply SFmul_pos; [|reflexivity].
  destruct (leb_1000 x H) as [->|(m & e & -> & _)]; reflexivity.
Qed.

Lemma leb_zero_nonneg (x : float) :
  nonneg_sf (Prim2SF x) -> (0 <=? x)%float = true.
Proof.
  intros H. rewrite FloatAxioms.leb_spec.
  replace (Prim2SF 0) with (S754_zero false) by (vm_compute; reflexivity).
  now apply SFleb_zero.
Qed.

End Final.

(** ** Amounts of stored orders *)

Section Amounts.

Lemma py_round2_nonneg (x : float) :
  nonneg_sf (Prim2SF x) -> nonneg_sf (Prim2SF (py_round2 x)).
Proof.
  intros H. unfold py_round2.
  destruct (Prim2SF x) as [s|s| |s m e] eqn:E;
    try (rewrite E; exact H).
  simpl in H. subst s.
  destruct (0 <=? e); [rewrite E; reflexivity|].
  destruct (_ <? 2 ^ 53); [|rewrite E; reflexivity].
  rewrite FloatAxioms.div_spec.
  replace (Prim2SF 100) with (S754_finite false 7036874417766400 (-46))
    by (vm_compute; reflexivity).
  apply SFdiv_nonneg_pos.
  rewrite FloatAxioms.of_uint63_spec.
  apply binary_normalize_nonneg.
  apply Uint63.to_Z_bounded.
Qed.

Lemma ltb_zero_pos (x : float) :
  (0 <? x)%float = true -> pos_sf (Prim2SF x).
Proof.
  rewrite FloatAxioms.ltb_spec.
  replace (Prim2SF 0) with (S754_zero false) by (vm_compute; reflexivity).
  apply SFltb_zero_pos.
Qed.

(** A quantity from 1 to 20 is a positive float. *)
Lemma float_of_quantity_pos (q : Z) :
  0 < q <= 20 -> pos_sf (Prim2SF (float_of_int q)).
Proof.
  intros H.
  assert (C : q = 1 \/ q = 2 \/ q = 3 \/ q = 4 \/ q = 5 \/ q = 6 \/ q = 7
              \/ q = 8 \/ q = 9 \/ q = 10 \/ q = 11 \/ q = 12 \/ q = 13
              \/ q = 14 \/ q = 15 \/ q = 16 \/ q = 17 \/ q = 18 \/ q = 19
              \/ q = 20) by lia.
  repeat (destruct C as [->|C]; [vm_compute; reflexivity|]).
  subst q. vm_compute. reflexivity.
Qed.

Lemma line_total_nonneg (i : OrderItem.t) :
  item_ok i ->
  nonneg_sf
    (Prim2SF (OrderItem.price i * float_of_int (OrderItem.quantity i))).
Proof.
  intros [Hp Hq]. rewrite FloatAxioms.mul_spec.
  apply SFmul_pos; [now apply ltb_zero_pos|now apply float_of_quantity_pos].
Qed.

Lemma py_sum_nonneg (l : list float) :
  Forall (fun x => nonneg_sf (Prim2SF x)) l -> nonneg_sf (Prim2SF (py_sum l)).
Proof.
  unfold py_sum.
  assert (G : forall a, nonneg_sf (Prim2SF a) ->
                        Forall (fun x => nonneg_sf (Prim2SF x)) l ->
                        nonneg_sf
                          (Prim2SF
                             (fold_left (fun acc x => (acc + x)%float) l a))).
  { induction l as [|x l IH]; intros a Ha F; simpl; [exact Ha|].
    inversion F; subst. apply IH; [|assumption].
    rewrite FloatAxioms.add_spec. now apply SFadd_nonneg. }
  apply G. vm_compute. exact I.
Qed.

(** The subtotal of validated line items is not negative. *)
Lemma subtotal_nonneg (items : list OrderItem.t) (is_delivery : bool) :
  Forall item_ok items ->
  nonneg_sf (Prim2SF (Spec.subtotal items is_delivery)).
Proof.
  intros F. unfold Spec.subtotal. rewrite FloatAxioms.add_spec.
  apply SFadd_nonneg.
  - rewrite <- (items_total_spec OrderService.__init__ items).
    unfold OrderService._calculate_items_total. apply py_sum_nonneg.
    apply Forall_map. eapply Forall_impl; [|exact F].
    intros i Hi. now apply line_total_nonneg.
  - destruct is_delivery; vm_compute; auto.
Qed.

Lemma discount_nonneg (items : list OrderItem.t) (is_delivery : bool) :
  nonneg_sf (Prim2SF (Spec.discount items is_delivery)).
Proof.
  unfold Spec.discount, Spec.DISCOUNT_THRESHOLD, Spec.DISCOUNT_PERCENT.
  destruct (1000 <=? Spec.subtotal items is_delivery)%float eqn:T.
  - now apply mul_tenth_nonneg.
  - vm_compute. exact I.
Qed.

Lemma final_nonneg (items : list OrderItem.t) (is_delivery : bool) :
  Forall item_ok items ->
  Spec.subtotal items is_delivery <> infinity ->
  nonneg_sf (Prim2SF (Spec.final items is_delivery)).
Proof.
  intros F Hinf.
  unfold Spec.final, Spec.discount, Spec.DISCOUNT_THRESHOLD,
    Spec.DISCOUNT_PERCENT.
  destruct (1000 <=? Spec.subtotal items is_delivery)%float eqn:T.
  - now apply sub_tenth_nonneg.
  - rewrite FloatAxioms.sub_spec.
    replace (Prim2SF 0) with (S754_zero false) by (vm_compute; reflexivity).
    apply SFsub_zero. now apply subtotal_nonneg.
Qed.

(** When the subtotal overflows to infinity, so does the discount, and
    their difference is not a number. *)
Lemma final_of_infinite_subtotal (items : list OrderItem.t)
    (is_delivery : bool) :
  Spec.subtotal items is_delivery = infinity ->
  py_round2 (Spec.final items is_delivery) = nan.
Proof.
  intros E. unfold Spec.final, Spec.discount. rewrite E. reflexivity.
Qed.

Lemma step_stored_ok (self : OrderService.t) (c : call) :
  reachable_by items_checked self -> items_checked c ->
  stored_ok self -> stored_ok (step self c).
Proof.
  intros R W Inv.
  destruct c as [env request|order_id|order_id reason|category|phone];
    simpl; try exact Inv.
  - destruct (fst (OrderService.create_order self env request))
      as [response|e] eqn:H.
    + destruct (create_order_response self env request response H)
        as [E ->].
      intros k o Hin. simpl in Hin.
      apply In_dict_set in Hin as [[_ ->]|Hin]; [|now apply (Inv k)].
      destruct (amounts_spec _ self (OrderRequest.items request)
                  (OrderRequest.is_delivery request) R) as (E1 & E2 & E3).
      cbv zeta in *. rewrite E. unfold priced. simpl.
      rewrite E3, E2, E1.
      split; [repeat split|]. exact W.
    + unfold OrderService.create_order in *.
      destruct (OrderService._validate_menu_items self
                  (OrderRequest.items request));
        [discriminate|exact Inv].
  - unfold OrderService.cancel_order.
    destruct (dict_get order_id (OrderService.orders self)) as [o|] eqn:G;
      [|exact Inv].
    destruct (OrderService.cancellable (OrderResponse.status o));
      [|exact Inv].
    intros k o' Hin. simpl in Hin.
    apply In_dict_set in Hin as [[_ ->]|Hin]; [|now apply (Inv k)].
    apply dict_get_In in G. exact (Inv _ _ G).
Qed.

Lemma reachable_stored_ok (self : OrderService.t) :
  reachable_by items_checked self -> stored_ok self.
Proof.
  induction 1 as [|self c R IH W]; [intros k o []|].
  now apply step_stored_ok.
Qed.

End Amounts.

(** The stored fields of that order: 1000.05, 100.0 and 900.04, while
    1000.05 - 100.0 is 900.05. *)
Lemma odd_cents_amounts :
  reachable_by well_formed odd_cents_service /\
  exists o,
    OrderService.orders odd_cents_service = [("ORD-20240115-3F2B8C1A", o)] /\
    OrderResponse.total_amount o = 1000.05%float /\
    OrderResponse.discount_amount o = 100%float /\
    OrderResponse.final_amount o = 900.04%float /\
    (OrderResponse.total_amount o - OrderResponse.discount_amount o)%float
    = 900.05%float /\
    (OrderResponse.final_amount o
     =? OrderResponse.total_amount o - OrderResponse.discount_amount o)%float
    = false.
Proof.
  split.
  - apply reach_step; [apply reach_init|].
    exists odd_cents_data. reflexivity.
  - eexists. split; [reflexivity|]. vm_compute. repeat split.
Qed.

(** An infinite price passes the constraint [gt=0]; the order is created
    with a final amount that is not a number, and so not at least 0. *)
Lemma infinite_price_final_nan :
  reachable_by well_formed infinite_service /\
  exists o,
    OrderService.orders infinite_service = [("ORD-20240115-3F2B8C1A", o)] /\
    OrderResponse.total_amount o = infinity /\
    OrderResponse.discount_amount o = infinity /\
    OrderResponse.final_amount o = nan /\
    (0 <=? OrderResponse.final_amount o)%float = false.
Proof.
  split.
  - apply reach_step; [apply reach_init|].
    exists infinite_data. reflexivity.
  - eexists. split; [reflexivity|]. vm_compute. repeat split.
Qed.

(** The relation between the stored, rounded fields does not hold in every
    reachable state, the three amounts being rounded separately; and a final
    amount may fail to be at least 0. *)
Lemma rounded_fields_do_not_add :
  ~ (forall self : OrderService.t,
       reachable_by well_formed self ->
       forall k o,
         In (k, o) (OrderService.orders self) ->
         OrderResponse.final_amount o
         = (OrderResponse.total_amount o - OrderResponse.discount_amount o)
           %float) /\
  ~ (forall self : OrderService.t,
       reachable_by well_formed self ->
       forall k o,
         In (k, o) (OrderService.orders self) ->
         (0 <=? OrderResponse.final_amount o)%float = true).
Proof.
  split; intros H.
  - destruct odd_cents_amounts as (R & o & Eo & _ & _ & _ & _ & Ne).
    assert (E := H odd_cents_service R "ORD-20240115-3F2B8C1A" o).
    rewrite Eo in E. specialize (E (or_introl eq_refl)).
    rewrite <- E in Ne.
    assert (F : OrderResponse.final_amount o = 900.04%float).
    { injection Eo as <-. reflexivity. }
    rewrite F in Ne. vm_compute in Ne. discriminate.
  - destruct infinite_price_final_nan as (R & o & Eo & _ & _ & _ & N).
    assert (P := H infinite_service R "ORD-20240115-3F2B8C1A" o).
    rewrite Eo in P. specialize (P (or_introl eq_refl)). congruence.
Qed.

(** C6, as the code has it.  In every state that the service reaches from
    [__init__] by its public operations, orders being created from line
    items with a price greater than 0 and a quantity from 1 to 20, each
    stored order satisfies: [total_amount], [discount_amount] and
    [final_amount] are, each rounded to 2 decimal places, the subtotal (the
    sum over the line items, taken in their order, of unit price times
    quantity, plus the delivery fee), the discount and the subtotal minus the
    discount, the relation [final = subtotal - discount] holding between the
    amounts before rounding; [discount_amount] is at least 0; and
    [final_amount] is at least 0 unless the subtotal overflowed to infinity.
    Later operations keep all of this, since the statement is about every
    reachable state. *)
Theorem stored_amounts_invariant :
  forall self : OrderService.t,
    reachable_by items_checked self ->
    forall k o,
      In (k, o) (OrderService.orders self) ->
      let subtotal :=
        (fold_left
           (fun total i =>
              (total
               + OrderItem.price i * float_of_int (OrderItem.quantity i))
              %float)
           (OrderResponse.items o) 0
         + (if OrderResponse.is_delivery o then 200.00 else 0))%float in
      let discount :=
        if (1000.00 <=? subtotal)%float then (subtotal * (10 / 100))%float
        else 0%float in
      let final := (subtotal - discount)%float in
      Spec.rounded2 subtotal (OrderResponse.total_amount o) /\
      Spec.rounded2 discount (OrderResponse.discount_amount o) /\
      Spec.rounded2 final (OrderResponse.final_amount o) /\
      (0 <=? OrderResponse.discount_amount o)%float = true /\
      (subtotal <> infinity ->
       (0 <=? OrderResponse.final_amount o)%float = true).
Proof.
  intros self R k o Hin.
  destruct (reachable_stored_ok self R k o Hin) as [(T & D & F) Items].
  cbv zeta.
  change (Spec.rounded2
            (Spec.subtotal (OrderResponse.items o)
               (OrderResponse.is_delivery o))
            (OrderResponse.total_amount o) /\
          Spec.rounded2
            (Spec.discount (OrderResponse.items o)
               (OrderResponse.is_delivery o))
            (OrderResponse.discount_amount o) /\
          Spec.rounded2
            (Spec.final (OrderResponse.items o) (OrderResponse.is_delivery o))
            (OrderResponse.final_amount o) /\
          (0 <=? OrderResponse.discount_amount o)%float = true /\
          (Spec.subtotal (OrderResponse.items o) (OrderResponse.is_delivery o)
           <> infinity ->
           (0 <=? OrderResponse.final_amount o)%float = true)).
  cbv zeta in T, D, F.
  split; [rewrite T; apply py_round2_rounded2|].
  split; [rewrite D; apply py_round2_rounded2|].
  split; [rewrite F; apply py_round2_rounded2|].
  split.
  - rewrite D. apply leb_zero_nonneg, py_round2_nonneg, discount_nonneg.
  - intros Hinf. rewrite F.
    apply leb_zero_nonneg, py_round2_nonneg.
    now apply final_nonneg.
Qed.

(** The stored order of two line items, 2 at 450.125 and 1 at 150.125: its
    fields are 1050.38, 105.04 and 945.34, the roundings of 1050.375,
    105.03750000000001 and 945.3375. *)
Lemma stored_amounts_invariant_witness :
  exists o,
    OrderService.orders mixed_service = [("ORD-20240115-3F2B8C1A", o)] /\
    OrderResponse.total_amount o = 1050.38%float /\
    OrderResponse.discount_amount o = 105.04%float /\
    OrderResponse.final_amount o = 945.34%float /\
    Spec.rounded2 1050.375 1050.38 /\
    Spec.rounded2 105.03750000000001 105.04 /\
    Spec.rounded2 945.3375 945.34 /\
    (0 <=? 105.04)%float = true /\
    (0 <=? 945.34)%float = true.
Proof.
  assert (R : reachable_by items_checked mixed_service).
  { apply reach_step; [apply reach_init|].
    repeat constructor; simpl; lia. }
  eexists. split; [reflexivity|].
  split; [vm_compute; reflexivity|].
  split; [vm_compute; reflexivity|].
  split; [vm_compute; reflexivity|].
  destruct (stored_amounts_invariant mixed_service R
              "ORD-20240115-3F2B8C1A" _ (or_introl eq_refl))
    as (T & D & F & Dn & Fn).
  split; [exact T|]. split; [exact D|]. split; [exact F|].
  split; [exact Dn|]. apply Fn.
  intros E. apply (f_equal Prim2SF) in E. vm_compute in E. discriminate.
Defined.

(** ** The order store over time *)

Section Store.

Import OrderService.

Context {V : Type}.

Lemma dict_keys_set_absent (d : dict V) (k : string) (v : V) :
  dict_get k d = None -> dict_keys (dict_set k v d) = (dict_keys d ++ [k])%list.
Proof.
  intros H. rewrite (dict_set_fresh _ _ _ H).
  unfold dict_keys. now rewrite map_app.
Qed.

(** The keys after an assignment: the same keys, or one more at the end. *)
Lemma dict_keys_set (d : dict V) (k : string) (v : V) :
  dict_keys (dict_set k v d)
  = (dict_keys d
     ++ match dict_get k d with Some _ => [] | None => [k] end)%list.
Proof.
  destruct (dict_get k d) as [v0|] eqn:G.
  - rewrite (dict_keys_set_present _ _ _ _ G). now rewrite app_nil_r.
  - now apply dict_keys_set_absent.
Qed.

Lemma dict_set_NoDup (d : dict V) (k : string) (v : V) :
  NoDup (dict_keys d) -> NoDup (dict_keys (dict_set k v d)).
Proof.
  intros N. rewrite dict_keys_set.
  destruct (dict_get k d) eqn:G.
  - now rewrite app_nil_r.
  - apply dict_get_None in G.
    apply NoDup_app; [exact N|repeat constructor; intros []|].
    intros x Hx [<-|[]]. contradiction.
Qed.

Lemma dict_get_of_In (d : dict V) (k : string) (v : V) :
  NoDup (dict_keys d) -> In (k, v) d -> dict_get k d = Some v.
Proof.
  induction d as [|[k' v'] d IH]; simpl; [intros _ []|].
  intros N [[= -> ->]|Hin].
  - now rewrite String.eqb_refl.
  - inversion N as [|? ? Hk N']; subst.
    destruct (String.eqb k' k) eqn:E; [|now apply IH].
    apply String.eqb_eq in E. subst k'.
    exfalso. apply Hk. unfold dict_keys. apply in_map_iff.
    exists (k, v). auto.
Qed.

End Store.

Section StoreSteps.

Import OrderService.

Implicit Types (self : OrderService.t) (c : call).

Lemma step_keys self c :
  exists added,
    dict_keys (orders (step self c)) = (dict_keys (orders self) ++ added)%list
    /\ (List.length added <= 1)%nat.
Proof.
  destruct c as [env request|order_id|order_id reason|category|phone]; simpl;
    try (exists []; rewrite app_nil_r; split; [reflexivity|auto]).
  - unfold create_order.
    destruct (_validate_menu_items self (OrderRequest.items request)); simpl.
    + rewrite dict_keys_set. eexists. split; [reflexivity|].
      destruct (dict_get _ _); simpl; auto.
    + exists []. rewrite app_nil_r. auto.
  - unfold cancel_order.
    destruct (dict_get order_id (orders self)) as [o|] eqn:G; simpl.
    + destruct (cancellable (OrderResponse.status o)); simpl.
      * rewrite (dict_keys_set_present _ _ _ _ G).
        exists []. rewrite app_nil_r. auto.
      * exists []. rewrite app_nil_r. auto.
    + exists []. rewrite app_nil_r. auto.
Qed.

Lemma run_keys self (cs : list call) :
  exists added,
    dict_keys (orders (run self cs)) = (dict_keys (orders self) ++ added)%list
    /\ (List.length added <= List.length cs)%nat.
Proof.
  unfold run. revert self. induction cs as [|c cs IH]; intros self; simpl.
  - exists []. rewrite app_nil_r. auto.
  - destruct (IH (step self c)) as (a2 & E2 & L2).
    destruct (step_keys self c) as (a1 & E1 & L1).
    exists (a1 ++ a2)%list. rewrite E2, E1, <- app_assoc.
    split; [reflexivity|]. rewrite length_app. lia.
Qed.

Lemma set_status_cancelled_id (o : OrderResponse.t) :
  OrderResponse.status o = "cancelled" ->
  OrderResponse.set_status "cancelled" o = o.
Proof. destruct o. simpl. intros ->. reflexivity. Qed.

Lemma step_same_or_cancelled self c (id : string) (o : OrderResponse.t) :
  dict_get id (orders self) = Some o ->
  ~ creates id c ->
  exists o', dict_get id (orders (step self c)) = Some o' /\
             same_or_cancelled o o'.
Proof.
  intros G NC.
  destruct c as [env request|order_id|order_id reason|category|phone]; simpl;
    try (exists o; split; [exact G|now left]).
  - unfold create_order.
    destruct (_validate_menu_items self (OrderRequest.items request)); simpl.
    + rewrite dict_get_set_ne by exact NC. exists o. split; [exact G|now left].
    + exists o. split; [exact G|now left].
  - unfold cancel_order.
    destruct (dict_get order_id (orders self)) as [o1|] eqn:G1; simpl;
      [|exists o; split; [exact G|now left]].
    destruct (cancellable (OrderResponse.status o1)); simpl;
      [|exists o; split; [exact G|now left]].
    destruct (String.eqb order_id id) eqn:E.
    + apply String.eqb_eq in E. subst order_id.
      rewrite G in G1. injection G1 as <-.
      rewrite dict_get_set_eq. eexists. split; [reflexivity|now right].
    + apply String.eqb_neq in E. rewrite dict_get_set_ne by exact E.
      exists o. split; [exact G|now left].
Qed.

Lemma run_same_or_cancelled self (cs : list call) (id : string)
    (o : OrderResponse.t) :
  dict_get id (orders self) = Some o ->
  Forall (fun c => ~ creates id c) cs ->
  exists o', dict_get id (orders (run self cs)) = Some o' /\
             same_or_cancelled o o'.
Proof.
  unfold run. revert self o. induction cs as [|c cs IH]; intros self o G F;
    simpl.
  - exists o. split; [exact G|now left].
  - inversion F as [|? ? NC F']; subst.
    destruct (step_same_or_cancelled self c id o G NC) as (o1 & G1 & S1).
    destruct (IH (step self c) o1 G1 F') as (o2 & G2 & S2).
    exists o2. split; [exact G2|].
    destruct S1 as [-> | ->]; [exact S2|].
    destruct S2 as [-> | ->]; right; reflexivity.
Qed.

Lemma step_keys_consistent self c :
  keys_consistent self -> keys_consistent (step self c).
Proof.
  intros Inv.
  destruct c as [env request|order_id|order_id reason|category|phone]; simpl;
    try exact Inv.
  - destruct (fst (create_order self env request)) as [response|e] eqn:H.
    + destruct (create_order_response self env request response H) as [E ->].
      intros k o Hin. simpl in Hin.
      apply In_dict_set in Hin as [ [-> ->] | Hin]; [|now apply Inv].
      rewrite E. reflexivity.
    + unfold create_order in *.
      destruct (_validate_menu_items self (OrderRequest.items request));
        [discriminate|exact Inv].
  - unfold cancel_order.
    destruct (dict_get order_id (orders self)) as [o|] eqn:G; [|exact Inv].
    destruct (cancellable (OrderResponse.status o)); [|exact Inv].
    intros k o' Hin. simpl in Hin.
    apply In_dict_set in Hin as [ [-> ->] | Hin]; [|now apply Inv].
    simpl. apply dict_get_In in G. exact (Inv _ _ G).
Qed.

Lemma step_NoDup self c :
  NoDup (dict_keys (orders self)) -> NoDup (dict_keys (orders (step self c))).
Proof.
  intros N. destruct (step_keys self c) as (added & E & L).
  destruct c as [env request|order_id|order_id reason|category|phone]; simpl;
    try exact N.
  - unfold create_order.
    destruct (_validate_menu_items self (OrderRequest.items request)); simpl;
      [|exact N].
    now apply dict_set_NoDup.
  - unfold cancel_order.
    destruct (dict_get order_id (orders self)) as [o|]; simpl; [|exact N].
    destruct (cancellable (OrderResponse.status o)); simpl; [|exact N].
    now apply dict_set_NoDup.
Qed.

Lemma reachable_keys (P : call -> Prop) self :
  reachable_by P self ->
  NoDup (dict_keys (orders self)) /\ keys_consistent self.
Proof.
  induction 1 as [|self c _ [N K] _].
  - split; [constructor|intros k o []].
  - split; [now apply step_NoDup|now apply step_keys_consistent].
Qed.

End StoreSteps.

(** X1. After [create_order] returns an order, [get_order_status] with the
    identifier of that order returns the very order; the answers for every
    other identifier are what they were before; and an identifier that is
    not a key of the store is answered by [None]. *)
Theorem create_order_then_status :
  forall (self : OrderService.t) (env : Env) (request : OrderRequest.t)
         (response : OrderResponse.t),
    fst (OrderService.create_order self env request) = Ok response ->
    let self' := snd (OrderService.create_order self env request) in
    fst (OrderService.get_order_status self' (OrderResponse.order_id response))
    = Some response /\
    (forall id,
       id <> OrderResponse.order_id response ->
       fst (OrderService.get_order_status self' id)
       = fst (OrderService.get_order_status self id)) /\
    (forall id,
       ~ In id (dict_keys (OrderService.orders self')) ->
       fst (OrderService.get_order_status self' id) = None).
Proof.
  intros self env request response H self'.
  destruct (create_order_stores self env request response H) as [G _].
  split; [exact G|]. split.
  - intros id Hne. unfold self'.
    destruct (create_order_response self env request response H) as [E ->].
    simpl. apply dict_get_set_ne. rewrite E in Hne. simpl in Hne. congruence.
  - intros id Hid. simpl. now apply dict_get_None.
Qed.

Lemma create_order_then_status_witness :
  exists response,
    fst (OrderService.create_order OrderService.__init__ scenario_env
           (scenario_request false)) = Ok response /\
    fst (OrderService.get_order_status
           (snd (OrderService.create_order OrderService.__init__ scenario_env
                   (scenario_request false)))
           "ORD-20240115-3F2B8C1A") = Some response.
Proof.
  eexists. split; [reflexivity|].
  apply (create_order_then_status OrderService.__init__ scenario_env
           (scenario_request false) _ eq_refl).
Defined.

(** X2. In every state that the service reaches, no identifier is stored
    twice, the order that [get_order_status] returns for an identifier
    carries that identifier, and every stored order is returned by
    [get_order_status] for its own identifier. *)
Theorem reachable_store_keys :
  forall self : OrderService.t,
    reachable self ->
    NoDup (dict_keys (OrderService.orders self)) /\
    (forall id o,
       fst (OrderService.get_order_status self id) = Some o ->
       OrderResponse.order_id o = id) /\
    (forall o,
       In o (dict_values (OrderService.orders self)) ->
       fst (OrderService.get_order_status self (OrderResponse.order_id o))
       = Some o).
Proof.
  intros self R. destruct (reachable_keys _ self R) as [N K].
  split; [exact N|]. split.
  - intros id o G. simpl in G. apply dict_get_In in G. now apply K.
  - intros o Hin. unfold dict_values in Hin.
    apply in_map_iff in Hin as ([k o'] & E & Hin). simpl in E. subst o'.
    simpl. rewrite (K _ _ Hin). now apply dict_get_of_In.
Qed.

Lemma reachable_store_keys_witness :
  NoDup (dict_keys (OrderService.orders two_orders)) /\
  dict_keys (OrderService.orders two_orders)
  = ["ORD-20240115-3F2B8C1A"; "ORD-20240116-7C9E6679"].
Proof.
  split; [|reflexivity].
  apply (reachable_store_keys two_orders).
  repeat (apply reach_step; [|exact I]). apply reach_init.
Defined.

(** X3. No operation removes an identifier from the store: after any list
    of calls the keys of the store are the keys it had, in the same order,
    followed by at most one new key per call.  An identifier that is stored
    stays stored; the order filed under it may have been cancelled, or
    replaced by the creation of an order under the same identifier. *)
Theorem order_ids_never_removed :
  forall (self : OrderService.t) (cs : list call),
    (exists added,
       dict_keys (OrderService.orders (run self cs))
       = (dict_keys (OrderService.orders self) ++ added)%list /\
       (List.length added <= List.length cs)%nat) /\
    (forall id,
       dict_get id (OrderService.orders self) <> None ->
       dict_get id (OrderService.orders (run self cs)) <> None).
Proof.
  intros self cs. destruct (run_keys self cs) as (added & E & L).
  split; [exists added; auto|].
  intros id Hs Hn. apply dict_get_None in Hn. apply Hs. apply dict_get_None.
  intros Hin. apply Hn. rewrite E. apply in_or_app. now left.
Qed.

(** X4. A stored order changes in its status only, and only to cancelled:
    after any list of calls none of which creates an order under the same
    identifier, the store holds for that identifier the same order or the
    same order with status cancelled.  A cancelled order stays as it is. *)
Theorem stored_order_only_changes_status :
  forall (self : OrderService.t) (cs : list call) (id : string)
         (o : OrderResponse.t),
    dict_get id (OrderService.orders self) = Some o ->
    Forall (fun c => ~ creates id c) cs ->
    exists o',
      dict_get id (OrderService.orders (run self cs)) = Some o' /\
      (o' = o \/ o' = OrderResponse.set_status "cancelled" o) /\
      (OrderResponse.status o = "cancelled" -> o' = o).
Proof.
  intros self cs id o G F.
  destruct (run_same_or_cancelled self cs id o G F) as (o' & G' & S).
  exists o'. split; [exact G'|]. split; [exact S|].
  intros C. destruct S as [-> | ->]; [reflexivity|].
  now apply set_status_cancelled_id.
Qed.

Lemma stored_order_only_changes_status_witness :
  exists o o',
    dict_get "ORD-20240115-3F2B8C1A"
      (OrderService.orders
         (step OrderService.__init__
            (CreateOrder scenario_env (scenario_request false)))) = Some o /\
    dict_get "ORD-20240115-3F2B8C1A"
      (OrderService.orders
         (run (step OrderService.__init__
                 (CreateOrder scenario_env (scenario_request false)))
            [GetMenu None; CancelOrder "ORD-20240115-3F2B8C1A" None;
             GetOrderHistory "+7 (900) 123-45-67";
             CancelOrder "ORD-20240115-3F2B8C1A" None])) = Some o' /\
    o' = OrderResponse.set_status "cancelled" o.
Proof.
  eexists. eexists. split; [reflexivity|].
  destruct (stored_order_only_changes_status
              (step OrderService.__init__
                 (CreateOrder scenario_env (scenario_request false)))
              [GetMenu None; CancelOrder "ORD-20240115-3F2B8C1A" None;
               GetOrderHistory "+7 (900) 123-45-67";
               CancelOrder "ORD-20240115-3F2B8C1A" None]
              "ORD-20240115-3F2B8C1A" _ eq_refl)
    as (o' & G & _).
  - repeat (constructor; [simpl; tauto|]). constructor.
  - split; [reflexivity|reflexivity].
Defined.

(** X5. [create_order] does not look whether the generated identifier is
    already stored: when it is, the new order takes the place of the old
    one, whatever the old one was, without an error; the keys of the store
    and their order stay as they were. *)
Theorem create_order_overwrites :
  forall (self : OrderService.t) (env : Env) (request : OrderRequest.t)
         (response old : OrderResponse.t),
    fst (OrderService.create_order self env request) = Ok response ->
    dict_get (OrderResponse.order_id response) (OrderService.orders self)
    = Some old ->
    let self' := snd (OrderService.create_order self env request) in
    dict_get (OrderResponse.order_id response) (OrderService.orders self')
    = Some response /\
    OrderResponse.status response = "created" /\
    dict_keys (OrderService.orders self') = dict_keys (OrderService.orders self)
    /\ List.length (OrderService.orders self')
       = List.length (OrderService.orders self).
Proof.
  intros self env request response old H G self'.
  destruct (create_order_stores self env request response H) as [G' S].
  split; [exact G'|]. split; [exact S|].
  assert (K : dict_keys (OrderService.orders self')
              = dict_keys (OrderService.orders self)).
  { unfold self'.
    destruct (create_order_response self env request response H) as [E ->].
    simpl.
    assert (Id : OrderService._generate_order_id env
                 = OrderResponse.order_id response) by (rewrite E; reflexivity).
    rewrite Id. eapply dict_keys_set_present. exact G. }
  split; [exact K|].
  apply (f_equal (@List.length string)) in K.
  unfold dict_keys in K. now rewrite !length_map in K.
Qed.

Lemma create_order_overwrites_witness :
  exists old response,
    dict_get "ORD-20240115-3F2B8C1A"
      (OrderService.orders
         (run OrderService.__init__
            [CreateOrder scenario_env (scenario_request false);
             CancelOrder "ORD-20240115-3F2B8C1A" None])) = Some old /\
    OrderResponse.status old = "cancelled" /\
    OrderService.orders
      (run OrderService.__init__
         [CreateOrder scenario_env (scenario_request false);
          CancelOrder "ORD-20240115-3F2B8C1A" None;
          CreateOrder scenario_env (scenario_request true)])
    = [("ORD-20240115-3F2B8C1A", response)] /\
    OrderResponse.status response = "created".
Proof.
  eexists. eexists. split; [reflexivity|]. split; [reflexivity|].
  split; [reflexivity|].
  apply (create_order_overwrites
           (run OrderService.__init__
              [CreateOrder scenario_env (scenario_request false);
               CancelOrder "ORD-20240115-3F2B8C1A" None])
           scenario_env (scenario_request true) _ _ eq_refl eq_refl).
Defined.

(** ** What [create_order] reads and what it does not *)

Section Reads.

Import OrderService.

Implicit Types (self : OrderService.t) (request : OrderRequest.t).

Lemma menu_item_ids_In self (z : Z) :
  In z (menu_item_ids self) <->
  exists m, In m (menu_items self) /\ MenuItem.id m = z.
Proof.
  unfold menu_item_ids. rewrite in_map_iff. split.
  - intros (m & E & Hin). eauto.
  - intros (m & Hin & E). eauto.
Qed.

Lemma items_time_loop_ids self (items items' : list OrderItem.t) :
  map OrderItem.menu_item_id items' = map OrderItem.menu_item_id items ->
  items_time_loop self items' = items_time_loop self items.
Proof.
  unfold items_time_loop. generalize 0.
  revert items'. induction items as [|i items IH]; intros [|i' items'] a;
    simpl; try discriminate; [reflexivity|].
  intros [= -> H]. now apply IH.
Qed.

Lemma items_time_loop_from_ge self (items : list OrderItem.t) (a : Z) :
  a <= fold_left
         (fun items_time order_item =>
            match find_menu_item self (OrderItem.menu_item_id order_item) with
            | Some menu_item =>
                Z.max items_time (MenuItem.preparation_minutes menu_item)
            | None => items_time
            end) items a.
Proof.
  revert a. induction items as [|i items IH]; intros a; simpl; [lia|].
  destruct (find_menu_item self (OrderItem.menu_item_id i)) as [m|].
  - etransitivity; [|apply IH]. lia.
  - apply IH.
Qed.

Lemma items_time_loop_nonneg self (items : list OrderItem.t) :
  0 <= items_time_loop self items.
Proof. apply items_time_loop_from_ge. Qed.

Lemma items_time_loop_app self (items : list OrderItem.t) (i : OrderItem.t) :
  items_time_loop self items <= items_time_loop self (items ++ [i]).
Proof.
  unfold items_time_loop. rewrite fold_left_app. simpl.
  destruct (find_menu_item self (OrderItem.menu_item_id i)); lia.
Qed.

Lemma items_total_prices self self' (items items' : list OrderItem.t) :
  map (fun i => (OrderItem.price i, OrderItem.quantity i)) items'
  = map (fun i => (OrderItem.price i, OrderItem.quantity i)) items ->
  _calculate_items_total self' items' = _calculate_items_total self items.
Proof.
  intros H. unfold _calculate_items_total. f_equal.
  change (map (fun item => (OrderItem.price item
                            * float_of_int (OrderItem.quantity item))%float))
    with (map (fun item =>
                 (fun pq : float * Z => (fst pq * float_of_int (snd pq))%float)
                   ((fun i => (OrderItem.price i, OrderItem.quantity i)) item))).
  rewrite <- !(map_map (fun i => (OrderItem.price i, OrderItem.quantity i))
                 (fun pq : float * Z => (fst pq * float_of_int (snd pq))%float)).
  now rewrite H.
Qed.

(** Subtracting 0 leaves a float as it is. *)
Lemma sub_zero (x : float) : (x - 0)%float = x.
Proof.
  apply Prim2SF_inj. rewrite FloatAxioms.sub_spec.
  replace (Prim2SF 0) with (S754_zero false) by (vm_compute; reflexivity).
  destruct (Prim2SF x) as [s|s| |s m e]; try reflexivity.
  destruct s; reflexivity.
Qed.

End Reads.

(** X6. [create_order] returns an order exactly when every line item carries
    the identifier of some entry of the menu.  Nothing else is looked at: not
    the availability of the entry, not the names, prices or quantities, not
    the number of line items. *)
Theorem create_order_succeeds_iff :
  forall (self : OrderService.t) (env : Env) (request : OrderRequest.t),
    (exists response,
       fst (OrderService.create_order self env request) = Ok response) <->
    Forall
      (fun i => exists m, In m (OrderService.menu_items self) /\
                          MenuItem.id m = OrderItem.menu_item_id i)
      (OrderRequest.items request).
Proof.
  intros self env request. split.
  - intros [r H].
    assert (A : is_ok (fst (OrderService.create_order self env request))
                = true) by now rewrite H.
    apply create_order_accepts in A.
    eapply Forall_impl; [|exact A].
    intros i Hi. now apply menu_item_ids_In.
  - intros F.
    assert (A : is_ok (fst (OrderService.create_order self env request))
                = true).
    { apply create_order_accepts. eapply Forall_impl; [|exact F].
      intros i Hi. now apply menu_item_ids_In. }
    destruct (fst (OrderService.create_order self env request)) as [r|e];
      [eauto|discriminate].
Qed.

(** X7. The time estimate reads the identifiers of the line items and the
    delivery flag, nothing else: two requests with the same identifiers in
    the same order and the same flag get the same estimate, whatever the
    quantities, prices, names and modifiers. *)
Theorem estimated_time_reads_ids :
  forall (self : OrderService.t) (request request' : OrderRequest.t),
    map OrderItem.menu_item_id (OrderRequest.items request')
    = map OrderItem.menu_item_id (OrderRequest.items request) ->
    OrderRequest.is_delivery request' = OrderRequest.is_delivery request ->
    OrderService._calculate_estimated_time self request'
    = OrderService._calculate_estimated_time self request.
Proof.
  intros self request request' Hids Hd.
  unfold OrderService._calculate_estimated_time. cbv zeta.
  rewrite (items_time_loop_ids self _ _ Hids), Hd.
  apply (f_equal (@List.length Z)) in Hids. rewrite !length_map in Hids.
  now rewrite Hids.
Qed.

Lemma estimated_time_reads_ids_witness :
  OrderService._calculate_estimated_time OrderService.__init__
    (OrderRequest.Build "Anna" "12345"
       [OrderItem.Build 101 "Pizza" 20 1 ["extra cheese"]] None false None)
  = OrderService._calculate_estimated_time OrderService.__init__
      (scenario_request false).
Proof.
  apply estimated_time_reads_ids; reflexivity.
Defined.

(** X8. The time estimate is at least 15 minutes for every request and every
    menu.  A delivery adds exactly 25 minutes to the estimate of the same
    line items.  One more line item at the end of a request that has some
    adds at least 5 minutes. *)
Theorem estimated_time_bounds :
  forall (self : OrderService.t) (request : OrderRequest.t),
    15 <= OrderService._calculate_estimated_time self request /\
    (forall request',
       OrderRequest.items request' = OrderRequest.items request ->
       OrderRequest.is_delivery request = false ->
       OrderRequest.is_delivery request' = true ->
       OrderService._calculate_estimated_time self request'
       = OrderService._calculate_estimated_time self request + 25) /\
    (forall request' i,
       OrderRequest.items request' = (OrderRequest.items request ++ [i])%list ->
       OrderRequest.is_delivery request' = OrderRequest.is_delivery request ->
       OrderRequest.items request <> [] ->
       OrderService._calculate_estimated_time self request + 5
       <= OrderService._calculate_estimated_time self request').
Proof.
  intros self request.
  unfold OrderService._calculate_estimated_time. cbv zeta.
  pose proof (items_time_loop_nonneg self (OrderRequest.items request)) as N.
  split.
  - destruct (OrderRequest.is_delivery request); lia.
  - split.
    + intros request' Hi Hf Ht. rewrite Hi, Hf, Ht. lia.
    + intros request' i Hi Hd Hne. rewrite Hi, Hd, length_app.
      pose proof (items_time_loop_app self (OrderRequest.items request) i)
        as M.
      assert (L : (1 <= List.length (OrderRequest.items request))%nat).
      { destruct (OrderRequest.items request); [congruence|simpl; lia]. }
      change (List.length [i]) with 1%nat.
      destruct (OrderRequest.is_delivery request); lia.
Qed.

(** X9. The amounts of an order are computed from the prices and quantities
    that the request gives and from the delivery flag; the menu is not read
    for them.  Two services with the same fee, threshold and percentage give
    the same three amounts to requests with the same prices, quantities and
    flag, whatever their menus hold. *)
Theorem amounts_do_not_read_menu :
  forall (self self' : OrderService.t) (env env' : Env)
         (request request' : OrderRequest.t)
         (response response' : OrderResponse.t),
    OrderService.delivery_fee self' = OrderService.delivery_fee self ->
    OrderService.discount_threshold self'
    = OrderService.discount_threshold self ->
    OrderService.discount_percent self' = OrderService.discount_percent self ->
    map (fun i => (OrderItem.price i, OrderItem.quantity i))
      (OrderRequest.items request')
    = map (fun i => (OrderItem.price i, OrderItem.quantity i))
        (OrderRequest.items request) ->
    OrderRequest.is_delivery request' = OrderRequest.is_delivery request ->
    fst (OrderService.create_order self env request) = Ok response ->
    fst (OrderService.create_order self' env' request') = Ok response' ->
    OrderResponse.total_amount response' = OrderResponse.total_amount response
    /\ OrderResponse.discount_amount response'
       = OrderResponse.discount_amount response
    /\ OrderResponse.final_amount response'
       = OrderResponse.final_amount response.
Proof.
  intros self self' env env' request request' response response'
    Hf Ht Hp Hi Hd H H'.
  destruct (create_order_response self env request response H) as [-> _].
  destruct (create_order_response self' env' request' response' H')
    as [-> _].
  cbv zeta. simpl.
  rewrite (items_total_prices self self' _ _ Hi), Hd, Hf.
  unfold OrderService._calculate_discount. rewrite Ht, Hp.
  repeat split.
Qed.

Lemma amounts_do_not_read_menu_witness :
  exists response response',
    fst (OrderService.create_order OrderService.__init__ scenario_env
           (scenario_request true)) = Ok response /\
    fst (OrderService.create_order
           (OrderService.Build [] 200 1000 10
              [MenuItem.Build 7 "Soup" "soup" None 1 false 90])
           scenario_env
           (OrderRequest.Build "Anna" "12345"
              [OrderItem.Build 7 "Soup" 2 650 []] (Some "Mira 2") true None))
    = Ok response' /\
    OrderResponse.final_amount response' = OrderResponse.final_amount response.
Proof.
  eexists. eexists. split; [reflexivity|]. split; [reflexivity|].
  apply (amounts_do_not_read_menu OrderService.__init__
           (OrderService.Build [] 200 1000 10
              [MenuItem.Build 7 "Soup" "soup" None 1 false 90])
           scenario_env scenario_env (scenario_request true)
           (OrderRequest.Build "Anna" "12345"
              [OrderItem.Build 7 "Soup" 2 650 []] (Some "Mira 2") true None)
           _ _ eq_refl eq_refl eq_refl eq_refl eq_refl eq_refl eq_refl).
Defined.

(** X10. In a state that the service reaches, an order whose subtotal is not
    at least 1000.00 gets no discount: its [discount_amount] is 0 and its
    [final_amount] is its [total_amount]. *)
Theorem no_discount_below_threshold :
  forall (self : OrderService.t) (env : Env) (request : OrderRequest.t)
         (response : OrderResponse.t),
    reachable self ->
    fst (OrderService.create_order self env request) = Ok response ->
    (1000 <=? Spec.subtotal (OrderRequest.items request)
                (OrderRequest.is_delivery request))%float = false ->
    OrderResponse.discount_amount response = 0%float /\
    OrderResponse.final_amount response = OrderResponse.total_amount response.
Proof.
  intros self env request response R H T.
  destruct (create_order_response self env request response H) as [-> _].
  destruct (amounts_spec _ self (OrderRequest.items request)
              (OrderRequest.is_delivery request) R) as (E1 & E2 & E3).
  cbv zeta in *. simpl. rewrite E3, E2, E1.
  unfold Spec.final, Spec.discount, Spec.DISCOUNT_THRESHOLD. rewrite T.
  rewrite sub_zero. split; reflexivity.
Qed.

Lemma no_discount_below_threshold_witness :
  exists response,
    fst (OrderService.create_order OrderService.__init__ scenario_env
           (OrderRequest.Build "Ivan" "+7 (900) 123-45-67"
              [OrderItem.Build 101 "Margherita" 1 650 []] (Some "Lenina 1")
              true None)) = Ok response /\
    OrderResponse.total_amount response = 850%float /\
    OrderResponse.discount_amount response = 0%float /\
    OrderResponse.final_amount response = OrderResponse.total_amount response.
Proof.
  eexists. split; [reflexivity|]. split; [reflexivity|].
  apply (no_discount_below_threshold OrderService.__init__ scenario_env
           (OrderRequest.Build "Ivan" "+7 (900) 123-45-67"
              [OrderItem.Build 101 "Margherita" 1 650 []] (Some "Lenina 1")
              true None) _ (reach_init _) eq_refl).
  reflexivity.
Defined.

(** ** What the models accept *)

Section Accept.

Lemma SFltb_zero_pos_iff (x : spec_float) :
  SFltb (S754_zero false) x = true <-> pos_sf x.
Proof.
  split; [apply SFltb_zero_pos|].
  destruct x as [s|s| |s m e]; simpl; try contradiction; intros ->; reflexivity.
Qed.

(** The constraint [gt=0] on a float: a positive number or plus infinity. *)
Lemma ltb_zero_iff (x : float) :
  (0 <? x)%float = true <-> pos_sf (Prim2SF x).
Proof.
  rewrite FloatAxioms.ltb_spec.
  replace (Prim2SF 0) with (S754_zero false) by (vm_compute; reflexivity).
  apply SFltb_zero_pos_iff.
Qed.

Lemma OrderItem_init_iff (d : OrderItem.data) (i : OrderItem.t) :
  OrderItem.__init__ d = Ok i <-> item_constraints d /\ i = item_of_data d.
Proof.
  unfold item_constraints. rewrite <- ltb_zero_iff. split.
  - unfold OrderItem.__init__, OrderItem.validate_model, field, check, and_then.
    simpl.
    destruct (0 <? OrderItem.d_menu_item_id d) eqn:C1;
      destruct (2 <=? len (OrderItem.d_name d)) eqn:C2;
      destruct (len (OrderItem.d_name d) <=? 100) eqn:C3;
      destruct (0 <? OrderItem.d_quantity d) eqn:C4;
      destruct (OrderItem.d_quantity d <=? 20) eqn:C5;
      destruct (0 <? OrderItem.d_price d)%float eqn:C6;
      simpl; try discriminate.
    intros [= <-].
    apply Z.ltb_lt in C1, C4. apply Z.leb_le in C2, C3, C5.
    repeat split; assumption.
  - intros ((H1 & [H2 H3] & [H4 H5] & H6) & ->).
    apply Z.ltb_lt in H1, H4. apply Z.leb_le in H2, H3, H5.
    unfold OrderItem.__init__, OrderItem.validate_model, field, check, and_then.
    simpl. rewrite H1, H2, H3, H4, H5, H6. reflexivity.
Qed.

(** The errors of a line item lie under the four fields that carry a
    constraint, and there is none exactly when the constraints are met. *)
Lemma item_errors (d : OrderItem.data) :
  Forall
    (fun e => exists f m,
       e = ([Field f], m) /\
       In f ["menu_item_id"; "name"; "quantity"; "price"])
    (snd (OrderItem.validate_model d)) /\
  (snd (OrderItem.validate_model d) = [] <-> item_constraints d) /\
  OrderItem.__init__ d
  = match snd (OrderItem.validate_model d) with
    | [] => Ok (item_of_data d)
    | errors => Raise (ValidationError errors)
    end.
Proof.
  unfold item_constraints. rewrite <- ltb_zero_iff.
  unfold OrderItem.__init__, OrderItem.validate_model, field, check, and_then,
    item_of_data.
  simpl.
  destruct (0 <? OrderItem.d_menu_item_id d) eqn:C1;
    destruct (2 <=? len (OrderItem.d_name d)) eqn:C2;
    destruct (len (OrderItem.d_name d) <=? 100) eqn:C3;
    destruct (0 <? OrderItem.d_quantity d) eqn:C4;
    destruct (OrderItem.d_quantity d <=? 20) eqn:C5;
    destruct (0 <? OrderItem.d_price d)%float eqn:C6;
    simpl;
    try apply Z.ltb_lt in C1; try apply Z.ltb_ge in C1;
    try apply Z.leb_le in C2; try apply Z.leb_gt in C2;
    try apply Z.leb_le in C3; try apply Z.leb_gt in C3;
    try apply Z.ltb_lt in C4; try apply Z.ltb_ge in C4;
    try apply Z.leb_le in C5; try apply Z.leb_gt in C5;
    (split;
     [repeat (constructor;
              [eexists; eexists; split; [reflexivity|simpl; tauto]|]);
      constructor
     |split; [|reflexivity]]);
    (split; [try discriminate; intros _; repeat split; assumption
            |try reflexivity; intros (H1 & [H2 H3] & [H4 H5] & H6);
             try lia; discriminate]).
Qed.

Lemma validate_sequence_spec (l : list OrderItem.data) (i : nat) :
  Forall
    (fun e => exists j f m,
       (i <= j < i + List.length l)%nat /\
       e = ([Index j; Field f], m) /\
       In f ["menu_item_id"; "name"; "quantity"; "price"])
    (snd (OrderRequest.validate_sequence i l)) /\
  (forall j d,
     nth_error l j = Some d -> ~ item_constraints d ->
     exists f m,
       In ([Index (i + j); Field f], m)
         (snd (OrderRequest.validate_sequence i l))) /\
  (Forall item_constraints l ->
   OrderRequest.validate_sequence i l = (map item_of_data l, [])) /\
  (snd (OrderRequest.validate_sequence i l) = [] -> Forall item_constraints l).
Proof.
  revert i. induction l as [|d l IH]; intros i; simpl.
  - split; [constructor|]. split; [intros [|j] d'; discriminate|].
    split; [reflexivity|constructor].
  - destruct (IH (S i)) as (F & C & A & B).
    destruct (OrderRequest.validate_sequence (S i) l) as [result errors].
    simpl in F, C, A, B.
    destruct (item_errors d) as (Fd & Ed & Id). rewrite Id.
    assert (F' : Forall
                   (fun e => exists j f m,
                      (i <= j < i + S (List.length l))%nat /\
                      e = ([Index j; Field f], m) /\
                      In f ["menu_item_id"; "name"; "quantity"; "price"])
                   errors).
    { eapply Forall_impl; [|exact F].
      intros e (j & f & m & Hj & He & Hf). exists j, f, m.
      split; [lia|auto]. }
    destruct (snd (OrderItem.validate_model d)) as [|e0 es] eqn:Es;
      cbn [snd fst errors_of].
    + split; [exact F'|].
      split.
      { intros [|j] d' Hn Hc; simpl in Hn.
        - injection Hn as <-. exfalso. apply Hc. now apply Ed.
        - destruct (C j d' Hn Hc) as (f & m & Hin).
          exists f, m. replace (i + S j)%nat with (S i + j)%nat by lia.
          exact Hin. }
      split.
      { intros Fa. inversion Fa; subst.
        injection (A H2) as -> ->. reflexivity. }
      intros ->. constructor; [now apply Ed|now apply B].
    + split.
      { apply Forall_app. split; [|exact F'].
        unfold under. apply Forall_map.
        eapply Forall_impl; [|exact Fd].
        intros e (f & m & -> & Hf). simpl. exists i, f, m.
        split; [lia|auto]. }
      split.
      { intros [|j] d' Hn Hc; simpl in Hn.
        - inversion Fd as [|? ? (f & m & -> & Hf) _]; subst.
          exists f, m. rewrite Nat.add_0_r. left. reflexivity.
        - destruct (C j d' Hn Hc) as (f & m & Hin).
          exists f, m. replace (i + S j)%nat with (S i + j)%nat by lia.
          apply in_or_app. right. exact Hin. }
      split.
      { intros Fa. inversion Fa; subst.
        apply Ed in H1. discriminate. }
      discriminate.
Qed.

Lemma build_items_iff (l : list OrderItem.data) (its : list OrderItem.t) :
  OrderRequest.build_items l = Ok its <->
  Forall item_constraints l /\ its = map item_of_data l.
Proof.
  unfold OrderRequest.build_items.
  destruct (validate_sequence_spec l 0) as (_ & _ & A & B).
  destruct (OrderRequest.validate_sequence 0 l) as [result [|e errors]];
    simpl in *.
  - specialize (B eq_refl). injection (A B) as ->.
    split; [intros [= <-]; auto|intros [_ ->]; reflexivity].
  - split; [discriminate|]. intros [F _]. specialize (A F). discriminate.
Qed.

Lemma ends_with_newline_last (cps : list Z) :
  OrderRequest.ends_with_newline cps = true ->
  cps = (removelast cps ++ [10])%list.
Proof.
  unfold OrderRequest.ends_with_newline.
  destruct (rev cps) as [|last t] eqn:R; [discriminate|].
  intros E. apply Z.eqb_eq in E. subst last.
  apply (f_equal (@rev Z)) in R. rewrite rev_involutive in R. simpl in R.
  rewrite R at 1. now rewrite R, removelast_last.
Qed.

(** On a string that the length constraints let through, the regular
    expression asks that every character be of its class. *)
Lemma re_match_phone_iff (v : string) :
  5 <= len v <= 20 ->
  OrderRequest.re_match_phone v = true <->
  forallb OrderRequest.phone_char (code_points v) = true.
Proof.
  intros [L U]. unfold OrderRequest.re_match_phone, OrderRequest.phone_body.
  cbv zeta. unfold len in L, U.
  apply Z.leb_le in L, U. rewrite L, U, !andb_true_r.
  split.
  - intros H. apply orb_true_iff in H as [H|H]; [exact H|].
    apply andb_true_iff in H as [E H].
    apply andb_true_iff in H as [H _]. apply andb_true_iff in H as [H _].
    rewrite (ends_with_newline_last _ E), forallb_app, H. reflexivity.
  - intros ->. reflexivity.
Qed.

Lemma name_field_iff (n v : string) :
  and_then (check "min_length=2" (2 <=? len n) n)
    (check "max_length=100" (len n <=? 100)) = Ok v <->
  2 <= len n <= 100 /\ v = n.
Proof.
  unfold and_then, check.
  destruct (2 <=? len n) eqn:A; [destruct (len n <=? 100) eqn:B|].
  - apply Z.leb_le in A, B. split; [intros [= <-]; auto|intros [_ ->]; auto].
  - apply Z.leb_gt in B. split; [discriminate|lia].
  - apply Z.leb_gt in A. split; [discriminate|lia].
Qed.

Lemma phone_field_iff (p v : string) :
  and_then
    (and_then (check "min_length=5" (5 <=? len p) p)
       (check "max_length=20" (len p <=? 20)))
    OrderRequest.validate_phone = Ok v <->
  5 <= len p <= 20 /\
  forallb OrderRequest.phone_char (code_points p) = true /\ v = p.
Proof.
  unfold and_then, check.
  destruct (5 <=? len p) eqn:A; [destruct (len p <=? 20) eqn:B|].
  - apply Z.leb_le in A, B. unfold OrderRequest.validate_phone.
    rewrite <- (re_match_phone_iff p (conj A B)).
    destruct (OrderRequest.re_match_phone p); simpl.
    + split; [intros [= <-]; auto|intros (_ & _ & ->); auto].
    + split; [discriminate|intros (_ & X & _); discriminate].
  - apply Z.leb_gt in B. split; [discriminate|lia].
  - apply Z.leb_gt in A. split; [discriminate|lia].
Qed.

Lemma items_field_iff (l : list OrderItem.data) (its : list OrderItem.t) :
  and_then (OrderRequest.build_items l) OrderRequest.validate_items = Ok its
  <-> l <> [] /\ Forall item_constraints l /\ its = map item_of_data l.
Proof.
  unfold and_then.
  destruct (OrderRequest.build_items l) as [its'|e] eqn:B.
  - apply build_items_iff in B as [F ->].
    unfold OrderRequest.validate_items.
    destruct l as [|d l]; simpl.
    + split; [discriminate|intros [X _]; congruence].
    + split.
      * intros [= <-]. split; [discriminate|auto].
      * intros (_ & _ & ->). reflexivity.
  - split; [discriminate|].
    intros (_ & F & _).
    assert (X : Raise e = Ok (map item_of_data l)).
    { rewrite <- B. apply build_items_iff. auto. }
    discriminate.
Qed.

Lemma name_field_raise (n : string) (e : exception) :
  and_then (check "min_length=2" (2 <=? len n) n)
    (check "max_length=100" (len n <=? 100)) = Raise e ->
  ~ 2 <= len n <= 100 /\ exists m, errors_of e = [([], m)].
Proof.
  unfold and_then, check.
  destruct (2 <=? len n) eqn:A; [destruct (len n <=? 100) eqn:B|];
    [discriminate| |]; intros [= <-];
    (split; [|eexists; reflexivity]).
  - apply Z.leb_gt in B. lia.
  - apply Z.leb_gt in A. lia.
Qed.

Lemma phone_field_raise (p : string) (e : exception) :
  and_then
    (and_then (check "min_length=5" (5 <=? len p) p)
       (check "max_length=20" (len p <=? 20)))
    OrderRequest.validate_phone = Raise e ->
  ~ (5 <= len p <= 20 /\
     forallb OrderRequest.phone_char (code_points p) = true) /\
  exists m, errors_of e = [([], m)].
Proof.
  intros H.
  split.
  - intros [L F].
    assert (X : Raise e = Ok p)
      by (rewrite <- H; apply phone_field_iff; auto).
    discriminate.
  - revert H. unfold and_then, check, OrderRequest.validate_phone.
    destruct (5 <=? len p); [destruct (len p <=? 20)|];
      [destruct (OrderRequest.re_match_phone p); simpl; [discriminate|]| |];
      intros [= <-]; eexists; reflexivity.
Qed.

Lemma items_field_raise (l : list OrderItem.data) (e : exception) :
  and_then (OrderRequest.build_items l) OrderRequest.validate_items = Raise e
  ->
  (l = [] /\ errors_of e = [([], EmptyOrder)]) \/
  (l <> [] /\ errors_of e = snd (OrderRequest.validate_sequence 0 l) /\
   errors_of e <> []).
Proof.
  unfold and_then, OrderRequest.build_items.
  destruct l as [|d l].
  - simpl. intros [= <-]. left. auto.
  - destruct (validate_sequence_spec (d :: l) 0) as (_ & _ & A & B).
    destruct (OrderRequest.validate_sequence 0 (d :: l))
      as [result [|e0 errors]]; simpl in *.
    + specialize (B eq_refl). injection (A B) as ->. discriminate.
    + intros [= <-]. right. simpl.
      split; [discriminate|]. split; [reflexivity|discriminate].
Qed.

End Accept.

(** X11. [OrderItem] accepts its arguments exactly when the menu identifier
    is greater than 0, the name has 2 to 100 characters (code points, not
    bytes), the quantity is
    from 1 to 20 and the price is a positive number or plus infinity (NaN,
    the zeros and negative prices are refused).  The object then carries the
    arguments as given, with an empty list for modifiers that were left out. *)
Theorem order_item_accepted_iff :
  forall (d : OrderItem.data) (i : OrderItem.t),
    OrderItem.__init__ d = Ok i <->
    (0 < OrderItem.d_menu_item_id d /\
     2 <= len (OrderItem.d_name d) <= 100 /\
     0 < OrderItem.d_quantity d <= 20 /\
     match Prim2SF (OrderItem.d_price d) with
     | S754_finite s _ _ | S754_infinity s => s = false
     | S754_zero _ | S754_nan => False
     end) /\
    i = OrderItem.Build (OrderItem.d_menu_item_id d) (OrderItem.d_name d)
          (OrderItem.d_quantity d) (OrderItem.d_price d)
          (match OrderItem.d_modifiers d with Some l => l | None => [] end).
Proof.
  intros d i. rewrite OrderItem_init_iff.
  unfold item_constraints, item_of_data, pos_sf.
  destruct (Prim2SF (OrderItem.d_price d)); tauto.
Qed.

(** X12. [OrderRequest] accepts its arguments exactly when the customer name
    has 2 to 100 characters, the phone has 5 to 20 characters, each a decimal
    digit or a white space of Unicode or one of the four signs, there is at
    least one line item and every line item meets the constraints of
    [OrderItem].  Characters are code points.  The delivery
    flag, the delivery address and the special instructions play no part in
    the decision; left out, they are [False], [None] and [None]. *)
Theorem order_request_accepted_iff :
  forall (d : OrderRequest.data) (r : OrderRequest.t),
    OrderRequest.__init__ d = Ok r <->
    2 <= len (OrderRequest.d_customer_name d) <= 100 /\
    5 <= len (OrderRequest.d_customer_phone d) <= 20 /\
    forallb OrderRequest.phone_char
      (code_points (OrderRequest.d_customer_phone d)) = true
    /\ OrderRequest.d_items d <> [] /\
    Forall item_constraints (OrderRequest.d_items d) /\
    r = OrderRequest.Build (OrderRequest.d_customer_name d)
          (OrderRequest.d_customer_phone d)
          (map item_of_data (OrderRequest.d_items d))
          (match OrderRequest.d_delivery_address d with
           | Some v => v
           | None => None
           end)
          (match OrderRequest.d_is_delivery d with
           | Some b => b
           | None => false
           end)
          (match OrderRequest.d_special_instructions d with
           | Some v => v
           | None => None
           end).
Proof.
  intros d r.
  unfold OrderRequest.__init__, OrderRequest.validate_model, field.
  simpl.
  destruct (and_then (check _ _ _) _) as [n|e1] eqn:E1; simpl;
    destruct (and_then (and_then (check _ _ _) _) _) as [p|e2] eqn:E2; simpl;
    destruct (and_then (OrderRequest.build_items _) _) as [its|e3] eqn:E3;
    simpl;
    destruct (OrderRequest.d_delivery_address d) as [a|]; simpl;
    try (apply name_field_iff in E1 as [N ->]);
    try (apply phone_field_iff in E2 as (P1 & P2 & ->));
    try (apply items_field_iff in E3 as (I1 & I2 & ->));
    try (split; [intros [= <-]; auto 10|intros (_ & _ & _ & _ & _ & ->);
                                          reflexivity]);
    (split; [discriminate|]); intros (N' & P1' & P2' & I1' & I2' & _).
  all: try (assert (X : Raise e3 = Ok (map item_of_data (OrderRequest.d_items d)))
              by (rewrite <- E3; apply items_field_iff; auto);
            discriminate).
  all: try (assert (X : Raise e2 = Ok (OrderRequest.d_customer_phone d))
              by (rewrite <- E2; apply phone_field_iff; auto);
            discriminate).
  all: assert (X : Raise e1 = Ok (OrderRequest.d_customer_name d))
         by (rewrite <- E1; apply name_field_iff; auto);
       discriminate.
Qed.

(** X13. When [OrderRequest] refuses its arguments, it raises pydantic's
    [ValidationError] with at least one error.  The errors come in the
    order of the fields: at most one for [customer_name], there exactly
    when the name does not have 2 to 100 characters; at most one for
    [customer_phone], there exactly when the phone does not have 5 to 20
    characters of the class; then those of [items]: the single error of the
    validator on [items] itself when the list is empty, and otherwise the
    errors of the line items, each under the index of its item and the name
    of one of the four constrained fields, with at least one for every
    rejected item and none when every item is accepted.  No error is ever
    reported for [delivery_address], [is_delivery] or
    [special_instructions]. *)
Theorem order_request_rejection :
  forall (d : OrderRequest.data) (e : exception),
    OrderRequest.__init__ d = Raise e ->
    exists e1 e2 e3,
      e = ValidationError (e1 ++ e2 ++ e3) /\
      (e1 ++ e2 ++ e3)%list <> [] /\
      (2 <= len (OrderRequest.d_customer_name d) <= 100 /\ e1 = [] \/
       ~ 2 <= len (OrderRequest.d_customer_name d) <= 100 /\
       exists m, e1 = [([Field "customer_name"], m)]) /\
      ((5 <= len (OrderRequest.d_customer_phone d) <= 20 /\
        forallb OrderRequest.phone_char
          (code_points (OrderRequest.d_customer_phone d)) = true) /\
       e2 = [] \/
       ~ (5 <= len (OrderRequest.d_customer_phone d) <= 20 /\
          forallb OrderRequest.phone_char
            (code_points (OrderRequest.d_customer_phone d)) = true) /\
       exists m, e2 = [([Field "customer_phone"], m)]) /\
      (OrderRequest.d_items d = [] /\ e3 = [([Field "items"], EmptyOrder)] \/
       OrderRequest.d_items d <> [] /\
       Forall
         (fun x => exists i f m,
            (i < List.length (OrderRequest.d_items d))%nat /\
            x = ([Field "items"; Index i; Field f], m) /\
            In f ["menu_item_id"; "name"; "quantity"; "price"]) e3 /\
       (forall i di,
          nth_error (OrderRequest.d_items d) i = Some di ->
          ~ item_constraints di ->
          exists f m, In ([Field "items"; Index i; Field f], m) e3) /\
       (Forall item_constraints (OrderRequest.d_items d) -> e3 = [])).
Proof.
  intros d e.
  unfold OrderRequest.__init__, OrderRequest.validate_model, field.
  cbv zeta. cbn [fst snd].
  set (name_field := and_then (check _ _ _) _).
  set (phone_field := and_then (and_then (check _ _ _) _) _).
  set (items_field := and_then (OrderRequest.build_items _) _).
  assert (N : exists e1,
             match name_field with
             | Ok _ => e1 = []
             | Raise x =>
                 e1 = under (Field "customer_name") (errors_of x) /\ e1 <> []
             end /\
             (2 <= len (OrderRequest.d_customer_name d) <= 100 /\ e1 = [] \/
              ~ 2 <= len (OrderRequest.d_customer_name d) <= 100 /\
              exists m, e1 = [([Field "customer_name"], m)])).
  { destruct name_field as [n|ex] eqn:E;
      [exists []
      |exists (under (Field "customer_name") (errors_of ex))].
    - split; [reflexivity|].
      apply name_field_iff in E as [L _]. left. auto.
    - apply name_field_raise in E as (L & m & ->).
      split; [split; [reflexivity|discriminate]|]. right.
      split; [exact L|]. exists m. reflexivity. }
  assert (P : exists e2,
             match phone_field with
             | Ok _ => e2 = []
             | Raise x =>
                 e2 = under (Field "customer_phone") (errors_of x) /\ e2 <> []
             end /\
             ((5 <= len (OrderRequest.d_customer_phone d) <= 20 /\
               forallb OrderRequest.phone_char
                 (code_points (OrderRequest.d_customer_phone d)) = true) /\
              e2 = [] \/
              ~ (5 <= len (OrderRequest.d_customer_phone d) <= 20 /\
                 forallb OrderRequest.phone_char
                   (code_points (OrderRequest.d_customer_phone d)) = true) /\
              exists m, e2 = [([Field "customer_phone"], m)])).
  { destruct phone_field as [p|ex] eqn:E;
      [exists []
      |exists (under (Field "customer_phone") (errors_of ex))].
    - split; [reflexivity|].
      apply phone_field_iff in E as (L & F & _). left. auto.
    - apply phone_field_raise in E as (L & m & ->).
      split; [split; [reflexivity|discriminate]|]. right.
      split; [exact L|]. exists m. reflexivity. }
  assert (I : exists e3,
             match items_field with
             | Ok _ => e3 = []
             | Raise x =>
                 e3 = under (Field "items") (errors_of x) /\ e3 <> []
             end /\
             (OrderRequest.d_items d = [] /\
              e3 = [([Field "items"], EmptyOrder)] \/
              OrderRequest.d_items d <> [] /\
              Forall
                (fun x => exists i f m,
                   (i < List.length (OrderRequest.d_items d))%nat /\
                   x = ([Field "items"; Index i; Field f], m) /\
                   In f ["menu_item_id"; "name"; "quantity"; "price"]) e3 /\
              (forall i di,
                 nth_error (OrderRequest.d_items d) i = Some di ->
                 ~ item_constraints di ->
                 exists f m, In ([Field "items"; Index i; Field f], m) e3) /\
              (Forall item_constraints (OrderRequest.d_items d) -> e3 = []))).
  { destruct items_field as [its|ex] eqn:E;
      [exists []
      |exists (under (Field "items") (errors_of ex))].
    - split; [reflexivity|].
      apply items_field_iff in E as (L & F & _). right.
      split; [exact L|]. split; [constructor|]. split; [|reflexivity].
      intros i di Hn Hc. exfalso. apply Hc.
      rewrite Forall_forall in F. apply F. eapply nth_error_In, Hn.
    - apply items_field_raise in E as [ [L ->]|(L & -> & Ne)].
      + split; [split; [reflexivity|discriminate]|]. left. auto.
      + split.
        { split; [reflexivity|]. unfold under. intros Z.
          apply map_eq_nil in Z. contradiction. }
        right. split; [exact L|].
        destruct (validate_sequence_spec (OrderRequest.d_items d) 0)
          as (F & C & A & _).
        split; [|split].
        * unfold under. apply Forall_map.
          eapply Forall_impl; [|exact F].
          intros x (j & f & m & Hj & -> & Hf). exists j, f, m.
          split; [lia|]. split; [reflexivity|exact Hf].
        * intros i di Hn Hc. destruct (C i di Hn Hc) as (f & m & Hin).
          exists f, m. unfold under. apply in_map_iff.
          exists ([Index i; Field f], m). split; [reflexivity|exact Hin].
        * intros Fa. rewrite (A Fa). reflexivity. }
  destruct N as (e1 & N1 & N2), P as (e2 & P1 & P2), I as (e3 & I1 & I2).
  intros H. exists e1, e2, e3.
  revert H N1 P1 I1.
  destruct name_field as [n|x1], phone_field as [p|x2],
    items_field as [its|x3];
    cbn [fst snd app];
    destruct (OrderRequest.d_delivery_address d) as [a|]; cbn [fst snd app];
    try discriminate; intros [= <-] N1 P1 I1;
    repeat match goal with H : _ /\ _ |- _ => destruct H end;
    (split;
     [subst e1 e2 e3; cbn [app]; rewrite ?app_nil_r, <- ?app_assoc;
      reflexivity|]);
    (split;
     [intros Z; repeat (apply app_eq_nil in Z; destruct Z as [? Z]);
      contradiction|]);
    auto.
Qed.

Lemma order_request_rejection_witness :
  exists e1 e2 e3,
    OrderRequest.__init__
      (OrderRequest.Data "Ivan" "call me"
         [OrderItem.Data 101 "Burger" 0 450 None;
          OrderItem.Data 301 "Cola" 2 (-1) None]
         (Some None) (Some true) None)
    = Raise (ValidationError (e1 ++ e2 ++ e3)) /\
    e1 = [] /\
    e2 = [([Field "customer_phone"], BadPhoneFormat)] /\
    e3 = [([Field "items"; Index 0; Field "quantity"],
           ConstraintViolated "gt=0");
          ([Field "items"; Index 1; Field "price"],
           ConstraintViolated "gt=0")].
Proof.
  destruct (order_request_rejection
              (OrderRequest.Data "Ivan" "call me"
                 [OrderItem.Data 101 "Burger" 0 450 None;
                  OrderItem.Data 301 "Cola" 2 (-1) None]
                 (Some None) (Some true) None) _ eq_refl)
    as (e1 & e2 & e3 & E & _).
  exists [], [([Field "customer_phone"], BadPhoneFormat)],
    [([Field "items"; Index 0; Field "quantity"], ConstraintViolated "gt=0");
     ([Field "items"; Index 1; Field "price"], ConstraintViolated "gt=0")].
  repeat split; reflexivity.
Defined.

(** ** The menu *)

Section Menu.

Import OrderService.

Lemma unique_from (l acc : list string) :
  NoDup acc ->
  let r := fold_left
             (fun acc c =>
                if existsb (String.eqb c) acc then acc else (acc ++ [c])%list)
             l acc in
  NoDup r /\ forall c, In c r <-> In c acc \/ In c l.
Proof.
  revert acc. induction l as [|x l IH]; intros acc N; simpl.
  - split; [exact N|]. intros c. tauto.
  - destruct (existsb (String.eqb x) acc) eqn:E.
    + destruct (IH acc N) as [N' M]. split; [exact N'|].
      intros c. rewrite M.
      apply existsb_exists in E as (y & Hy & Exy).
      apply String.eqb_eq in Exy. subst y.
      split; [tauto|]. intros [H|[<-|H]]; auto.
    + assert (Nx : ~ In x acc).
      { intros Hin.
        assert (X : existsb (String.eqb x) acc = true).
        { apply existsb_exists. exists x. split; [exact Hin|].
          apply String.eqb_refl. }
        congruence. }
      assert (N2 : NoDup (acc ++ [x])).
      { apply NoDup_app; [exact N|repeat constructor; intros []|].
        intros y Hy [<-|[]]. contradiction. }
      destruct (IH (acc ++ [x])%list N2) as [N' M]. split; [exact N'|].
      intros c. rewrite M, in_app_iff. simpl. tauto.
Qed.

Lemma unique_spec (l : list string) :
  NoDup (unique l) /\ forall c, In c (unique l) <-> In c l.
Proof.
  destruct (unique_from l [] (NoDup_nil _)) as [N M].
  split; [exact N|]. intros c. unfold unique. rewrite M. simpl. tauto.
Qed.

Lemma filter_twice {A : Type} (f g : A -> bool) (l : list A) :
  filter f (filter g l) = filter (fun x => (g x && f x)%bool) l.
Proof.
  induction l as [|x l IH]; simpl; [reflexivity|].
  destruct (g x); simpl; [|exact IH].
  destruct (f x); now rewrite IH.
Qed.

End Menu.

(** X14. [get_menu] leaves the service as it is.  It lists the menu items
    that are available and, when a category that is not empty is given,
    belong to that category, in the order of the menu; [None] and the empty
    string ask for every category.  Its categories are those of the listed
    items, each once. *)
Theorem get_menu_spec :
  forall (self : OrderService.t) (category : option string),
    let response := fst (OrderService.get_menu self category) in
    snd (OrderService.get_menu self category) = self /\
    (forall m,
       In m (MenuResponse.items response) <->
       In m (OrderService.menu_items self) /\ listed category m) /\
    Subseq (MenuResponse.items response) (OrderService.menu_items self) /\
    NoDup (MenuResponse.categories response) /\
    (forall c,
       In c (MenuResponse.categories response) <->
       exists m, In m (MenuResponse.items response) /\ MenuItem.category m = c).
Proof.
  intros self category response.
  split; [reflexivity|].
  assert (Cat : forall c,
             In c (MenuResponse.categories response) <->
             exists m, In m (MenuResponse.items response) /\
                       MenuItem.category m = c).
  { intros c. unfold response, OrderService.get_menu. simpl.
    rewrite (proj2 (unique_spec _)), in_map_iff.
    split; intros (m & H1 & H2); eauto. }
  assert (ND : NoDup (MenuResponse.categories response)).
  { unfold response, OrderService.get_menu. simpl. apply unique_spec. }
  unfold response, OrderService.get_menu, listed in *. simpl in *.
  destruct category as [[|ch c]|]; simpl in *.
  - split; [|split; [apply filter_Subseq|auto]].
    intros m. rewrite filter_In. tauto.
  - rewrite filter_twice in *.
    split; [|split; [apply filter_Subseq|auto]].
    intros m. rewrite filter_In, andb_true_iff, String.eqb_eq.
    split; [tauto|]. intros (H1 & H2 & [H3|H3]); [discriminate|tauto].
  - split; [|split; [apply filter_Subseq|auto]].
    intros m. rewrite filter_In. tauto.
Qed.

(** ** Order identifiers *)

Section Identifiers.

Lemma length_append (a b : string) :
  String.length (a ++ b) = (String.length a + String.length b)%nat.
Proof. induction a as [|c a IH]; simpl; [reflexivity|now rewrite IH]. Qed.

Lemma append_inj (a a' b b' : string) :
  String.length a = String.length a' ->
  (a ++ b = a' ++ b')%string -> a = a' /\ b = b'.
Proof.
  revert a'. induction a as [|c a IH]; intros [|c' a'] L; simpl in *;
    try discriminate.
  - auto.
  - intros [= -> H]. injection L as L.
    destruct (IH a' L H) as [-> ->]. auto.
Qed.

Lemma upper_hex (s : string) :
  all_chars is_lower_hex s = true -> all_chars is_upper_hex (upper s) = true.
Proof.
  induction s as [|c s IH]; simpl; [reflexivity|].
  intros H. apply andb_true_iff in H as [Hc Hs].
  destruct (upper_char_hex c Hc) as [U _]. rewrite U. simpl. now apply IH.
Qed.

Lemma upper_char_inj (c c' : ascii) :
  is_lower_hex c = true -> is_lower_hex c' = true ->
  upper_char c = upper_char c' -> c = c'.
Proof.
  unfold is_lower_hex, upper_char, is_lower, is_digit, in_range.
  intros H H' E.
  rewrite <- (ascii_nat_embedding c), <- (ascii_nat_embedding c'). f_equal.
  pose proof (nat_ascii_bounded c) as B. pose proof (nat_ascii_bounded c') as B'.
  apply orb_true_iff in H, H'.
  destruct (Nat.leb 97 (nat_of_ascii c) && Nat.leb (nat_of_ascii c) 122)%bool
    eqn:L;
    destruct (Nat.leb 97 (nat_of_ascii c') && Nat.leb (nat_of_ascii c') 122)%bool
      eqn:L';
    try (apply andb_true_iff in L as [L1 L2]; apply Nat.leb_le in L1, L2);
    try (apply andb_true_iff in L' as [L1' L2']; apply Nat.leb_le in L1', L2').
  - apply (f_equal nat_of_ascii) in E.
    rewrite !nat_ascii_embedding in E by lia. lia.
  - apply (f_equal nat_of_ascii) in E.
    rewrite nat_ascii_embedding in E by lia.
    destruct H' as [H'|H']; apply andb_true_iff in H' as [A1 A2];
      apply Nat.leb_le in A1, A2.
    + destruct H as [H|H]; apply andb_true_iff in H as [A3 A4];
        apply Nat.leb_le in A3, A4; lia.
    + apply andb_false_iff in L' as [L'|L']; apply Nat.leb_gt in L'; lia.
  - apply (f_equal nat_of_ascii) in E.
    rewrite nat_ascii_embedding in E by lia.
    destruct H as [H|H]; apply andb_true_iff in H as [A1 A2];
      apply Nat.leb_le in A1, A2.
    + destruct H' as [H'|H']; apply andb_true_iff in H' as [A3 A4];
        apply Nat.leb_le in A3, A4; lia.
    + apply andb_false_iff in L as [L|L]; apply Nat.leb_gt in L; lia.
  - now rewrite E.
Qed.

Lemma upper_inj (s s' : string) :
  all_chars is_lower_hex s = true -> all_chars is_lower_hex s' = true ->
  upper s = upper s' -> s = s'.
Proof.
  revert s'. induction s as [|c s IH]; intros [|c' s']; simpl;
    try discriminate; [reflexivity|].
  intros H H' [= Ec Es].
  apply andb_true_iff in H as [Hc Hs]. apply andb_true_iff in H' as [Hc' Hs'].
  f_equal; [now apply upper_char_inj|now apply IH].
Qed.

End Identifiers.

(** X15. With the 8 digits of the date and a UUID in its usual writing, the
    identifier that [_generate_order_id] builds has 21 characters: ORD-, the
    date, a hyphen, and the first 8 hexadecimal digits of the UUID with
    their letters in upper case. *)
Theorem order_id_format :
  forall env : Env,
    date_str_ok (now_strftime env) ->
    uuid_str_ok (uuid4_str env) ->
    exists suffix,
      OrderService._generate_order_id env
      = ("ORD-" ++ now_strftime env ++ "-" ++ suffix)%string /\
      String.length suffix = 8%nat /\
      all_chars is_upper_hex suffix = true /\
      String.length (OrderService._generate_order_id env) = 21%nat.
Proof.
  intros env [Ld _] [Lu Hu].
  exists (upper (slice_to 8 (uuid4_str env))).
  assert (L8 : String.length (upper (slice_to 8 (uuid4_str env))) = 8%nat).
  { rewrite upper_length. apply slice_length. rewrite Lu.
    repeat constructor. }
  split; [reflexivity|]. split; [exact L8|]. split; [now apply upper_hex|].
  unfold OrderService._generate_order_id. cbv zeta.
  rewrite !length_append, Ld, L8. reflexivity.
Qed.

Lemma order_id_format_witness :
  exists suffix,
    OrderService._generate_order_id scenario_env
    = ("ORD-" ++ "20240115" ++ "-" ++ suffix)%string /\
    suffix = "3F2B8C1A".
Proof.
  destruct (order_id_format scenario_env) as (suffix & E & _).
  - split; reflexivity.
  - split; reflexivity.
  - exists suffix. split; [exact E|].
    simpl in E. now injection E.
Defined.

(** X16. Two generated identifiers are equal exactly when the dates are the
    same and the UUIDs agree on their first 8 hexadecimal digits: the rest
    of the UUID does not reach the identifier. *)
Theorem order_id_collision_iff :
  forall env env' : Env,
    date_str_ok (now_strftime env) -> date_str_ok (now_strftime env') ->
    uuid_str_ok (uuid4_str env) -> uuid_str_ok (uuid4_str env') ->
    (OrderService._generate_order_id env = OrderService._generate_order_id env'
     <->
     now_strftime env = now_strftime env' /\
     slice_to 8 (uuid4_str env) = slice_to 8 (uuid4_str env')).
Proof.
  intros env env' [Ld _] [Ld' _] [_ Hu] [_ Hu'].
  unfold OrderService._generate_order_id. cbv zeta. split.
  - intros E. simpl in E. injection E as E.
    apply append_inj in E as [Ed E]; [|congruence].
    simpl in E. injection E as E.
    split; [exact Ed|]. now apply upper_inj.
  - intros [-> ->]. reflexivity.
Qed.

Lemma order_id_collision_iff_witness :
  OrderService._generate_order_id scenario_env
  = OrderService._generate_order_id
      {| now_strftime := "20240115";
         uuid4_str := "3f2b8c1a-0000-4000-8000-ffffffffffff";
         utcnow := 1705320000 |}.
Proof.
  apply (order_id_collision_iff scenario_env
           {| now_strftime := "20240115";
              uuid4_str := "3f2b8c1a-0000-4000-8000-ffffffffffff";
              utcnow := 1705320000 |});
    try (split; reflexivity).
Defined.

(** ** History and cancellation *)

Section HistoryCancel.

Import OrderService.

Lemma dict_set_values_related (d : dict OrderResponse.t) (k : string)
    (o : OrderResponse.t) :
  dict_get k d = Some o ->
  Forall2 same_or_cancelled (dict_values d)
    (dict_values (dict_set k (OrderResponse.set_status "cancelled" o) d)).
Proof.
  assert (Refl : forall l : list OrderResponse.t,
             Forall2 same_or_cancelled l l).
  { induction l; constructor; [now left|assumption]. }
  induction d as [|[k' o'] d IH]; simpl; [discriminate|].
  destruct (String.eqb k' k).
  - intros [= ->]. simpl. constructor; [now right|apply Refl].
  - intros G. simpl. constructor; [now left|now apply IH].
Qed.

Lemma filter_related (p : OrderResponse.t -> bool)
    (l l' : list OrderResponse.t) :
  (forall o o', same_or_cancelled o o' -> p o' = p o) ->
  Forall2 same_or_cancelled l l' ->
  Forall2 same_or_cancelled (filter p l) (filter p l').
Proof.
  intros Hp. induction 1 as [|o o' l l' R _ IH]; simpl; [constructor|].
  rewrite (Hp o o' R). destruct (p o); [constructor|]; assumption.
Qed.

End HistoryCancel.

(** X17. [cancel_order] does not disturb the histories: for every phone
    number, the history after the call lists the same orders as before, in
    the same order, each one unchanged or with its status set to cancelled.
    In particular it has the same length and the same identifiers. *)
Theorem cancel_order_keeps_history :
  forall (self : OrderService.t) (order_id : string) (reason : option string)
         (customer_phone : string),
    let before := fst (OrderService.get_order_history self customer_phone) in
    let after :=
      fst (OrderService.get_order_history
             (snd (OrderService.cancel_order self order_id reason))
             customer_phone) in
    Forall2
      (fun o o' => o' = o \/ o' = OrderResponse.set_status "cancelled" o)
      before after /\
    List.length after = List.length before /\
    map OrderResponse.order_id after = map OrderResponse.order_id before.
Proof.
  intros self order_id reason customer_phone before after.
  assert (F : Forall2 same_or_cancelled before after).
  { unfold before, after, OrderService.get_order_history,
      OrderService.cancel_order. simpl.
    destruct (dict_get order_id (OrderService.orders self)) as [o|] eqn:G;
      simpl.
    - destruct (OrderService.cancellable (OrderResponse.status o)); simpl.
      + apply filter_related; [|now apply dict_set_values_related].
        intros o1 o2 [-> | ->]; reflexivity.
      + apply filter_related; [intros o1 o2 [-> | ->]; reflexivity|].
        induction (dict_values (OrderService.orders self)); constructor;
          [now left|assumption].
    - apply filter_related; [intros o1 o2 [-> | ->]; reflexivity|].
      induction (dict_values (OrderService.orders self)); constructor;
        [now left|assumption]. }
  split; [exact F|].
  split.
  - symmetry. eapply Forall2_length. exact F.
  - clear -F. induction F as [|o o' l l' R _ IH]; simpl; [reflexivity|].
    rewrite IH. destruct R as [-> | ->]; reflexivity.
Qed.

(** ** Amounts that a payment accepts *)

(** X18. [process_payment] succeeds exactly when the amount is a positive
    number or plus infinity; a NaN, a zero of either sign and every negative
    amount give the failed result.  The order identifier and the method have
    no influence on the status. *)
Theorem payment_success_iff :
  forall (self : PaymentService.t) (env : PayEnv) (order_id : string)
         (amount : float) (payment_method : string),
    exists d,
      fst (PaymentService.process_payment self env order_id amount
             payment_method) = Ok d /\
      (dict_get "status" d = Some (VStr "success") <->
       match Prim2SF amount with
       | S754_finite s _ _ | S754_infinity s => s = false
       | S754_zero _ | S754_nan => False
       end) /\
      (dict_get "status" d = Some (VStr "failed") <->
       match Prim2SF amount with
       | S754_finite s _ _ | S754_infinity s => s = true
       | S754_zero _ | S754_nan => True
       end).
Proof.
  intros self env order_id amount payment_method.
  unfold PaymentService.process_payment.
  pose proof (ltb_zero_iff amount) as P. unfold pos_sf in P.
  destruct (0 <? amount)%float; eexists; (split; [reflexivity|]); simpl.
  - assert (Q := proj1 P eq_refl).
    destruct (Prim2SF amount) as [s|s| |s m e]; try contradiction; subst s;
      split; split; auto; discriminate.
  - assert (Q : ~ match Prim2SF amount with
                  | S754_infinity s | S754_finite s _ _ => s = false
                  | _ => False
                  end).
    { intros X. apply P in X. discriminate. }
    destruct (Prim2SF amount) as [s|s| |s m e]; try destruct s;
      split; split; auto; try discriminate; try contradiction;
      intros; exfalso; apply Q; reflexivity.
Qed.

(** ** Sign of the stored total *)

(** X19. In every state that the service reaches from [__init__] by its
    public operations, orders being created from line items with a price
    greater than 0 and a quantity from 1 to 20, the [total_amount] of each
    stored order is at least 0; in particular it is never NaN. *)
Theorem stored_total_nonneg :
  forall self : OrderService.t,
    reachable_by items_checked self ->
    forall k o,
      In (k, o) (OrderService.orders self) ->
      (0 <=? OrderResponse.total_amount o)%float = true /\
      OrderResponse.total_amount o <> nan.
Proof.
  intros self R k o Hin.
  destruct (reachable_stored_ok self R k o Hin) as [(T & _ & _) Items].
  assert (N : nonneg_sf (Prim2SF (OrderResponse.total_amount o))).
  { rewrite T. apply py_round2_nonneg. now apply subtotal_nonneg. }
  split; [now apply leb_zero_nonneg|].
  intros E. rewrite E in N. vm_compute in N. exact N.
Qed.

Lemma stored_total_nonneg_witness :
  exists o,
    OrderService.orders infinite_service = [("ORD-20240115-3F2B8C1A", o)] /\
    (0 <=? OrderResponse.total_amount o)%float = true.
Proof.
  eexists. split; [reflexivity|].
  assert (R : reachable_by items_checked infinite_service).
  { apply reach_step; [apply reach_init|].
    repeat constructor; simpl; lia. }
  apply (stored_total_nonneg infinite_service R "ORD-20240115-3F2B8C1A" _
           (or_introl eq_refl)).
Defined.
